(** * PyTorch-StudioGAN: the training entry point [train_framework]

    A shallow embedding of [src/train.py].  The function is a long script
    of calls into collaborators (torch, the data pipeline, the checkpoint
    manager, the Trainer); the embedding keeps its control flow, the
    exceptions it raises itself, the objects it allocates and mutates, and
    the order of the calls it makes, which are recorded in a trace. *)

From stdpp Require Import gmap strings list fin_maps.
From Stdlib Require Import ZArith QArith Ascii String Lia.

Local Open Scope string_scope.
Local Open Scope list_scope.
Local Open Scope Z_scope.

(** ** Python values the script manipulates *)

(** Exceptions raised by the script itself or by the built-ins it uses. *)
Inductive exn :=
  | AssertionError (msg : string)
  | ZeroDivisionError
  | IndexError
  | KeyError (key : string)
  | AttributeError (attr : string)
  | ModuleNotFoundError (name : string)
  | NotImplementedError
  | NotADirectoryError.

(** Object references: Python variables hold references, and several
    variables (or attributes of other objects) may hold the same one. *)
Definition ref := nat.

(** The content of a [state_dict] (tensors) is opaque: a token. *)
Definition state_dict := Z.

(** [initialize] of [Generator] receives either the name of an
    initialisation scheme ([g_init]) or [False]. *)
Inductive init_arg :=
  | InitScheme (name : string)
  | InitFalse.

(** The classes instantiated, with the constructor arguments that the
    script varies: for [Generator] and [Discriminator] the
    [synchronized_bn] flag and the [initialize] argument. *)
Inductive module_class :=
  | Generator (synchronized_bn : bool) (initialize : init_arg)
  | Discriminator (synchronized_bn : bool) (initialize : init_arg)
  | InceptionV3
  | linear_classifier (in_channels : Z).

Inductive optim_kind :=
  | SGD (lr momentum : Q) (nesterov : bool)
  | RMSprop (lr momentum alpha : Q)
  | Adam (lr beta1 beta2 eps : Q).

(** Heap objects.  A network records its class, the device it was moved
    to, and the weights a checkpoint put into it ([None]: as constructed). *)
Inductive obj :=
  | Network (cls : module_class) (device : Z) (weights : option state_dict)
  | DataParallel (module : ref) (output_device : Z) (patched : bool)
  | Optimizer (kind : optim_kind) (params : ref) (loaded : option state_dict)
  | Ema (source target : ref) (decay : Q) (start : Z).

(** Adversarial losses of [utils.losses] (functions, used as values). *)
Inductive loss_fn :=
  | loss_dcgan_gen | loss_hinge_gen | loss_wgan_gen
  | loss_dcgan_dis | loss_hinge_dis | loss_wgan_dis.

Record dataset :=
  { ds_train : bool; ds_strategy : string; ds_consistency_reg : bool;
    ds_random_flip : bool; ds_len : Z }.

Record dataloader :=
  { dl_dataset : dataset; dl_batch_size : Z; dl_shuffle : bool;
    dl_num_workers : Z; dl_drop_last : bool }.

(** A checkpoint file: what [torch.save] stored in it. *)
Record checkpoint :=
  { ck_state_dict : state_dict;
    ck_optimizer : state_dict;
    ck_seed : Z;
    ck_run_name : string;
    ck_step : Z;
    ck_best_step : Z;
    ck_best_fid : option Q;
    ck_best_fid_checkpoint_path : option string }.

(** The four values [prepare_inception_moments_eval_dataset] returns. *)
Record moments := { m_mu : Z; m_sigma : Z; m_is_score : Q; m_is_std : Q }.

(** ** Configuration *)

Record train_config_t :=
  { checkpoint_folder : option string;
    tc_eval : bool;
    tc_train : bool;
    k_nearest_neighbor : bool;
    interpolation : bool;
    linear_evaluation : bool;
    nrow : Z;
    ncol : Z;
    step_linear_eval : Z;
    print_every : Z;
    save_every : Z }.

(** The arguments of [train_framework] that the script inspects or hands
    on.  [model_config] and the purely architectural arguments are only
    forwarded to constructors and to the Trainer; they are kept together
    as one opaque token. *)
Record config :=
  { seed : Z;
    num_workers : Z;
    config_path : string;
    reduce_train_dataset : Q;
    load_current : bool;
    type4eval_dataset : string;
    dataset_name : string;
    num_classes : Z;
    img_size : Z;
    architecture : string;
    conditional_strategy : string;
    hypersphere_dim : Z;
    optimizer : string;
    batch_size : Z;
    d_lr : Q;
    g_lr : Q;
    momentum : Q;
    nesterov : bool;
    alpha : Q;
    beta1 : Q;
    beta2 : Q;
    total_step : Z;
    adv_loss : string;
    consistency_reg : bool;
    g_init : string;
    d_init : string;
    random_flip_preprocessing : bool;
    ema : bool;
    ema_decay : Q;
    ema_start : Z;
    synchronized_bn : bool;
    train_config : train_config_t;
    model_config : Z }.

(** ** The environment

    Everything the script asks of the machine it runs on. *)
Record world :=
  { device_count : Z;                       (* torch.cuda.device_count() *)
    current_device : Z;                     (* torch.cuda.current_device() *)
    timestamp : string;                     (* the clock, for make_run_name *)
    dataset_size : bool -> Z;               (* len(LoadDataset(train=..)) *)
    has_module : string -> bool;            (* models.<architecture> imports *)
    out_dims : list Z;                      (* Discriminator.out_dims *)
    abspath : string -> string;
    exists_ : string -> bool;
    checkpoint_dir_of : option string -> string -> string;
    glob : string -> list string;
    torch_load : string -> checkpoint;
    inception_moments : string -> moments;  (* by eval mode *)
    evaluation_improves : Z -> bool }.      (* FID at a step beats the best *)

(** ** The Trainer object and the trace of calls *)

(** What [Trainer(...)] is constructed from (the keyword arguments that
    come from local variables of the script, plus the two configurations). *)
Record trainer :=
  { t_run_name : string;
    t_best_step : Z;
    t_logger : string;
    t_writer : string;
    t_n_gpus : Z;
    t_gen_model : ref;
    t_dis_model : ref;
    t_inception_model : option ref;
    t_Gen_copy : option ref;
    t_linear_model : option ref;
    t_Gen_ema : option ref;
    t_train_dataloader : dataloader;
    t_eval_dataloader : dataloader;
    t_conditional_strategy : string;
    t_G_optimizer : ref;
    t_D_optimizer : ref;
    t_L_optimizer : option ref;
    t_batch_size : Z;
    t_total_step : Z;
    t_G_loss : loss_fn;
    t_D_loss : loss_fn;
    t_ema : bool;
    t_default_device : Z;
    t_second_device : Z;
    t_print_every : Z;
    t_save_every : Z;
    t_checkpoint_dir : string;
    t_evaluate : bool;
    t_mu : option Z;
    t_sigma : option Z;
    t_best_fid : option Q;
    t_best_fid_checkpoint_path : option string;
    t_train_config : train_config_t;
    t_model_config : Z }.

(** The two training loops of the Trainer. *)
Inductive loop_variant := run | run_ours.

Inductive log_msg :=
  | LogRunName (run_name : string)
  | LogTrainConfig
  | LogModelConfig
  | LogLoadingTrain
  | LogTrainSize (n : Z)
  | LogLoadingEval (mode : string)
  | LogEvalSize (n : Z)
  | LogBuilding
  | LogModulesLocated (arch : string)
  | LogCountParameters (model : ref)
  | LogModel (model : ref)
  | LogGeneratorCheckpoint (path : string)
  | LogDiscriminatorCheckpoint (path : string).

(** One entry per call that leaves the script. *)
Inductive event :=
  | EvFixAllSeed (s : Z)
  | EvCudnn (benchmark deterministic : bool)
  | EvWarn
  | EvMakeLogger (run_name : string)
  | EvSummaryWriter (log_dir : string)
  | EvLog (logger : string) (msg : log_msg)
  | EvLoadDataset (d : dataset)
  | EvRandomSplit (kept rest : Z)
  | EvImport (name : string)
  | EvConstruct (r : ref) (cls : module_class)
  | EvPrintEma (decay : Q)
  | EvEma (r source target : ref)
  | EvDataParallel (r inner : ref) (output_device : Z)
  | EvPatchReplication (r : ref)
  | EvOptimizer (r : ref) (kind : optim_kind) (params : ref)
  | EvMakeCheckpointDir (folder : option string) (run_name : string)
  | EvLoadCheckpoint (model : ref) (optim : option ref) (filename : string)
                     (metric ema_flag : bool)
  | EvPrepareMoments (loader : dataloader) (generator : ref) (mode : string)
                     (inception : ref) (splits : Z) (run_name logger : string)
                     (device : Z)
  | EvTrainer (t : trainer)
  | EvLoop (v : loop_variant) (t : trainer) (current_step total : Z)
  | EvTrainStep (v : loop_variant) (step : Z)
  | EvSaveCheckpoint (step : Z)
  | EvEvaluation (t : trainer) (step : Z)
  | EvNearestNeighbor (t : trainer) (rows cols : Z)
  | EvLinearInterpolation (t : trainer) (rows cols : Z) (fix_z fix_y : bool)
  | EvLinearClassification (t : trainer) (steps : Z).

(** ** The monad: a heap, a trace, and exceptions

    An exception keeps the state reached when it was raised, so that what
    happened before a failure can be read off the trace. *)

Record state := { heap : gmap nat obj; next : ref; trace : list event }.

Definition initial : state := {| heap := ∅; next := 0%nat; trace := [] |}.

Inductive result (A : Type) :=
  | Raise (e : exn)
  | Return (a : A).
Arguments Raise {A} e.
Arguments Return {A} a.

Definition M (A : Type) : Type := state -> result A * state.

Definition ret {A} (a : A) : M A := fun s => (Return a, s).

Definition bind {A B} (m : M A) (k : A -> M B) : M B :=
  fun s => match m s with
           | (Return a, s') => k a s'
           | (Raise e, s') => (Raise e, s')
           end.

Definition raise {A} (e : exn) : M A := fun s => (Raise e, s).

Notation "'let*' x ':=' m 'in' k" := (bind m (fun x => k))
  (at level 10, x pattern, m at level 100, k at level 200).
Notation "m ';;' k" := (bind m (fun _ => k))
  (at level 100, k at level 200, right associativity).

Definition emit (e : event) : M unit :=
  fun s => (Return tt, {| heap := heap s; next := next s; trace := trace s ++ [e] |}).

Definition alloc (o : obj) : M ref :=
  fun s => (Return (next s),
            {| heap := <[next s := o]> (heap s); next := S (next s); trace := trace s |}).

Definition mutate (f : obj -> obj) (r : ref) : M unit :=
  fun s => (Return tt, {| heap := alter f r (heap s); next := next s; trace := trace s |}).

Definition deref (r : ref) : M (option obj) :=
  fun s => (Return (heap s !! r), s).

(** [assert cond, msg] *)
Definition py_assert (cond : bool) (msg : string) : M unit :=
  if cond then ret tt else raise (AssertionError msg).

(** [a % b] on Python integers: floored, the sign of the divisor. *)
Definition py_mod (a b : Z) : M Z :=
  if b =? 0 then raise ZeroDivisionError else ret (a mod b).

(** [l[0]] and [l[i]] for [0 <= i]. *)
Definition py_index {A} (l : list A) (i : nat) : M A :=
  match nth_error l i with
  | Some x => ret x
  | None => raise IndexError
  end.

(** [l[-1]] *)
Definition py_last {A} (l : list A) : M A :=
  match last l with
  | Some x => ret x
  | None => raise IndexError
  end.

(** [d[key]] on a dict with string keys. *)
Definition py_getitem {A} (d : gmap string A) (key : string) : M A :=
  match d !! key with
  | Some x => ret x
  | None => raise (KeyError key)
  end.

(** ** String helpers *)

(** [s.split('/')] *)
Fixpoint split_slash (s : string) : list string :=
  match s with
  | EmptyString => [EmptyString]
  | String c rest =>
      let parts := split_slash rest in
      if Ascii.eqb c "/" then EmptyString :: parts
      else match parts with
           | p :: ps => String c p :: ps
           | [] => [String c EmptyString]
           end
  end.

(** [s[:-5]] *)
Definition drop_last5 (s : string) : string :=
  String.substring 0 (String.length s - 5) s.

(** [os.path.join(a, b)] for two components. *)
Definition join (a b : string) : string :=
  if String.prefix "/" b then b
  else match a with
       | EmptyString => b
       | _ => match String.get (String.length a - 1) a with
              | Some "/"%char => a +:+ b
              | _ => a +:+ "/" +:+ b
              end
       end.

(** [int(q * n)]: truncation toward zero. *)
Definition int_of_scaled (q : Q) (n : Z) : Z :=
  Z.quot (Qnum q * n) (Z.pos (Qden q)).

(** [q < 1.0] *)
Definition lt_one (q : Q) : bool := Qnum q <? Z.pos (Qden q).

(** ** Collaborators called by the script *)

Definition RUN_NAME_FORMAT (framework phase stamp : string) : string :=
  framework +:+ "-" +:+ phase +:+ "-" +:+ stamp.

(** [utils.log.make_run_name]: fills the format with the current time. *)
Definition make_run_name (w : world) (framework phase : string) : string :=
  RUN_NAME_FORMAT framework phase (timestamp w).

(** A logger and a writer are identified by the run name and the log
    directory they were opened on. *)
Definition make_logger (run_name : string) : M string :=
  emit (EvMakeLogger run_name) ;; ret run_name.

Definition SummaryWriter (log_dir : string) : M string :=
  emit (EvSummaryWriter log_dir) ;; ret log_dir.

Definition logger_info (logger : string) (msg : log_msg) : M unit :=
  emit (EvLog logger msg).

Definition LoadDataset (w : world) (train : bool) (strategy : string)
    (consistency random_flip : bool) : M dataset :=
  let d := {| ds_train := train; ds_strategy := strategy;
              ds_consistency_reg := consistency; ds_random_flip := random_flip;
              ds_len := dataset_size w train |} in
  emit (EvLoadDataset d) ;; ret d.

Definition DataLoader (d : dataset) (bs : Z) (shuffle : bool) (workers : Z)
    (drop_last : bool) : dataloader :=
  {| dl_dataset := d; dl_batch_size := bs; dl_shuffle := shuffle;
     dl_num_workers := workers; dl_drop_last := drop_last |}.

(** [cls(...).to(device)] *)
Definition construct (cls : module_class) (device : Z) : M ref :=
  let* r := alloc (Network cls device None) in
  emit (EvConstruct r cls) ;; ret r.

(** [utils.biggan_utils.ema_(source, target, decay, start_itr)] *)
Definition ema_ (source target : ref) (decay : Q) (start : Z) : M ref :=
  let* r := alloc (Ema source target decay start) in
  emit (EvEma r source target) ;; ret r.

(** [DataParallel(module, output_device=...)]: a new object that refers to
    the wrapped one. *)
Definition data_parallel (inner : ref) (output_device : Z) : M ref :=
  let* r := alloc (DataParallel inner output_device false) in
  emit (EvDataParallel r inner output_device) ;; ret r.

Definition set_patched (o : obj) : obj :=
  match o with
  | DataParallel inner dev _ => DataParallel inner dev true
  | _ => o
  end.

(** [sync_batchnorm.replicate.patch_replication_callback]: changes the
    replica object in place. *)
Definition patch_replication_callback (r : ref) : M unit :=
  emit (EvPatchReplication r) ;; mutate set_patched r.

Definition make_optimizer (kind : optim_kind) (params : ref) : M ref :=
  let* r := alloc (Optimizer kind params None) in
  emit (EvOptimizer r kind params) ;; ret r.

Definition make_checkpoint_dir (w : world) (folder : option string)
    (run_name : string) : M string :=
  emit (EvMakeCheckpointDir folder run_name) ;;
  ret (checkpoint_dir_of w folder run_name).

Definition set_weights (sd : state_dict) (o : obj) : obj :=
  match o with
  | Network cls dev _ => Network cls dev (Some sd)
  | _ => o
  end.

Definition set_optimizer_state (sd : state_dict) (o : obj) : obj :=
  match o with
  | Optimizer kind params _ => Optimizer kind params (Some sd)
  | _ => o
  end.

(** [model.load_state_dict]: on a replica the weights go to the wrapped
    network. *)
Definition load_state_dict (model : ref) (sd : state_dict) : M unit :=
  let* o := deref model in
  match o with
  | Some (DataParallel inner _ _) => mutate (set_weights sd) inner
  | _ => mutate (set_weights sd) model
  end.

(** Modelled from the spec: [utils.load_checkpoint.load_checkpoint] is not
    among the sources.  The specification gives
    [load(model, optimizer, slot) -> (model, optimizer, seed, run_name,
    step, best_step[, best_score, best_score_path])] and "restoring a
    Generator-EMA checkpoint loads weights only (no optimizer state)".
    The model and the optimizer are restored in place and handed back, so
    the embedding returns the record read from the file and the caller
    keeps its references; which fields the caller unpacks depends on
    [metric] and [ema]. *)
Definition load_checkpoint (w : world) (model : ref) (optim : option ref)
    (filename : string) (metric ema_flag : bool) : M checkpoint :=
  emit (EvLoadCheckpoint model optim filename metric ema_flag) ;;
  let ck := torch_load w filename in
  load_state_dict model (ck_state_dict ck) ;;
  (if ema_flag then ret tt
   else match optim with
        | Some o => mutate (set_optimizer_state (ck_optimizer ck)) o
        | None => raise (AttributeError "load_state_dict")
        end) ;;
  ret ck.

(** [metrics.prepare_inception_moments_eval_dataset]: one pass of the
    feature extractor over the evaluation data. *)
Definition prepare_inception_moments_eval_dataset (w : world)
    (loader : dataloader) (generator : ref) (eval_mode : string)
    (inception : ref) (splits : Z) (run_name logger : string) (device : Z)
    : M moments :=
  emit (EvPrepareMoments loader generator eval_mode inception splits
          run_name logger device) ;;
  ret (inception_moments w eval_mode).

(** ** The Trainer's methods *)

(** Modelled from the spec: [trainer.py] is not among the sources.
    "[evaluation(step)]: generates a fixed number of samples, embeds them
    with the feature extractor, computes distributional-distance and
    quality scores against the cached Reference Statistics, logs and
    returns a boolean improved flag."  It works from the statistics the
    Trainer was constructed with. *)
Definition evaluation (w : world) (t : trainer) (step : Z) : M bool :=
  emit (EvEvaluation t step) ;; ret (evaluation_improves w step).

(** "every [save_every] steps" *)
Definition at_cadence (step every : Z) : bool :=
  (0 <? every) && (step mod every =? 0).

(** Modelled from the spec: the per-iteration protocol of the Trainer
    (section 4.5).  One iteration is the D_STEP/G_STEP alternation, then
    the gates: "every [save_every] steps, transition to CHECKPOINT_GATE",
    which saves the current checkpoints and, "if a full evaluation pass is
    configured at this cadence", evaluates against the cached reference
    statistics.  "Loop terminates when the step counter reaches
    [total_step], returning the final step count." *)
Fixpoint iterate (w : world) (fuel : nat) (v : loop_variant) (t : trainer)
    (step total : Z) : M Z :=
  match fuel with
  | O => ret step
  | S fuel' =>
      if step <? total then
        emit (EvTrainStep v step) ;;
        let step' := step + 1 in
        (if at_cadence step' (t_save_every t) then
           emit (EvSaveCheckpoint step') ;;
           (if t_evaluate t then evaluation w t step' ;; ret tt else ret tt)
         else ret tt) ;;
        iterate w fuel' v t step' total
      else ret step
  end.

(** [trainer.run(current_step, total_step)] and
    [trainer.run_ours(current_step, total_step)]. *)
Definition training_loop (w : world) (v : loop_variant) (t : trainer)
    (current_step total : Z) : M Z :=
  emit (EvLoop v t current_step total) ;;
  iterate w (Z.to_nat (total - current_step)) v t current_step total.

Definition Nearest_Neighbor (t : trainer) (rows cols : Z) : M unit :=
  emit (EvNearestNeighbor t rows cols).

Definition linear_interpolation (t : trainer) (rows cols : Z)
    (fix_z fix_y : bool) : M unit :=
  emit (EvLinearInterpolation t rows cols fix_z fix_y).

Definition linear_classification (t : trainer) (steps : Z) : M unit :=
  emit (EvLinearClassification t steps).

(** ** [train_framework], part by part

    The body of [train_framework] is one long block; it is cut here where
    the source has blank lines, each part receiving the local variables it
    reads and returning the ones it binds. *)

(** Lines 48-58: seeds, devices, and the batch-size check. *)
Definition check_devices (w : world) (c : config) : M (Z * Z * Z) :=
  emit (EvFixAllSeed (seed c)) ;;
  emit (EvCudnn false true) ;;
  let n_gpus := device_count w in
  let default_device := current_device w in
  let second_device :=
    if (n_gpus =? 1) || String.eqb (conditional_strategy c) "Proxy_NCA_GAN"
    then default_device else default_device + 1 in
  let* remainder := py_mod (batch_size c) n_gpus in
  py_assert (remainder =? 0)
    "batch_size should be divided by the number of gpus " ;;
  (if n_gpus =? 1 then emit EvWarn else ret tt) ;;
  ret (n_gpus, default_device, second_device).

(** Lines 60-69: the run name, the logger and the writer. *)
Definition start_run (w : world) (c : config) : M (string * string * string) :=
  let* part := py_index (split_slash (config_path c)) 3 in
  let run_name := make_run_name w (drop_last5 part) "train" in
  let* logger := make_logger run_name in
  let* writer := SummaryWriter (join "./logs" run_name) in
  logger_info logger (LogRunName run_name) ;;
  logger_info logger LogTrainConfig ;;
  logger_info logger LogModelConfig ;;
  ret (run_name, logger, writer).

(** Lines 71-83: the training and the evaluation datasets. *)
Definition load_datasets (w : world) (c : config) (logger : string)
    : M (dataset * dataset) :=
  logger_info logger LogLoadingTrain ;;
  let* full := LoadDataset w true (conditional_strategy c) (consistency_reg c)
                 (random_flip_preprocessing c) in
  let* train_dataset :=
    if lt_one (reduce_train_dataset c) then
      let num_train := int_of_scaled (reduce_train_dataset c) (ds_len full) in
      emit (EvRandomSplit num_train (ds_len full - num_train)) ;;
      ret {| ds_train := ds_train full; ds_strategy := ds_strategy full;
             ds_consistency_reg := ds_consistency_reg full;
             ds_random_flip := ds_random_flip full; ds_len := num_train |}
    else ret full in
  logger_info logger (LogTrainSize (ds_len train_dataset)) ;;
  logger_info logger (LogLoadingEval (type4eval_dataset c)) ;;
  let eval_mode := String.eqb (type4eval_dataset c) "train" in
  let* eval_dataset := LoadDataset w eval_mode "no" false false in
  logger_info logger (LogEvalSize (ds_len eval_dataset)) ;;
  ret (train_dataset, eval_dataset).

(** Lines 85-117: the Generator, the Discriminator, the EMA copy, and
    their replication over several devices. *)
Definition build_models (w : world) (c : config) (logger : string)
    (n_gpus default_device second_device : Z)
    : M (ref * ref * option ref * option ref) :=
  logger_info logger LogBuilding ;;
  (if String.eqb (architecture c) "dcgan" then
     py_assert (img_size c =? 32)
       "Sry, StudioGAN does not support dcgan models for generation of images larger than 32 resolution."
   else ret tt) ;;
  let name := "models." +:+ architecture c in
  (if has_module w name then emit (EvImport name)
   else raise (ModuleNotFoundError name)) ;;
  logger_info logger (LogModulesLocated (architecture c)) ;;
  let* Gen := construct (Generator (synchronized_bn c) (InitScheme (g_init c)))
                default_device in
  let* Dis := construct (Discriminator (synchronized_bn c) (InitScheme (d_init c)))
                default_device in
  let* (Gen_copy, Gen_ema) :=
    if ema c then
      emit (EvPrintEma (ema_decay c)) ;;
      let* Gen_copy := construct (Generator false InitFalse) default_device in
      let* Gen_ema := ema_ Gen Gen_copy (ema_decay c) (ema_start c) in
      ret (Some Gen_copy, Some Gen_ema)
    else ret (None, None) in
  let* (Gen, Dis, Gen_copy) :=
    if 1 <? n_gpus then
      let* Gen := data_parallel Gen second_device in
      let* Dis := data_parallel Dis second_device in
      let* Gen_copy :=
        if ema c then
          match Gen_copy with
          | Some g => let* g' := data_parallel g second_device in ret (Some g')
          | None => raise (AttributeError "parameters")
          end
        else ret Gen_copy in
      (if synchronized_bn c then
         patch_replication_callback Gen ;;
         patch_replication_callback Dis
       else ret tt) ;;
      ret (Gen, Dis, Gen_copy)
    else ret (Gen, Dis, Gen_copy) in
  logger_info logger (LogCountParameters Gen) ;;
  logger_info logger (LogModel Gen) ;;
  logger_info logger (LogCountParameters Dis) ;;
  logger_info logger (LogModel Dis) ;;
  ret (Gen, Dis, Gen_copy, Gen_ema).

(** Lines 122-123: the loss functions registered per [adv_loss] key. *)
Definition G_loss : gmap string loss_fn :=
  <["vanilla" := loss_dcgan_gen]>
    (<["hinge" := loss_hinge_gen]> (<["wasserstein" := loss_wgan_gen]> ∅)).

Definition D_loss : gmap string loss_fn :=
  <["vanilla" := loss_dcgan_dis]>
    (<["hinge" := loss_hinge_dis]> (<["wasserstein" := loss_wgan_dis]> ∅)).

Definition eps : Q := 1 # 1000000.

(** Lines 125-135: the two optimizers. *)
Definition build_optimizers (c : config) (Gen Dis : ref) : M (ref * ref) :=
  if String.eqb (optimizer c) "SGD" then
    let* G_optimizer :=
      make_optimizer (SGD (g_lr c) (momentum c) (nesterov c)) Gen in
    let* D_optimizer :=
      make_optimizer (SGD (d_lr c) (momentum c) (nesterov c)) Dis in
    ret (G_optimizer, D_optimizer)
  else if String.eqb (optimizer c) "RMSprop" then
    let* G_optimizer :=
      make_optimizer (RMSprop (g_lr c) (momentum c) (alpha c)) Gen in
    let* D_optimizer :=
      make_optimizer (RMSprop (d_lr c) (momentum c) (alpha c)) Dis in
    ret (G_optimizer, D_optimizer)
  else if String.eqb (optimizer c) "Adam" then
    let* G_optimizer :=
      make_optimizer (Adam (g_lr c) (beta1 c) (beta2 c) eps) Gen in
    let* D_optimizer :=
      make_optimizer (Adam (d_lr c) (beta1 c) (beta2 c) eps) Dis in
    ret (G_optimizer, D_optimizer)
  else raise NotImplementedError.

(** The local variables that the resume block may rebind. *)
Record session :=
  { s_run_name : string;
    s_logger : string;
    s_writer : string;
    s_Gen_copy : option ref;
    s_step : Z;
    s_best_step : Z;
    s_best_fid : option Q;
    s_best_fid_checkpoint_path : option string;
    s_checkpoint_dir : string }.

(** The file-name pattern of a checkpoint: role and slot. *)
Definition checkpoint_pattern (role when_ : string) : string :=
  "model=" +:+ role +:+ "-" +:+ when_ +:+ "-weights-step*.pth".

Definition rebind (source target : ref) (o : obj) : obj :=
  match o with
  | Ema _ _ decay start => Ema source target decay start
  | _ => o
  end.

(** Lines 137-157: resume from a checkpoint folder, or start afresh.
    [Gen], [Dis] and the optimizers are restored in place; [load_checkpoint]
    hands the same objects back. *)
Definition resume (w : world) (c : config) (run_name logger writer : string)
    (Gen Dis G_optimizer D_optimizer : ref) (Gen_copy Gen_ema : option ref)
    : M session :=
  let '(step, best_step, best_fid, best_fid_checkpoint_path) :=
    (0, 0, @None Q, @None string) in
  match checkpoint_folder (train_config c) with
  | Some folder =>
      let when_ := if load_current c then "current" else "best" in
      (if exists_ w (abspath w folder) then ret tt
       else raise NotADirectoryError) ;;
      let* checkpoint_dir := make_checkpoint_dir w (Some folder) run_name in
      let* g_checkpoint_dir :=
        py_index (glob w (join checkpoint_dir (checkpoint_pattern "G" when_))) 0 in
      let* d_checkpoint_dir :=
        py_index (glob w (join checkpoint_dir (checkpoint_pattern "D" when_))) 0 in
      let* g := load_checkpoint w Gen (Some G_optimizer) g_checkpoint_dir
                  false false in
      let '(trained_seed, run_name, step, best_step) :=
        (ck_seed g, ck_run_name g, ck_step g, ck_best_step g) in
      let* d := load_checkpoint w Dis (Some D_optimizer) d_checkpoint_dir
                  true false in
      let '(trained_seed, run_name, step, best_step, best_fid,
            best_fid_checkpoint_path) :=
        (ck_seed d, ck_run_name d, ck_step d, ck_best_step d, ck_best_fid d,
         ck_best_fid_checkpoint_path d) in
      let* logger := make_logger run_name in
      let* Gen_copy :=
        if ema c then
          let* g_ema_checkpoint_dir :=
            py_index
              (glob w (join checkpoint_dir (checkpoint_pattern "G_ema" when_)))
              0 in
          match Gen_copy, Gen_ema with
          | Some copy, Some updater =>
              load_checkpoint w copy None g_ema_checkpoint_dir false true ;;
              mutate (rebind Gen copy) updater ;;
              ret (Some copy)
          | _, _ => raise (AttributeError "load_state_dict")
          end
        else ret Gen_copy in
      let* writer := SummaryWriter (join "./logs" run_name) in
      py_assert (seed c =? trained_seed)
        "seed for sampling random numbers should be same!" ;;
      logger_info logger (LogGeneratorCheckpoint g_checkpoint_dir) ;;
      logger_info logger (LogDiscriminatorCheckpoint d_checkpoint_dir) ;;
      ret {| s_run_name := run_name; s_logger := logger; s_writer := writer;
             s_Gen_copy := Gen_copy; s_step := step; s_best_step := best_step;
             s_best_fid := best_fid;
             s_best_fid_checkpoint_path := best_fid_checkpoint_path;
             s_checkpoint_dir := checkpoint_dir |}
  | None =>
      let* checkpoint_dir := make_checkpoint_dir w None run_name in
      ret {| s_run_name := run_name; s_logger := logger; s_writer := writer;
             s_Gen_copy := Gen_copy; s_step := step; s_best_step := best_step;
             s_best_fid := best_fid;
             s_best_fid_checkpoint_path := best_fid_checkpoint_path;
             s_checkpoint_dir := checkpoint_dir |}
  end.

(** Lines 159-171: the reference statistics of the evaluation data. *)
Definition reference_statistics (w : world) (c : config)
    (eval_dataloader : dataloader) (Gen : ref) (run_name logger : string)
    (default_device second_device : Z)
    : M (option Z * option Z * option ref) :=
  if tc_eval (train_config c) then
    let* inception_model := construct InceptionV3 default_device in
    let* inception_model := data_parallel inception_model second_device in
    let* stats :=
      prepare_inception_moments_eval_dataset w eval_dataloader Gen
        (type4eval_dataset c) inception_model 10 run_name logger
        second_device in
    let '(mu, sigma, is_score, is_std) :=
      (m_mu stats, m_sigma stats, m_is_score stats, m_is_std stats) in
    ret (Some mu, Some sigma, Some inception_model)
  else ret (None, None, None).

(** [Dis.out_dims]: an attribute of the Discriminator network; a
    [DataParallel] replica does not forward it. *)
Definition get_out_dims (w : world) (Dis : ref) : M (list Z) :=
  let* o := deref Dis in
  match o with
  | Some (Network (Discriminator _ _) _ _) => ret (out_dims w)
  | _ => raise (AttributeError "out_dims")
  end.

(** Lines 173-191: the linear probe and its optimizer. *)
Definition linear_probe (w : world) (c : config) (Dis : ref)
    (n_gpus default_device second_device : Z)
    : M (option ref * option ref) :=
  if linear_evaluation (train_config c) then
    let* in_channels :=
      if String.eqb (conditional_strategy c) "ContraGAN"
      then ret (hypersphere_dim c)
      else let* dims := get_out_dims w Dis in py_last dims in
    let* linear_model := construct (linear_classifier in_channels) default_device in
    let* linear_model :=
      if 1 <? n_gpus then
        let* linear_model := data_parallel linear_model second_device in
        (if synchronized_bn c then patch_replication_callback linear_model
         else ret tt) ;;
        ret linear_model
      else ret linear_model in
    let* L_optimizer :=
      if String.eqb (optimizer c) "SGD" then
        make_optimizer (SGD (g_lr c) (momentum c) (nesterov c)) linear_model
      else if String.eqb (optimizer c) "RMSprop" then
        make_optimizer (RMSprop (g_lr c) (momentum c) (alpha c)) linear_model
      else if String.eqb (optimizer c) "Adam" then
        make_optimizer (Adam (g_lr c) (beta1 c) (beta2 c) eps) linear_model
      else raise NotImplementedError in
    ret (Some linear_model, Some L_optimizer)
  else ret (None, None).

(** The local variables bound by lines 48-135 and read afterwards. *)
Record built :=
  { b_n_gpus : Z;
    b_default_device : Z;
    b_second_device : Z;
    b_run_name : string;
    b_logger : string;
    b_writer : string;
    b_Gen : ref;
    b_Dis : ref;
    b_Gen_copy : option ref;
    b_Gen_ema : option ref;
    b_train_dataloader : dataloader;
    b_eval_dataloader : dataloader;
    b_G_optimizer : ref;
    b_D_optimizer : ref }.

(** The local variables bound before the Trainer is constructed (lines
    48-192) and read afterwards. *)
Record prepared :=
  { p_n_gpus : Z;
    p_default_device : Z;
    p_second_device : Z;
    p_Gen : ref;
    p_Dis : ref;
    p_Gen_ema : option ref;
    p_train_dataloader : dataloader;
    p_eval_dataloader : dataloader;
    p_G_optimizer : ref;
    p_D_optimizer : ref;
    p_session : session;
    p_mu : option Z;
    p_sigma : option Z;
    p_inception_model : option ref;
    p_linear_model : option ref;
    p_L_optimizer : option ref }.

(** Lines 195-261: the keyword arguments of [Trainer(...)], given the two
    losses selected. *)
Definition Trainer (c : config) (p : prepared) (g_loss d_loss : loss_fn)
    : trainer :=
  let ss := p_session p in
  {| t_run_name := s_run_name ss;
     t_best_step := s_best_step ss;
     t_logger := s_logger ss;
     t_writer := s_writer ss;
     t_n_gpus := p_n_gpus p;
     t_gen_model := p_Gen p;
     t_dis_model := p_Dis p;
     t_inception_model := p_inception_model p;
     t_Gen_copy := s_Gen_copy ss;
     t_linear_model := p_linear_model p;
     t_Gen_ema := p_Gen_ema p;
     t_train_dataloader := p_train_dataloader p;
     t_eval_dataloader := p_eval_dataloader p;
     t_conditional_strategy := conditional_strategy c;
     t_G_optimizer := p_G_optimizer p;
     t_D_optimizer := p_D_optimizer p;
     t_L_optimizer := p_L_optimizer p;
     t_batch_size := batch_size c;
     t_total_step := total_step c;
     t_G_loss := g_loss;
     t_D_loss := d_loss;
     t_ema := ema c;
     t_default_device := p_default_device p;
     t_second_device := p_second_device p;
     t_print_every := print_every (train_config c);
     t_save_every := save_every (train_config c);
     t_checkpoint_dir := s_checkpoint_dir ss;
     t_evaluate := tc_eval (train_config c);
     t_mu := p_mu p;
     t_sigma := p_sigma p;
     t_best_fid := s_best_fid ss;
     t_best_fid_checkpoint_path := s_best_fid_checkpoint_path ss;
     t_train_config := train_config c;
     t_model_config := model_config c |}.

(** Lines 194-262: the Trainer.  The keyword arguments are evaluated in
    order; the only ones that can fail are the two loss look-ups. *)
Definition make_trainer (c : config) (p : prepared) : M trainer :=
  let* g_loss := py_getitem G_loss (adv_loss c) in
  let* d_loss := py_getitem D_loss (adv_loss c) in
  let t := Trainer c p g_loss d_loss in
  emit (EvTrainer t) ;; ret t.

(** [conditional_strategy in ['ContraGAN', "Proxy_NCA_GAN", "XT_Xent_GAN"]] *)
Definition contrastive_strategy (name : string) : bool :=
  String.eqb name "ContraGAN" || String.eqb name "Proxy_NCA_GAN"
  || String.eqb name "XT_Xent_GAN".

(** Lines 264-267: the training loop, in one of its two variants. *)
Definition dispatch (w : world) (c : config) (t : trainer) (step : Z) : M Z :=
  if contrastive_strategy (conditional_strategy c) && tc_train (train_config c)
  then training_loop w run_ours t step (total_step c)
  else if tc_train (train_config c)
  then training_loop w run t step (total_step c)
  else ret step.

(** Lines 269-280: evaluation, visualisation and probing passes. *)
Definition closing_passes (w : world) (c : config) (t : trainer) (step : Z)
    : M unit :=
  let tc := train_config c in
  (if tc_eval tc then let* is_save := evaluation w t step in ret tt
   else ret tt) ;;
  (if k_nearest_neighbor tc then Nearest_Neighbor t (nrow tc) (ncol tc)
   else ret tt) ;;
  (if interpolation tc then
     linear_interpolation t (nrow tc) (ncol tc) true false ;;
     linear_interpolation t (nrow tc) (ncol tc) false true
   else ret tt) ;;
  (if linear_evaluation tc then linear_classification t (step_linear_eval tc)
   else ret tt).

(** ** [train_framework] *)

(** Lines 48-135: everything up to the optimizers. *)
Definition build (w : world) (c : config) : M built :=
  let* (n_gpus, default_device, second_device) := check_devices w c in
  let* (run_name, logger, writer) := start_run w c in
  let* (train_dataset, eval_dataset) := load_datasets w c logger in
  let* (Gen, Dis, Gen_copy, Gen_ema) :=
    build_models w c logger n_gpus default_device second_device in
  let train_dataloader :=
    DataLoader train_dataset (batch_size c) true (num_workers c) true in
  let eval_dataloader :=
    DataLoader eval_dataset (batch_size c) true (num_workers c) false in
  let* (G_optimizer, D_optimizer) := build_optimizers c Gen Dis in
  ret {| b_n_gpus := n_gpus; b_default_device := default_device;
         b_second_device := second_device; b_run_name := run_name;
         b_logger := logger; b_writer := writer; b_Gen := Gen; b_Dis := Dis;
         b_Gen_copy := Gen_copy; b_Gen_ema := Gen_ema;
         b_train_dataloader := train_dataloader;
         b_eval_dataloader := eval_dataloader;
         b_G_optimizer := G_optimizer; b_D_optimizer := D_optimizer |}.

(** Lines 137-192: resume, reference statistics, linear probe. *)
Definition finish (w : world) (c : config) (b : built) : M prepared :=
  let* ss := resume w c (b_run_name b) (b_logger b) (b_writer b) (b_Gen b)
               (b_Dis b) (b_G_optimizer b) (b_D_optimizer b) (b_Gen_copy b)
               (b_Gen_ema b) in
  let* (mu, sigma, inception_model) :=
    reference_statistics w c (b_eval_dataloader b) (b_Gen b) (s_run_name ss)
      (s_logger ss) (b_default_device b) (b_second_device b) in
  let* (linear_model, L_optimizer) :=
    linear_probe w c (b_Dis b) (b_n_gpus b) (b_default_device b)
      (b_second_device b) in
  ret {| p_n_gpus := b_n_gpus b; p_default_device := b_default_device b;
         p_second_device := b_second_device b; p_Gen := b_Gen b;
         p_Dis := b_Dis b; p_Gen_ema := b_Gen_ema b;
         p_train_dataloader := b_train_dataloader b;
         p_eval_dataloader := b_eval_dataloader b;
         p_G_optimizer := b_G_optimizer b; p_D_optimizer := b_D_optimizer b;
         p_session := ss; p_mu := mu; p_sigma := sigma;
         p_inception_model := inception_model;
         p_linear_model := linear_model; p_L_optimizer := L_optimizer |}.

(** Lines 48-192: everything before the Trainer's construction. *)
Definition prepare (w : world) (c : config) : M prepared :=
  let* b := build w c in
  finish w c b.

(** Lines 194-280: the Trainer, the training loop, the closing passes. *)
Definition operate (w : world) (c : config) (p : prepared) : M unit :=
  let* t := make_trainer c p in
  let* step := dispatch w c t (s_step (p_session p)) in
  closing_passes w c t step.

Definition train_framework (w : world) (c : config) : M unit :=
  let* p := prepare w c in
  operate w c p.

(** * Vocabulary of the statements and proofs *)

(** ** Classes of events *)

(** A training loop is entered, or one of its iterations runs. *)
Definition is_training (e : event) : bool :=
  match e with
  | EvLoop _ _ _ _ | EvTrainStep _ _ => true
  | _ => false
  end.

(** A Generator or a Discriminator is constructed. *)
Definition is_model_construction (e : event) : bool :=
  match e with
  | EvConstruct _ (Generator _ _) | EvConstruct _ (Discriminator _ _) => true
  | _ => false
  end.

(** The reference-statistics preparer is invoked. *)
Definition is_prepare (e : event) : bool :=
  match e with
  | EvPrepareMoments _ _ _ _ _ _ _ _ => true
  | _ => false
  end.

(** Events of the Trainer: its construction and its method calls,
    including what its loops do. *)
Definition is_trainer_event (e : event) : bool :=
  match e with
  | EvTrainer _ | EvLoop _ _ _ _ | EvTrainStep _ _ | EvSaveCheckpoint _
  | EvEvaluation _ _ | EvNearestNeighbor _ _ _
  | EvLinearInterpolation _ _ _ _ _ | EvLinearClassification _ _ => true
  | _ => false
  end.

Definition emits {A} (P : event -> Prop) (m : M A) : Prop :=
  forall s r s', m s = (r, s') ->
    exists evs, trace s' = trace s ++ evs /\ Forall P evs.

Definition holds (p : event -> bool) : event -> Prop := fun e => p e = true.

(** The outcome and the calls of a whole run, from the initial state. *)
Definition outcome (w : world) (c : config) : result unit :=
  fst (train_framework w c initial).

Definition calls (w : world) (c : config) : list event :=
  trace (snd (train_framework w c initial)).

(** The state after some more calls. *)
Definition after (s : state) (evs : list event) : state :=
  {| heap := heap s; next := next s; trace := trace s ++ evs |}.

Definition batch_size_message : string :=
  "batch_size should be divided by the number of gpus ".

Definition seed_message : string :=
  "seed for sampling random numbers should be same!".

Definition supported_adv_losses : list string := ["vanilla"; "hinge"; "wasserstein"].

(** The pair of losses registered under a key, when both tables have it. *)
Definition registered (key : string) : option (loss_fn * loss_fn) :=
  match G_loss !! key, D_loss !! key with
  | Some g, Some d => Some (g, d)
  | _, _ => None
  end.

(** What a loop of Trainer [t] does between its entry and its return. *)
Definition loop_body_event (t : trainer) (e : event) : Prop :=
  match e with
  | EvTrainStep _ _ | EvSaveCheckpoint _ => True
  | EvEvaluation t' _ => t' = t
  | _ => False
  end.

(** The step counters at which iterations ran. *)
Definition train_steps (evs : list event) : list Z :=
  omap (fun e => match e with EvTrainStep _ st => Some st | _ => None end) evs.

(** The loop that lines 264-267 select for a conditional strategy. *)
Definition selected_variant (c : config) : loop_variant :=
  if contrastive_strategy (conditional_strategy c) then run_ours else run.

(** What the loop of lines 264-267 contributes to the trace. *)
Definition loop_part (c : config) (t : trainer) (start : Z) (evs : list event)
    : Prop :=
  if tc_train (train_config c) then
    exists body,
      evs = EvLoop (selected_variant c) t start (total_step c) :: body
      /\ Forall (loop_body_event t) body
      /\ train_steps body = seqZ start (total_step c - start)
  else evs = [].

(** The step counter after lines 264-267. *)
Definition final_step (c : config) (start : Z) : Z :=
  if tc_train (train_config c) then Z.max start (total_step c) else start.

(** The calls of lines 269-280. *)
Definition closing_calls (c : config) (t : trainer) (step : Z) : list event :=
  let tc := train_config c in
  (if tc_eval tc then [EvEvaluation t step] else [])
  ++ (if k_nearest_neighbor tc then [EvNearestNeighbor t (nrow tc) (ncol tc)]
      else [])
  ++ (if interpolation tc then
        [EvLinearInterpolation t (nrow tc) (ncol tc) true false;
         EvLinearInterpolation t (nrow tc) (ncol tc) false true]
      else [])
  ++ (if linear_evaluation tc then
        [EvLinearClassification t (step_linear_eval tc)]
      else []).

(** The loops entered, in order. *)
Definition loops_of (evs : list event) : list loop_variant :=
  omap (fun e => match e with EvLoop v _ _ _ => Some v | _ => None end) evs.

Definition is_ema (o : obj) : Prop :=
  match o with
  | Ema _ _ _ _ => True
  | _ => False
  end.

(** [keeps m]: [m] never reuses a reference, and an EMA updater allocated
    before [m] is the same object after it. *)
Definition keeps {A} (m : M A) : Prop :=
  forall s r s', m s = (r, s') ->
    (next s <= next s')%nat
    /\ forall x o, (x < next s)%nat -> is_ema o ->
         heap s !! x = Some o -> heap s' !! x = Some o.

(** The slot a resume reads. *)
Definition slot (c : config) : string :=
  if load_current c then "current" else "best".

(** The files that match a role's pattern in a checkpoint directory. *)
Definition matching (w : world) (c : config) (dir role : string) : list string :=
  glob w (join dir (checkpoint_pattern role (slot c))).

(** The local variables after a resume from the discriminator record [ck]. *)
Definition restored (ck : checkpoint) (copy : option ref) (dir : string)
    : session :=
  {| s_run_name := ck_run_name ck; s_logger := ck_run_name ck;
     s_writer := join "./logs" (ck_run_name ck); s_Gen_copy := copy;
     s_step := ck_step ck; s_best_step := ck_best_step ck;
     s_best_fid := ck_best_fid ck;
     s_best_fid_checkpoint_path := ck_best_fid_checkpoint_path ck;
     s_checkpoint_dir := dir |}.

(** The seed check of line 153 and what follows it. *)
Definition verdict (c : config) (ck : checkpoint) (copy : option ref)
    (dir : string) : result session :=
  if seed c =? ck_seed ck then Return (restored ck copy dir)
  else Raise (AssertionError seed_message).

(** The calls of lines 141-146. *)
Definition loading_calls (folder run_name : string) (Gen Dis G_optimizer
    D_optimizer : ref) (g d : string) (ck : checkpoint) : list event :=
  [EvMakeCheckpointDir (Some folder) run_name;
   EvLoadCheckpoint Gen (Some G_optimizer) g false false;
   EvLoadCheckpoint Dis (Some D_optimizer) d true false;
   EvMakeLogger (ck_run_name ck)].

(** The calls of lines 152-155. *)
Definition checking_calls (c : config) (g d : string) (ck : checkpoint)
    : list event :=
  EvSummaryWriter (join "./logs" (ck_run_name ck))
  :: (if seed c =? ck_seed ck then
        [EvLog (ck_run_name ck) (LogGeneratorCheckpoint g);
         EvLog (ck_run_name ck) (LogDiscriminatorCheckpoint d)]
      else []).

(** Every object that [e] creates or patches has a reference from [lo] on. *)
Definition refs_from (lo : ref) (e : event) : Prop :=
  match e with
  | EvConstruct r _ | EvEma r _ _ | EvOptimizer r _ _ | EvPatchReplication r =>
      (lo <= r)%nat
  | EvDataParallel r inner _ => (lo <= r)%nat
  | _ => True
  end.

(** [appends m]: references only grow, and what [m] creates or patches is
    allocated by [m] itself. *)
Definition appends {A} (m : M A) : Prop :=
  forall s r s', m s = (r, s') ->
    (next s <= next s')%nat
    /\ exists evs, trace s' = trace s ++ evs /\ Forall (refs_from (next s)) evs.

(** Every object that [e] creates or patches has a reference below [hi]. *)
Definition refs_below (hi : ref) (e : event) : Prop :=
  match e with
  | EvConstruct r _ | EvEma r _ _ | EvOptimizer r _ _ | EvPatchReplication r =>
      (r < hi)%nat
  | EvDataParallel r inner _ => (r < hi)%nat
  | _ => True
  end.

(** What lines 96-102 leave behind when EMA is enabled: the copy (whose
    network is [target]) and the updater, in the variables [Gen_copy] and
    [Gen_ema]. *)
Definition ema_prepared (c : config) (n sec : Z) (live target : ref)
    (evs : list event) (s' : state) (Gen_copy Gen_ema : option ref) : Prop :=
  if ema c then
    exists copy updater,
      Gen_copy = Some copy /\ Gen_ema = Some updater
      /\ In (EvEma updater live target) evs
      /\ (copy < next s')%nat /\ (updater < next s')%nat
      /\ heap s' !! updater = Some (Ema live target (ema_decay c) (ema_start c))
      /\ (forall x, In (EvPatchReplication x) evs -> x <> copy)
      /\ (if 1 <? n then In (EvDataParallel copy target sec) evs
          else copy = target)
  else Gen_copy = None /\ Gen_ema = None.

(** Calls that neither create nor patch nor load anything. *)
Definition quiet (e : event) : bool :=
  match e with
  | EvFixAllSeed _ | EvCudnn _ _ | EvWarn | EvMakeLogger _ | EvSummaryWriter _
  | EvLog _ _ | EvLoadDataset _ | EvRandomSplit _ _ => true
  | _ => false
  end.

(** A checkpoint is loaded. *)
Definition is_load (e : event) : bool :=
  match e with
  | EvLoadCheckpoint _ _ _ _ _ => true
  | _ => false
  end.

(** Calls that lines 48-135 can make. *)
Definition building (e : event) : bool :=
  negb (is_load e) && negb (is_trainer_event e) && negb (is_prepare e).

(** Calls that lines 159-192 can make. *)
Definition probing (e : event) : bool :=
  match e with
  | EvConstruct _ InceptionV3 | EvConstruct _ (linear_classifier _)
  | EvDataParallel _ _ _ | EvPrepareMoments _ _ _ _ _ _ _ _
  | EvPatchReplication _ | EvOptimizer _ _ _ => true
  | _ => false
  end.

Definition loads_of (evs : list event) : list event := List.filter is_load evs.

(** What the resume block found and did in a run from a checkpoint folder,
    where lines 48-192 ended with [r].  [dir] is the run's checkpoint
    directory; [g], [d] and [x] are the first files that match the
    patterns of the Generator, the Discriminator and the EMA copy. *)
Inductive resume_report (w : world) (c : config) (folder : string)
    (r : result prepared) : Prop :=
  | NotBuilt e sB :
      build w c initial = (Raise e, sB) ->
      r = Raise e ->
      loads_of (calls w c) = [] ->
      resume_report w c folder r
  | NoFolder b sB :
      build w c initial = (Return b, sB) ->
      exists_ w (abspath w folder) = false ->
      r = Raise NotADirectoryError ->
      loads_of (calls w c) = [] ->
      resume_report w c folder r
  | NoFile b sB :
      build w c initial = (Return b, sB) ->
      exists_ w (abspath w folder) = true ->
      (let dir := checkpoint_dir_of w (Some folder) (b_run_name b) in
       matching w c dir "G" = [] \/ matching w c dir "D" = []) ->
      r = Raise IndexError ->
      loads_of (calls w c) = [] ->
      resume_report w c folder r
  | NoEmaFile b sB g d :
      build w c initial = (Return b, sB) ->
      exists_ w (abspath w folder) = true ->
      (let dir := checkpoint_dir_of w (Some folder) (b_run_name b) in
       head (matching w c dir "G") = Some g
       /\ head (matching w c dir "D") = Some d
       /\ matching w c dir "G_ema" = []) ->
      ema c = true ->
      r = Raise IndexError ->
      loads_of (calls w c)
      = [EvLoadCheckpoint (b_Gen b) (Some (b_G_optimizer b)) g false false;
         EvLoadCheckpoint (b_Dis b) (Some (b_D_optimizer b)) d true false] ->
      resume_report w c folder r
  | Checked b sB g d more copy' :
      build w c initial = (Return b, sB) ->
      exists_ w (abspath w folder) = true ->
      (let dir := checkpoint_dir_of w (Some folder) (b_run_name b) in
       head (matching w c dir "G") = Some g
       /\ head (matching w c dir "D") = Some d
       /\ ((ema c = false /\ more = [] /\ copy' = b_Gen_copy b)
           \/ (ema c = true
               /\ exists x copy,
                    head (matching w c dir "G_ema") = Some x
                    /\ b_Gen_copy b = Some copy /\ copy' = Some copy
                    /\ more = [EvLoadCheckpoint copy None x false true]))
       /\ match verdict c (torch_load w d) copy' dir with
          | Raise e => r = Raise e
          | Return ss =>
              match r with
              | Return p => p_session p = ss
              | Raise _ => True
              end
          end) ->
      loads_of (calls w c)
      = EvLoadCheckpoint (b_Gen b) (Some (b_G_optimizer b)) g false false
        :: EvLoadCheckpoint (b_Dis b) (Some (b_D_optimizer b)) d true false
        :: more ->
      resume_report w c folder r.

(** The steps at which [evaluation] was called, in order. *)
Definition evaluation_steps (evs : list event) : list Z :=
  omap (fun e => match e with EvEvaluation _ st => Some st | _ => None end) evs.

(** The evaluation modes with which the preparer was invoked, in order. *)
Definition moments_requests (evs : list event) : list string :=
  omap (fun e => match e with
                 | EvPrepareMoments _ _ mode _ _ _ _ _ => Some mode
                 | _ => None
                 end) evs.

(** Calls made after line 117: no Generator is constructed, no EMA updater
    is made, and a replica is patched only under multi-device replication
    with synchronized batch-norm. *)
Definition later_event (c : config) (n : Z) (e : event) : Prop :=
  match e with
  | EvEma _ _ _ | EvConstruct _ (Generator _ _) => False
  | EvPatchReplication _ => (1 <? n) = true /\ synchronized_bn c = true
  | _ => True
  end.

(** ** Example machines and configurations *)

Definition example_checkpoint : checkpoint :=
  {| ck_state_dict := 7; ck_optimizer := 8; ck_seed := 0;
     ck_run_name := "old-run"; ck_step := 40; ck_best_step := 20;
     ck_best_fid := Some (3 # 2)%Q;
     ck_best_fid_checkpoint_path := Some "checkpoints/best" |}.

(** A machine with [devices] GPUs on which [glob] answers [files] and the
    preparer measures the quality score [score]. *)
Definition example_world (devices : Z) (files : string -> list string)
    (score : Q) : world :=
  {| device_count := devices; current_device := 0; timestamp := "T";
     dataset_size := fun train => if train then 100 else 20;
     has_module := fun _ => true; out_dims := [64; 128];
     abspath := fun p => "/work/" +:+ p; exists_ := fun _ => true;
     checkpoint_dir_of := fun _ run_name => "checkpoints/" +:+ run_name;
     glob := files;
     torch_load := fun _ => example_checkpoint;
     inception_moments :=
       fun _ => {| m_mu := 1; m_sigma := 2; m_is_score := score;
                   m_is_std := (1 # 10)%Q |};
     evaluation_improves := fun _ => true |}.

Definition one_file (pattern : string) : list string := [pattern].

Definition example_train_config (folder : option string) : train_config_t :=
  {| checkpoint_folder := folder; tc_eval := true; tc_train := true;
     k_nearest_neighbor := false; interpolation := false;
     linear_evaluation := false; nrow := 4; ncol := 4;
     step_linear_eval := 10; print_every := 1; save_every := 2 |}.

Definition example_config (run_seed batch : Z) (loss : string)
    (sync : bool) (folder : option string) : config :=
  {| seed := run_seed; num_workers := 2;
     config_path := "./configs/Table1/biggan32_cifar_hinge_no.json";
     reduce_train_dataset := (1 # 1)%Q; load_current := true;
     type4eval_dataset := "test"; dataset_name := "cifar10";
     num_classes := 10; img_size := 32; architecture := "biggan32";
     conditional_strategy := "no"; hypersphere_dim := 512;
     optimizer := "Adam"; batch_size := batch; d_lr := (1 # 5000)%Q;
     g_lr := (1 # 5000)%Q; momentum := (9 # 10)%Q; nesterov := true;
     alpha := (99 # 100)%Q; beta1 := (1 # 2)%Q; beta2 := (999 # 1000)%Q;
     total_step := 43; adv_loss := loss; consistency_reg := false;
     g_init := "ortho"; d_init := "ortho";
     random_flip_preprocessing := false; ema := true;
     ema_decay := (9999 # 10000)%Q; ema_start := 1000;
     synchronized_bn := sync; train_config := example_train_config folder;
     model_config := 0 |}.

Definition single_gpu : world := example_world 1 one_file 9.
Definition two_gpus : world := example_world 2 one_file 9.
Definition other_score : world := example_world 1 one_file 8.

Definition fresh_run : config := example_config 0 4 "hinge" true None.
Definition resumed_run (run_seed : Z) : config :=
  example_config run_seed 4 "hinge" true (Some "checkpoints").

(** The replicas patched, in order. *)
Definition patches_of (evs : list event) : list ref :=
  omap (fun e => match e with EvPatchReplication r => Some r | _ => None end) evs.

(** The replicas made, in order. *)
Definition replicas_of (evs : list event) : list ref :=
  omap (fun e => match e with EvDataParallel r _ _ => Some r | _ => None end) evs.

(** The variables that lines 48-135 bind in the example runs on one GPU. *)
Definition example_built : built :=
  {| b_n_gpus := 1; b_default_device := 0; b_second_device := 0;
     b_run_name := "biggan32_cifar_hinge_no-train-T";
     b_logger := "biggan32_cifar_hinge_no-train-T";
     b_writer := "./logs/biggan32_cifar_hinge_no-train-T";
     b_Gen := 0%nat; b_Dis := 1%nat; b_Gen_copy := Some 2%nat;
     b_Gen_ema := Some 3%nat;
     b_train_dataloader :=
       DataLoader {| ds_train := true; ds_strategy := "no";
                     ds_consistency_reg := false; ds_random_flip := false;
                     ds_len := 100 |} 4 true 2 true;
     b_eval_dataloader :=
       DataLoader {| ds_train := false; ds_strategy := "no";
                     ds_consistency_reg := false; ds_random_flip := false;
                     ds_len := 20 |} 4 true 2 false;
     b_G_optimizer := 4%nat; b_D_optimizer := 5%nat |}.

Definition example_dir : string := "checkpoints/biggan32_cifar_hinge_no-train-T".

(** ** Vocabulary of the stages before the models *)

(** The number of ['/'] in a path. *)
Fixpoint count_slashes (s : string) : nat :=
  match s with
  | EmptyString => 0%nat
  | String c rest =>
      ((if Ascii.eqb c "/" then 1 else 0) + count_slashes rest)%nat
  end.

(** The check of line 54 passes: there is a device, and the number of
    devices divides the batch size. *)
Definition devices_fit (w : world) (c : config) : Prop :=
  device_count w <> 0 /\ batch_size c mod device_count w = 0.

(** [second_device] of line 53. *)
Definition second_device_of (w : world) (c : config) : Z :=
  if (device_count w =? 1) || String.eqb (conditional_strategy c) "Proxy_NCA_GAN"
  then current_device w else current_device w + 1.

(** The calls of lines 48-58 when the check passes. *)
Definition device_calls (w : world) (c : config) : list event :=
  [EvFixAllSeed (seed c); EvCudnn false true]
  ++ (if device_count w =? 1 then [EvWarn] else []).

(** The run name that line 61 makes from the fourth component of the
    configuration path. *)
Definition fresh_name (w : world) (part : string) : string :=
  make_run_name w (drop_last5 part) "train".

(** The calls of lines 65-69. *)
Definition start_calls (name : string) : list event :=
  [EvMakeLogger name; EvSummaryWriter (join "./logs" name);
   EvLog name (LogRunName name); EvLog name LogTrainConfig;
   EvLog name LogModelConfig].

(** The dataset that line 72 loads. *)
Definition full_train_dataset (w : world) (c : config) : dataset :=
  {| ds_train := true; ds_strategy := conditional_strategy c;
     ds_consistency_reg := consistency_reg c;
     ds_random_flip := random_flip_preprocessing c;
     ds_len := dataset_size w true |}.

(** The number of training items kept by line 75. *)
Definition num_train (w : world) (c : config) : Z :=
  int_of_scaled (reduce_train_dataset c) (dataset_size w true).

(** [train_dataset] after lines 72-76. *)
Definition train_dataset_of (w : world) (c : config) : dataset :=
  {| ds_train := true; ds_strategy := conditional_strategy c;
     ds_consistency_reg := consistency_reg c;
     ds_random_flip := random_flip_preprocessing c;
     ds_len := if lt_one (reduce_train_dataset c) then num_train w c
               else dataset_size w true |}.

(** [eval_dataset] of line 81. *)
Definition eval_dataset_of (w : world) (c : config) : dataset :=
  {| ds_train := String.eqb (type4eval_dataset c) "train"; ds_strategy := "no";
     ds_consistency_reg := false; ds_random_flip := false;
     ds_len := dataset_size w (String.eqb (type4eval_dataset c) "train") |}.

(** The calls of lines 71-83. *)
Definition dataset_calls (w : world) (c : config) (logger : string) : list event :=
  [EvLog logger LogLoadingTrain; EvLoadDataset (full_train_dataset w c)]
  ++ (if lt_one (reduce_train_dataset c) then
        [EvRandomSplit (num_train w c) (dataset_size w true - num_train w c)]
      else [])
  ++ [EvLog logger (LogTrainSize (ds_len (train_dataset_of w c)));
      EvLog logger (LogLoadingEval (type4eval_dataset c));
      EvLoadDataset (eval_dataset_of w c);
      EvLog logger (LogEvalSize (ds_len (eval_dataset_of w c)))].

(** The calls of lines 48-83 of a run named [name]. *)
Definition opening_calls (w : world) (c : config) (name : string) : list event :=
  device_calls w c ++ start_calls name ++ dataset_calls w c name.

(** The variables that lines 48-135 bind, given those of lines 85-135. *)
Definition built_of (w : world) (c : config) (name : string)
    (Gen Dis : ref) (Gen_copy Gen_ema : option ref) (G_optimizer D_optimizer : ref)
    : built :=
  {| b_n_gpus := device_count w; b_default_device := current_device w;
     b_second_device := second_device_of w c; b_run_name := name;
     b_logger := name; b_writer := join "./logs" name; b_Gen := Gen;
     b_Dis := Dis; b_Gen_copy := Gen_copy; b_Gen_ema := Gen_ema;
     b_train_dataloader :=
       DataLoader (train_dataset_of w c) (batch_size c) true (num_workers c) true;
     b_eval_dataloader :=
       DataLoader (eval_dataset_of w c) (batch_size c) true (num_workers c) false;
     b_G_optimizer := G_optimizer; b_D_optimizer := D_optimizer |}.

(** ** Vocabulary of the models and the optimizers *)

Definition dcgan_message : string :=
  "Sry, StudioGAN does not support dcgan models for generation of images larger than 32 resolution.".

(** The module of the architecture, as line 88 names it. *)
Definition module_name (c : config) : string := "models." +:+ architecture c.

(** Lines 86-88 go through: a dcgan makes images of size 32, and the
    module of the architecture can be imported. *)
Definition models_available (w : world) (c : config) : Prop :=
  (String.eqb (architecture c) "dcgan" = true -> img_size c = 32)
  /\ has_module w (module_name c) = true.

(** The number of objects that lines 90-100 allocate. *)
Definition networks_made (c : config) : nat := if ema c then 4%nat else 2%nat.

(** The variables [Gen], [Dis], [Gen_copy] and [Gen_ema] after lines
    90-108, when the first object allocated is [lo]: the networks
    themselves on one device, their replicas on several. *)
Definition model_refs (c : config) (n : Z) (lo : ref)
    : ref * ref * option ref * option ref :=
  let base := (networks_made c + lo)%nat in
  if 1 <? n then
    (base, S base, if ema c then Some (S (S base)) else None,
     if ema c then Some (S (S (S lo))) else None)
  else
    (lo, S lo, if ema c then Some (S (S lo)) else None,
     if ema c then Some (S (S (S lo))) else None).

(** The reference after the objects of lines 90-108. *)
Definition models_end (c : config) (n : Z) (lo : ref) : ref :=
  ((if (1 <? n)%Z then if ema c then 3 else 2 else 0)
   + (networks_made c + lo))%nat.

(** The calls of lines 85-117. *)
Definition model_calls (c : config) (logger : string) (n sec : Z) (lo : ref)
    : list event :=
  let base := (networks_made c + lo)%nat in
  let '(Gen, Dis, _, _) := model_refs c n lo in
  [EvLog logger LogBuilding; EvImport (module_name c);
   EvLog logger (LogModulesLocated (architecture c));
   EvConstruct lo (Generator (synchronized_bn c) (InitScheme (g_init c)));
   EvConstruct (S lo) (Discriminator (synchronized_bn c) (InitScheme (d_init c)))]
  ++ (if ema c then
        [EvPrintEma (ema_decay c);
         EvConstruct (S (S lo)) (Generator false InitFalse);
         EvEma (S (S (S lo))) lo (S (S lo))]
      else [])
  ++ (if 1 <? n then
        [EvDataParallel base lo sec; EvDataParallel (S base) (S lo) sec]
        ++ (if ema c then [EvDataParallel (S (S base)) (S (S lo)) sec] else [])
        ++ (if synchronized_bn c then
              [EvPatchReplication base; EvPatchReplication (S base)]
            else [])
      else [])
  ++ [EvLog logger (LogCountParameters Gen); EvLog logger (LogModel Gen);
      EvLog logger (LogCountParameters Dis); EvLog logger (LogModel Dis)].

(** The objects of lines 90-108 in the heap [h]. *)
Definition models_in (c : config) (n d sec : Z) (lo : ref) (h : gmap nat obj)
    : Prop :=
  let base := (networks_made c + lo)%nat in
  h !! lo = Some (Network (Generator (synchronized_bn c) (InitScheme (g_init c)))
                    d None)
  /\ h !! S lo
     = Some (Network (Discriminator (synchronized_bn c) (InitScheme (d_init c)))
               d None)
  /\ (ema c = true ->
      h !! S (S lo) = Some (Network (Generator false InitFalse) d None)
      /\ h !! S (S (S lo)) = Some (Ema lo (S (S lo)) (ema_decay c) (ema_start c)))
  /\ ((1 <? n) = true ->
      h !! base = Some (DataParallel lo sec (synchronized_bn c))
      /\ h !! S base = Some (DataParallel (S lo) sec (synchronized_bn c))
      /\ (ema c = true ->
          h !! S (S base) = Some (DataParallel (S (S lo)) sec false))).

(** The optimizer class that lines 125-135 (and 181-188) select, with the
    learning rate given. *)
Definition optimizer_kind (c : config) (lr : Q) : option optim_kind :=
  if String.eqb (optimizer c) "SGD" then Some (SGD lr (momentum c) (nesterov c))
  else if String.eqb (optimizer c) "RMSprop" then
    Some (RMSprop lr (momentum c) (alpha c))
  else if String.eqb (optimizer c) "Adam" then
    Some (Adam lr (beta1 c) (beta2 c) eps)
  else None.

Definition supported_optimizers : list string := ["SGD"; "RMSprop"; "Adam"].

(** ** Vocabulary of the later stages *)

(** Two objects of the same class that agree on what a run never changes:
    the class and the device of a network, the module and the output
    device of a replica, the class and the parameters of an optimizer, the
    decay and the start of an EMA updater. *)
Definition same_kind (o o' : obj) : Prop :=
  match o, o' with
  | Network cls d _, Network cls' d' _ => cls = cls' /\ d = d'
  | DataParallel m d _, DataParallel m' d' _ => m = m' /\ d = d'
  | Optimizer k p _, Optimizer k' p' _ => k = k' /\ p = p'
  | Ema _ _ q z, Ema _ _ q' z' => q = q' /\ z = z'
  | _, _ => False
  end.

(** [stable m]: [m] never reuses a reference, and an object allocated
    before [m] is of the same kind after it. *)
Definition stable {A} (m : M A) : Prop :=
  forall s r s', m s = (r, s') ->
    (next s <= next s')%nat
    /\ forall x o, (x < next s)%nat -> heap s !! x = Some o ->
         exists o', heap s' !! x = Some o' /\ same_kind o o'.

(** What lines 159-171 bind when the next free reference is [lo]. *)
Definition stats_of (w : world) (c : config) (lo : ref)
    : option Z * option Z * option ref :=
  if tc_eval (train_config c) then
    (Some (m_mu (inception_moments w (type4eval_dataset c))),
     Some (m_sigma (inception_moments w (type4eval_dataset c))),
     Some (S lo))
  else (None, None, None).

(** [in_channels] of line 174, with [Dis] read in the heap [h]. *)
Definition probe_in_channels (w : world) (c : config) (h : gmap nat obj)
    (Dis : ref) : result Z :=
  if String.eqb (conditional_strategy c) "ContraGAN" then Return (hypersphere_dim c)
  else match h !! Dis with
       | Some (Network (Discriminator _ _) _ _) =>
           match last (out_dims w) with
           | Some x => Return x
           | None => Raise IndexError
           end
       | _ => Raise (AttributeError "out_dims")
       end.

(** The calls of lines 175-179 when the next free reference is [lo]. *)
Definition probe_calls (c : config) (n sec in_channels : Z) (lo : ref)
    : list event :=
  EvConstruct lo (linear_classifier in_channels)
  :: (if 1 <? n then
        EvDataParallel (S lo) lo sec
        :: (if synchronized_bn c then [EvPatchReplication (S lo)] else [])
      else []).

(** [linear_model] after lines 175-179. *)
Definition probe_model (n : Z) (lo : ref) : ref := if 1 <? n then S lo else lo.

(** The variables bound before the Trainer is constructed, given those of
    each block. *)
Definition prepared_of (b : built) (ss : session) (mu sigma : option Z)
    (inception_model linear_model L_optimizer : option ref) : prepared :=
  {| p_n_gpus := b_n_gpus b; p_default_device := b_default_device b;
     p_second_device := b_second_device b; p_Gen := b_Gen b;
     p_Dis := b_Dis b; p_Gen_ema := b_Gen_ema b;
     p_train_dataloader := b_train_dataloader b;
     p_eval_dataloader := b_eval_dataloader b;
     p_G_optimizer := b_G_optimizer b; p_D_optimizer := b_D_optimizer b;
     p_session := ss; p_mu := mu; p_sigma := sigma;
     p_inception_model := inception_model;
     p_linear_model := linear_model; p_L_optimizer := L_optimizer |}.

(** [in_channels] of line 174 in a run: a replica of the Discriminator (on
    several devices) has no [out_dims]. *)
Definition in_channels_of (w : world) (c : config) : result Z :=
  if String.eqb (conditional_strategy c) "ContraGAN" then Return (hypersphere_dim c)
  else if 1 <? device_count w then Raise (AttributeError "out_dims")
  else match last (out_dims w) with
       | Some x => Return x
       | None => Raise IndexError
       end.

(** ** Vocabulary of the further properties *)

(** The calls of lines 48-58. *)
Definition is_device_setup (e : event) : bool :=
  match e with
  | EvFixAllSeed _ | EvCudnn _ _ | EvWarn => true
  | _ => false
  end.

(** The run names on which a logger was made, in order. *)
Definition loggers_of (evs : list event) : list string :=
  omap (fun e => match e with EvMakeLogger name => Some name | _ => None end) evs.


(** Every replica gathers its outputs on [sec], and the reference
    statistics are computed there. *)
Definition on_device (sec : Z) (e : event) : Prop :=
  match e with
  | EvDataParallel _ _ dev => dev = sec
  | EvPrepareMoments _ _ _ _ _ _ _ dev => dev = sec
  | _ => True
  end.

(** An optimizer is made. *)
Definition is_optimizer (e : event) : bool :=
  match e with
  | EvOptimizer _ _ _ => true
  | _ => false
  end.

(** The Inception network is constructed. *)
Definition is_inception (e : event) : bool :=
  match e with
  | EvConstruct _ InceptionV3 => true
  | _ => false
  end.

(** A linear classifier is constructed. *)
Definition is_probe (e : event) : bool :=
  match e with
  | EvConstruct _ (linear_classifier _) => true
  | _ => false
  end.

(** A network is replicated. *)
Definition is_replica (e : event) : bool :=
  match e with
  | EvDataParallel _ _ _ => true
  | _ => false
  end.

(** A visualisation or probing pass of the Trainer (lines 272-280). *)
Definition is_pass (e : event) : bool :=
  match e with
  | EvNearestNeighbor _ _ _ | EvLinearInterpolation _ _ _ _ _
  | EvLinearClassification _ _ => true
  | _ => false
  end.


(** A call that only a run with EMA makes: the shadow copy's construction
    (the only one with [initialize=False]), the updater's, the notice
    printed before them, and the load of a Generator-EMA checkpoint. *)
Definition is_ema_call (e : event) : bool :=
  match e with
  | EvPrintEma _ | EvEma _ _ _ | EvConstruct _ (Generator _ InitFalse)
  | EvLoadCheckpoint _ _ _ _ true => true
  | _ => false
  end.


(** The run is seeded, or the cudnn flags are set. *)
Definition is_seeding (e : event) : bool :=
  match e with
  | EvFixAllSeed _ | EvCudnn _ _ => true
  | _ => false
  end.

(** ** More example machines and configurations *)

Definition custom_train_config (folder : option string)
    (do_eval do_train knn interp lin : bool) : train_config_t :=
  {| checkpoint_folder := folder; tc_eval := do_eval; tc_train := do_train;
     k_nearest_neighbor := knn; interpolation := interp;
     linear_evaluation := lin; nrow := 4; ncol := 4;
     step_linear_eval := 10; print_every := 1; save_every := 2 |}.

Definition custom_config (path arch strategy optim : string) (size : Z)
    (use_ema : bool) (reduce : Q) (tc : train_config_t) : config :=
  {| seed := 0; num_workers := 2; config_path := path;
     reduce_train_dataset := reduce; load_current := true;
     type4eval_dataset := "test"; dataset_name := "cifar10";
     num_classes := 10; img_size := size; architecture := arch;
     conditional_strategy := strategy; hypersphere_dim := 512;
     optimizer := optim; batch_size := 4; d_lr := (1 # 5000)%Q;
     g_lr := (1 # 2500)%Q; momentum := (9 # 10)%Q; nesterov := true;
     alpha := (99 # 100)%Q; beta1 := (1 # 2)%Q; beta2 := (999 # 1000)%Q;
     total_step := 3; adv_loss := "hinge"; consistency_reg := false;
     g_init := "ortho"; d_init := "ortho";
     random_flip_preprocessing := true; ema := use_ema;
     ema_decay := (9999 # 10000)%Q; ema_start := 1000;
     synchronized_bn := true; train_config := tc; model_config := 0 |}.

Definition example_path : string := "./configs/Table1/biggan32_cifar_hinge_no.json".

(** A fresh run with every pass enabled, and one with none. *)
Definition full_passes : train_config_t :=
  custom_train_config None true true true true true.
Definition no_passes : train_config_t :=
  custom_train_config None false false false false false.

(** A machine with [devices] GPUs where the modules can be imported when
    [modules] holds, folders exist when [folders] holds, and the
    Discriminator has the output dimensions [dims]. *)
Definition custom_world (devices : Z) (modules folders : bool) (dims : list Z)
    : world :=
  {| device_count := devices; current_device := 0; timestamp := "T";
     dataset_size := fun train => if train then 100 else 20;
     has_module := fun _ => modules; out_dims := dims;
     abspath := fun p => "/work/" +:+ p; exists_ := fun _ => folders;
     checkpoint_dir_of := fun _ run_name => "checkpoints/" +:+ run_name;
     glob := one_file;
     torch_load := fun _ => example_checkpoint;
     inception_moments :=
       fun _ => {| m_mu := 1; m_sigma := 2; m_is_score := 9;
                   m_is_std := (1 # 10)%Q |};
     evaluation_improves := fun _ => true |}.

(** The variables of the fresh example run on one GPU when its Trainer is
    constructed, and that Trainer. *)
Definition example_session : session :=
  {| s_run_name := b_run_name example_built; s_logger := b_logger example_built;
     s_writer := b_writer example_built; s_Gen_copy := Some 2%nat;
     s_step := 0; s_best_step := 0; s_best_fid := None;
     s_best_fid_checkpoint_path := None; s_checkpoint_dir := example_dir |}.

Definition example_trainer : trainer :=
  Trainer fresh_run
    (prepared_of example_built example_session (Some 1) (Some 2) (Some 7%nat)
       None None)
    loss_hinge_gen loss_hinge_dis.

(** The same for the example run resumed with the right seed. *)
Definition resumed_session : session :=
  restored example_checkpoint (Some 2%nat) example_dir.

Definition resumed_trainer : trainer :=
  Trainer (resumed_run 0)
    (prepared_of example_built resumed_session (Some 1) (Some 2) (Some 7%nat)
       None None)
    loss_hinge_gen loss_hinge_dis.

(** * Reasoning about runs *)

(** ** Runs of a computation *)

Lemma bind_inv {A B} (m : M A) (k : A -> M B) s r s' :
  bind m k s = (r, s') ->
  (exists e, m s = (Raise e, s') /\ r = Raise e) \/
  (exists a s1, m s = (Return a, s1) /\ k a s1 = (r, s')).
Proof.
  unfold bind. destruct (m s) as [[e | a] s1]; intros H.
  - left. exists e. by inversion H.
  - right. by exists a, s1.
Qed.

Lemma bind_return {A B} (m : M A) (k : A -> M B) s a s1 :
  m s = (Return a, s1) -> bind m k s = k a s1.
Proof. unfold bind. by intros ->. Qed.

Lemma bind_raise {A B} (m : M A) (k : A -> M B) s e s1 :
  m s = (Raise e, s1) -> bind m k s = (Raise e, s1).
Proof. unfold bind. by intros ->. Qed.

(** ** Every event emitted satisfies [P] *)

Lemma emits_ret {A} P (a : A) : emits P (ret a).
Proof. intros s r s' [= <- <-]. exists []. by rewrite app_nil_r. Qed.

Lemma emits_raise {A} P e : emits P (@raise A e).
Proof. intros s r s' [= <- <-]. exists []. by rewrite app_nil_r. Qed.

Lemma emits_emit (P : event -> Prop) e : P e -> emits P (emit e).
Proof. intros HP s r s' [= <- <-]. exists [e]. split; [done | by constructor]. Qed.

Lemma emits_alloc P o : emits P (alloc o).
Proof. intros s r s' [= <- <-]. exists []. by rewrite app_nil_r. Qed.

Lemma emits_mutate P f r0 : emits P (mutate f r0).
Proof. intros s r s' [= <- <-]. exists []. by rewrite app_nil_r. Qed.

Lemma emits_deref P r0 : emits P (deref r0).
Proof. intros s r s' [= <- <-]. exists []. by rewrite app_nil_r. Qed.

Lemma emits_bind {A B} P (m : M A) (k : A -> M B) :
  emits P m -> (forall a, emits P (k a)) -> emits P (bind m k).
Proof.
  intros Hm Hk s r s' H. apply bind_inv in H as [(e & H & ->) | (a & s1 & H & H')].
  - destruct (Hm _ _ _ H) as (evs & ? & ?). by exists evs.
  - destruct (Hm _ _ _ H) as (evs1 & E1 & F1).
    destruct (Hk _ _ _ _ H') as (evs2 & E2 & F2).
    exists (evs1 ++ evs2). split.
    + by rewrite E2, E1, app_assoc.
    + by apply Forall_app.
Qed.

Lemma emits_mono {A} (P Q : event -> Prop) (m : M A) :
  (forall e, P e -> Q e) -> emits P m -> emits Q m.
Proof.
  intros HPQ Hm s r s' H. destruct (Hm _ _ _ H) as (evs & ? & F).
  exists evs. split; [done |]. eapply Forall_impl; eauto.
Qed.

(** One step of the syntax-directed proof that a computation emits only
    events in [P]; [P e] itself is left to [tac]. *)
Ltac emits_step tac :=
  lazymatch goal with
  | |- emits _ (bind _ _) => apply emits_bind; [| intros ?]
  | |- emits _ (ret _) => apply emits_ret
  | |- emits _ (raise _) => apply emits_raise
  | |- emits _ (emit _) => apply emits_emit; tac
  | |- emits _ (alloc _) => apply emits_alloc
  | |- emits _ (mutate _ _) => apply emits_mutate
  | |- emits _ (deref _) => apply emits_deref
  | |- emits _ (if ?b then _ else _) => destruct b
  | |- emits _ (match ?x with _ => _ end) => destruct x
  end.

Ltac emits_auto tac := repeat emits_step tac.

Section Collaborators.
Variable w : world.
Variable P : event -> Prop.

Lemma emits_py_assert b msg : emits P (py_assert b msg).
Proof. unfold py_assert. emits_auto idtac. Qed.

Lemma emits_py_mod a b : emits P (py_mod a b).
Proof. unfold py_mod. emits_auto idtac. Qed.

Lemma emits_py_index {A} (l : list A) i : emits P (py_index l i).
Proof. unfold py_index. emits_auto idtac. Qed.

Lemma emits_py_last {A} (l : list A) : emits P (py_last l).
Proof. unfold py_last. emits_auto idtac. Qed.

Lemma emits_py_getitem {A} (d : gmap string A) key : emits P (py_getitem d key).
Proof. unfold py_getitem. emits_auto idtac. Qed.

Lemma emits_load_state_dict model sd : emits P (load_state_dict model sd).
Proof. unfold load_state_dict. emits_auto idtac. Qed.

Lemma emits_get_out_dims Dis : emits P (get_out_dims w Dis).
Proof. unfold get_out_dims. emits_auto idtac. Qed.
End Collaborators.

(** Unfolds the script down to the primitive operations and checks every
    emitted event against the predicate by computation. *)
Ltac emits_script :=
  unfold holds;
  repeat first
    [ progress emits_auto ltac:(by simpl)
    | apply emits_py_assert | apply emits_py_mod | apply emits_py_index
    | apply emits_py_last | apply emits_py_getitem
    | apply emits_load_state_dict | apply emits_get_out_dims
    | progress unfold check_devices, start_run, load_datasets, build_models,
        build_optimizers, resume, reference_statistics, linear_probe,
        make_trainer, closing_passes, make_logger, SummaryWriter, logger_info,
        LoadDataset, construct, ema_, data_parallel,
        patch_replication_callback, make_optimizer, make_checkpoint_dir,
        load_checkpoint, prepare_inception_moments_eval_dataset, evaluation,
        Nearest_Neighbor, linear_interpolation, linear_classification ].

Lemma prepare_emits_no_trainer_event w c :
  emits (holds (fun e => negb (is_trainer_event e))) (prepare w c).
Proof. unfold prepare, build, finish. emits_script. Qed.

(** ** The device check (lines 48-58) *)

Lemma check_devices_zero w c s :
  device_count w = 0 ->
  check_devices w c s
  = (Raise ZeroDivisionError, after s [EvFixAllSeed (seed c); EvCudnn false true]).
Proof.
  intros H0. unfold check_devices, py_mod, bind, emit, after. simpl.
  rewrite H0. simpl. unfold raise. by rewrite <- app_assoc.
Qed.

Lemma check_devices_indivisible w c s :
  device_count w <> 0 ->
  batch_size c mod device_count w <> 0 ->
  check_devices w c s
  = (Raise (AssertionError batch_size_message),
     after s [EvFixAllSeed (seed c); EvCudnn false true]).
Proof.
  intros H0 Hm. unfold check_devices, py_mod, py_assert, bind, emit, after. simpl.
  destruct (Z.eqb_spec (device_count w) 0) as [? | _]; [done |]. simpl.
  destruct (Z.eqb_spec (batch_size c mod device_count w) 0) as [? | _]; [done |].
  unfold raise. by rewrite <- app_assoc.
Qed.


Lemma train_framework_check_fails w c s e s1 :
  check_devices w c s = (Raise e, s1) ->
  train_framework w c s = (Raise e, s1).
Proof.
  intros H. unfold train_framework, prepare, build. by do 3 apply bind_raise.
Qed.

(** ** Claims about the device check *)

(** C3.  Whenever the batch size is not divisible by the number of compute
    devices, the run ends in a fatal error raised by the batch-size check
    (the assertion, or the division it performs when no device is
    detected), and nothing the run did before is the construction of a
    Generator or Discriminator, nor any training. *)
Theorem indivisible_batch_is_fatal_before_models w c :
  ~ (device_count w | batch_size c) ->
  (outcome w c = Raise (AssertionError batch_size_message)
   \/ outcome w c = Raise ZeroDivisionError)
  /\ Forall (fun e => is_model_construction e = false /\ is_training e = false)
       (calls w c).
Proof.
  intros Hnd. unfold outcome, calls.
  destruct (Z.eq_dec (device_count w) 0) as [H0 | H0].
  - rewrite (train_framework_check_fails _ _ _ _ _ (check_devices_zero w c initial H0)).
    split; [by right |]. simpl. by repeat constructor.
  - assert (batch_size c mod device_count w <> 0) as Hm.
    { intros Hm. apply Hnd. by apply Z.mod_divide. }
    rewrite (train_framework_check_fails _ _ _ _ _
               (check_devices_indivisible w c initial H0 Hm)).
    split; [by left |]. simpl. by repeat constructor.
Qed.


(** ** The Trainer's construction (lines 194-262) *)

Lemma registered_spec key :
  registered key =
    if decide (key = "vanilla") then Some (loss_dcgan_gen, loss_dcgan_dis)
    else if decide (key = "hinge") then Some (loss_hinge_gen, loss_hinge_dis)
    else if decide (key = "wasserstein") then Some (loss_wgan_gen, loss_wgan_dis)
    else None.
Proof.
  unfold registered, G_loss, D_loss. rewrite !lookup_insert, !lookup_empty.
  repeat case_decide; congruence.
Qed.

Lemma registered_supported key :
  In key supported_adv_losses <-> is_Some (registered key).
Proof.
  rewrite registered_spec. unfold supported_adv_losses. simpl. split.
  - intros [<- | [<- | [<- | []]]]; by eexists.
  - repeat case_decide; subst; intros [? Hk]; try tauto. discriminate Hk.
Qed.

Lemma registered_lookup key g d :
  registered key = Some (g, d) <-> G_loss !! key = Some g /\ D_loss !! key = Some d.
Proof.
  unfold registered. split.
  - destruct (G_loss !! key), (D_loss !! key); intros [=]; by subst.
  - by intros [-> ->].
Qed.

Lemma registered_none key :
  registered key = None -> G_loss !! key = None.
Proof.
  rewrite registered_spec. unfold G_loss. rewrite !lookup_insert, lookup_empty.
  repeat case_decide; congruence.
Qed.

Lemma emit_run e s : emit e s = (Return tt, after s [e]).
Proof. reflexivity. Qed.

Lemma after_after s evs1 evs2 : after (after s evs1) evs2 = after s (evs1 ++ evs2).
Proof. unfold after. simpl. by rewrite app_assoc. Qed.

Lemma after_nil s : after s [] = s.
Proof. destruct s. unfold after. simpl. by rewrite app_nil_r. Qed.

Lemma make_trainer_unsupported c p s :
  registered (adv_loss c) = None ->
  make_trainer c p s = (Raise (KeyError (adv_loss c)), s).
Proof.
  intros H. unfold make_trainer, py_getitem, bind.
  by rewrite (registered_none _ H).
Qed.

Lemma make_trainer_supported c p s g d :
  registered (adv_loss c) = Some (g, d) ->
  make_trainer c p s
  = (Return (Trainer c p g d), after s [EvTrainer (Trainer c p g d)]).
Proof.
  intros [Hg Hd]%registered_lookup. unfold make_trainer, py_getitem, bind.
  by rewrite Hg, Hd.
Qed.

(** ** The training loops (modelled) *)

Lemma train_steps_app evs1 evs2 :
  train_steps (evs1 ++ evs2) = train_steps evs1 ++ train_steps evs2.
Proof. apply omap_app. Qed.

Lemma gate_run w t step' s :
  exists evs,
    ((if at_cadence step' (t_save_every t) then
        emit (EvSaveCheckpoint step') ;;
        (if t_evaluate t then evaluation w t step' ;; ret tt else ret tt)
      else ret tt) : M unit) s = (Return tt, after s evs)
    /\ Forall (loop_body_event t) evs /\ train_steps evs = [].
Proof.
  destruct (at_cadence _ _).
  - destruct (t_evaluate t).
    + exists [EvSaveCheckpoint step'; EvEvaluation t step']. split; [| split].
      * unfold bind, evaluation, bind, emit, ret, after. simpl. by rewrite <- app_assoc.
      * by repeat constructor.
      * done.
    + exists [EvSaveCheckpoint step']. split; [done | split; [by repeat constructor | done]].
  - exists []. by rewrite after_nil.
Qed.

Lemma iterate_run w v t total fuel :
  forall step s, (Z.to_nat (total - step) <= fuel)%nat ->
    exists evs,
      iterate w fuel v t step total s = (Return (Z.max step total), after s evs)
      /\ Forall (loop_body_event t) evs
      /\ train_steps evs = seqZ step (total - step).
Proof.
  induction fuel as [| fuel IH]; intros step s Hfuel; simpl.
  - exists []. rewrite after_nil. assert (total <= step) by lia.
    rewrite Z.max_l by lia. split; [done | split; [done |]].
    unfold seqZ. by replace (Z.to_nat (total - step)) with 0%nat by lia.
  - destruct (Z.ltb_spec step total) as [Hlt | Hge].
    + destruct (gate_run w t (step + 1) (after s [EvTrainStep v step]))
        as (gate & Hgate & Fgate & Sgate).
      destruct (IH (step + 1) (after (after s [EvTrainStep v step]) gate))
        as (rest & Hrest & Frest & Srest); [lia |].
      exists (EvTrainStep v step :: gate ++ rest). split; [| split].
      * unfold bind at 1. rewrite emit_run. unfold bind at 1. rewrite Hgate.
        rewrite Hrest, !after_after.
        by replace (Z.max (step + 1) total) with (Z.max step total) by lia.
      * constructor; [done |]. by apply Forall_app.
      * change (EvTrainStep v step :: gate ++ rest)
          with ([EvTrainStep v step] ++ gate ++ rest).
        rewrite !train_steps_app, Sgate, Srest. simpl.
        rewrite (seqZ_cons step (total - step)) by lia.
        f_equal. f_equal; lia.
    + exists []. rewrite after_nil, Z.max_l by lia. split; [done | split; [done |]].
      unfold seqZ. by replace (Z.to_nat (total - step)) with 0%nat by lia.
Qed.

Lemma training_loop_run w v t current total s :
  exists body,
    training_loop w v t current total s
    = (Return (Z.max current total), after s (EvLoop v t current total :: body))
    /\ Forall (loop_body_event t) body
    /\ train_steps body = seqZ current (total - current).
Proof.
  unfold training_loop, bind. rewrite emit_run.
  destruct (iterate_run w v t total (Z.to_nat (total - current)) current
              (after s [EvLoop v t current total])) as (body & H & F & S);
    [done |].
  exists body. by rewrite H, after_after.
Qed.

(** ** The dispatch (lines 264-267) and the closing passes (lines 269-280) *)

Lemma contrastive_strategy_spec name :
  contrastive_strategy name = true
  <-> In name ["ContraGAN"; "Proxy_NCA_GAN"; "XT_Xent_GAN"].
Proof.
  unfold contrastive_strategy. simpl.
  rewrite !orb_true_iff, !String.eqb_eq. intuition congruence.
Qed.

Lemma dispatch_run w c t start s :
  exists evs,
    dispatch w c t start s = (Return (final_step c start), after s evs)
    /\ loop_part c t start evs.
Proof.
  unfold dispatch, loop_part, final_step, selected_variant.
  destruct (tc_train (train_config c)).
  - destruct (contrastive_strategy _); simpl.
    + destruct (training_loop_run w run_ours t start (total_step c) s)
        as (body & H & F & S). eauto 6.
    + destruct (training_loop_run w run t start (total_step c) s)
        as (body & H & F & S). eauto 6.
  - rewrite andb_false_r. exists []. by rewrite after_nil.
Qed.

Lemma closing_passes_run w c t step s :
  closing_passes w c t step s = (Return tt, after s (closing_calls c t step)).
Proof.
  unfold closing_passes, closing_calls, evaluation, Nearest_Neighbor,
    linear_interpolation, linear_classification, bind, emit, ret, after.
  destruct (tc_eval _), (k_nearest_neighbor _), (interpolation _),
    (linear_evaluation _); simpl; rewrite <- ?app_assoc; simpl;
    rewrite ?app_nil_r; (reflexivity || by destruct s).
Qed.

(** ** The shape of a whole run *)

Lemma run_cases w c :
  (exists e s,
     prepare w c initial = (Raise e, s)
     /\ outcome w c = Raise e /\ calls w c = trace s)
  \/ (exists p s1,
        prepare w c initial = (Return p, s1)
        /\ ((registered (adv_loss c) = None
             /\ outcome w c = Raise (KeyError (adv_loss c))
             /\ calls w c = trace s1)
            \/ (exists g d loop,
                  registered (adv_loss c) = Some (g, d)
                  /\ outcome w c = Return tt
                  /\ calls w c
                     = trace s1
                       ++ EvTrainer (Trainer c p g d)
                          :: loop
                          ++ closing_calls c (Trainer c p g d)
                               (final_step c (s_step (p_session p)))
                  /\ loop_part c (Trainer c p g d) (s_step (p_session p)) loop))).
Proof.
  unfold outcome, calls, train_framework, operate.
  destruct (prepare w c initial) as [[e | p] s1] eqn:Hp.
  - left. exists e, s1. by rewrite (bind_raise _ _ _ _ _ Hp).
  - right. exists p, s1. split; [done |].
    rewrite (bind_return _ _ _ _ _ Hp).
    destruct (registered (adv_loss c)) as [[g d] |] eqn:Hreg.
    + right. exists g, d.
      rewrite (bind_return _ _ _ _ _ (make_trainer_supported c p s1 g d Hreg)).
      destruct (dispatch_run w c (Trainer c p g d) (s_step (p_session p))
                  (after s1 [EvTrainer (Trainer c p g d)])) as (loop & Hd & Hl).
      exists loop. rewrite (bind_return _ _ _ _ _ Hd), closing_passes_run.
      simpl. split; [done | split; [done | split; [| done]]].
      by rewrite <- !app_assoc.
    + left. by rewrite (bind_raise _ _ _ _ _ (make_trainer_unsupported c p s1 Hreg)).
Qed.

Lemma prepare_calls (P : event -> Prop) w c r s :
  emits P (prepare w c) -> prepare w c initial = (r, s) -> Forall P (trace s).
Proof.
  intros He Hp. destruct (He _ _ _ Hp) as (evs & -> & F). done.
Qed.

Lemma loops_of_app evs1 evs2 : loops_of (evs1 ++ evs2) = loops_of evs1 ++ loops_of evs2.
Proof. apply omap_app. Qed.

Lemma loops_of_cons e evs :
  loops_of (e :: evs)
  = match e with EvLoop v _ _ _ => v :: loops_of evs | _ => loops_of evs end.
Proof. by destruct e. Qed.

Lemma loops_of_none (P : event -> Prop) evs :
  (forall v t a b, ~ P (EvLoop v t a b)) -> Forall P evs -> loops_of evs = [].
Proof.
  intros HP. induction 1 as [| e evs He _ IH]; [done |].
  rewrite loops_of_cons, IH. destruct e; try done. by destruct (HP _ _ _ _ He).
Qed.

Lemma loops_of_closing c t step : loops_of (closing_calls c t step) = [].
Proof.
  unfold closing_calls.
  by destruct (tc_eval _), (k_nearest_neighbor _), (interpolation _),
    (linear_evaluation _).
Qed.

Lemma loops_of_loop_part c t start loop :
  loop_part c t start loop ->
  loops_of loop = if tc_train (train_config c) then [selected_variant c] else [].
Proof.
  unfold loop_part. destruct (tc_train _).
  - intros (body & -> & F & _). rewrite loops_of_cons. f_equal.
    apply (loops_of_none (loop_body_event t)); [by intros ???? [] | done].
  - by intros ->.
Qed.

Lemma trainer_not_in_loop c t start loop t' :
  loop_part c t start loop -> ~ In (EvTrainer t') loop.
Proof.
  unfold loop_part. destruct (tc_train _).
  - intros (body & -> & F & _) [Hin | Hin]; [done |].
    rewrite Forall_forall in F. apply list_elem_of_In, F in Hin. exact Hin.
  - by intros -> [].
Qed.

Lemma trainer_not_in_closing c t step t' : ~ In (EvTrainer t') (closing_calls c t step).
Proof.
  unfold closing_calls.
  destruct (tc_eval _), (k_nearest_neighbor _), (interpolation _),
    (linear_evaluation _); simpl; intuition discriminate.
Qed.

Lemma prepare_trace w c r s :
  prepare w c initial = (r, s) ->
  Forall (fun e => is_trainer_event e = false) (trace s).
Proof.
  intros Hp.
  eapply Forall_impl;
    [exact (prepare_calls _ _ _ _ _ (prepare_emits_no_trainer_event w c) Hp) |].
  intros e. unfold holds. by destruct (is_trainer_event e).
Qed.

Lemma prepare_trace_no_trainer w c r s t :
  prepare w c initial = (r, s) -> ~ In (EvTrainer t) (trace s).
Proof.
  intros Hp Hin. pose proof (prepare_trace _ _ _ _ Hp) as F.
  rewrite Forall_forall in F. by apply list_elem_of_In, F in Hin.
Qed.

Lemma prepare_trace_no_training w c r s :
  prepare w c initial = (r, s) -> Forall (fun e => is_training e = false) (trace s).
Proof.
  intros Hp. eapply Forall_impl; [exact (prepare_trace _ _ _ _ Hp) |].
  intros e. by destruct e.
Qed.

Lemma prepare_trace_no_loop w c r s :
  prepare w c initial = (r, s) -> loops_of (trace s) = [].
Proof.
  intros Hp.
  apply (loops_of_none (fun e => is_trainer_event e = false));
    [by intros ???? | exact (prepare_trace _ _ _ _ Hp)].
Qed.

(** ** Claims about the loss selection and the dispatch *)

(** C4.  With an [adv_loss] key outside 'vanilla', 'hinge', 'wasserstein'
    the run ends in an error and never trains; when everything before the
    Trainer's construction succeeded that error is the [KeyError] of the
    loss look-up.  With a supported key, every Trainer constructed receives
    exactly the generator and discriminator losses registered under that
    key, and a Trainer is constructed whenever the preparation succeeds. *)
Theorem adv_loss_selects_registered_pair w c :
  (~ In (adv_loss c) supported_adv_losses ->
     (exists e, outcome w c = Raise e)
     /\ Forall (fun e => is_training e = false) (calls w c)
     /\ (forall p s1, prepare w c initial = (Return p, s1) ->
           outcome w c = Raise (KeyError (adv_loss c))))
  /\ (In (adv_loss c) supported_adv_losses ->
        exists g d,
          registered (adv_loss c) = Some (g, d)
          /\ (forall t, In (EvTrainer t) (calls w c) ->
                t_G_loss t = g /\ t_D_loss t = d)
          /\ (forall p s1, prepare w c initial = (Return p, s1) ->
                In (EvTrainer (Trainer c p g d)) (calls w c)))
  /\ registered "vanilla" = Some (loss_dcgan_gen, loss_dcgan_dis)
  /\ registered "hinge" = Some (loss_hinge_gen, loss_hinge_dis)
  /\ registered "wasserstein" = Some (loss_wgan_gen, loss_wgan_dis).
Proof.
  split; [| split; [| by rewrite !registered_spec]].
  - intros Hun.
    assert (registered (adv_loss c) = None) as Hnone.
    { destruct (registered (adv_loss c)) eqn:E; [| done].
      destruct Hun. apply registered_supported. by rewrite E. }
    destruct (run_cases w c)
      as [(e & s & Hp & Ho & Hc)
         | (p & s1 & Hp & [(_ & Ho & Hc) | (g & d & loop & Hreg & _)])].
    + split; [by eexists | split].
      * rewrite Hc. exact (prepare_trace_no_training _ _ _ _ Hp).
      * intros p s1 Hp'. congruence.
    + split; [by eexists | split].
      * rewrite Hc. exact (prepare_trace_no_training _ _ _ _ Hp).
      * done.
    + congruence.
  - intros Hsup. apply registered_supported in Hsup as [[g d] Hreg].
    exists g, d. split; [done |].
    destruct (run_cases w c)
      as [(e & s & Hp & Ho & Hc)
         | (p & s1 & Hp & [(Hnone & _) | (g' & d' & loop & Hreg' & Ho & Hc & Hl)])].
    + split; [| intros; congruence].
      intros t Hin. rewrite Hc in Hin.
      by destruct (prepare_trace_no_trainer _ _ _ _ _ Hp Hin).
    + congruence.
    + assert (g' = g /\ d' = d) as [-> ->] by (split; congruence).
      split.
      * intros t Hin. rewrite Hc in Hin.
        apply in_app_or in Hin as [Hin | [Hin | Hin]].
        -- by destruct (prepare_trace_no_trainer _ _ _ _ _ Hp Hin).
        -- by injection Hin as <-.
        -- apply in_app_or in Hin as [Hin | Hin].
           ++ by destruct (trainer_not_in_loop _ _ _ _ _ Hl Hin).
           ++ by destruct (trainer_not_in_closing _ _ _ _ Hin).
      * intros p' s1' Hp'. assert (p' = p) as -> by congruence.
        rewrite Hc. apply in_or_app. right. by left.
Qed.

(** C6.  When training is disabled no loop is entered.  When it is
    enabled, a run that gets as far as constructing its Trainer enters
    exactly one loop: [run_ours] when the conditional strategy is one of
    ContraGAN, Proxy_NCA_GAN, XT_Xent_GAN, and [run] for every other
    strategy; and no run, however it ends, enters more than that one
    loop. *)
Theorem one_loop_selected_by_strategy w c :
  (tc_train (train_config c) = false -> loops_of (calls w c) = [])
  /\ (tc_train (train_config c) = true ->
        (exists t, In (EvTrainer t) (calls w c)) ->
        loops_of (calls w c) = [selected_variant c])
  /\ (loops_of (calls w c) = [] \/ loops_of (calls w c) = [selected_variant c])
  /\ (In (conditional_strategy c) ["ContraGAN"; "Proxy_NCA_GAN"; "XT_Xent_GAN"] ->
        selected_variant c = run_ours)
  /\ (~ In (conditional_strategy c) ["ContraGAN"; "Proxy_NCA_GAN"; "XT_Xent_GAN"] ->
        selected_variant c = run).
Proof.
  pose proof (prepare_trace_no_loop w c) as Hpre.
  pose proof (fun r s H t => prepare_trace_no_trainer w c r s t H) as Hnot.
  assert (loops_of (calls w c) = []
          \/ ((exists t, In (EvTrainer t) (calls w c))
              /\ loops_of (calls w c)
                 = if tc_train (train_config c) then [selected_variant c] else []))
    as Hshape.
  { destruct (run_cases w c)
      as [(e & s & Hp & Ho & Hc)
         | (p & s1 & Hp & [(_ & Ho & Hc) | (g & d & loop & Hreg & Ho & Hc & Hl)])].
    - left. rewrite Hc. eauto.
    - left. rewrite Hc. eauto.
    - right. rewrite Hc. split.
      + eexists. apply in_or_app. right. by left.
      + change (EvTrainer (Trainer c p g d) :: ?l)
          with ([EvTrainer (Trainer c p g d)] ++ l).
        rewrite !loops_of_app, (Hpre _ _ Hp), loops_of_closing,
          (loops_of_loop_part _ _ _ _ Hl).
        simpl. by rewrite app_nil_r. }
  split; [| split; [| split; [| split]]].
  - intros Hoff. destruct Hshape as [H | [_ H]]; [done |]. by rewrite H, Hoff.
  - intros Hon [t Hin]. destruct Hshape as [H | [_ H]]; [| by rewrite H, Hon].
    exfalso. destruct (run_cases w c)
      as [(e & s & Hp & Ho & Hc)
         | (p & s1 & Hp & [(_ & Ho & Hc) | (g & d & loop & Hreg & Ho & Hc & Hl)])].
    + rewrite Hc in Hin. by apply (Hnot _ _ Hp) in Hin.
    + rewrite Hc in Hin. by apply (Hnot _ _ Hp) in Hin.
    + rewrite Hc in H.
      change (EvTrainer (Trainer c p g d) :: ?l)
        with ([EvTrainer (Trainer c p g d)] ++ l) in H.
      rewrite !loops_of_app, (Hpre _ _ Hp), loops_of_closing,
        (loops_of_loop_part _ _ _ _ Hl), Hon in H.
      discriminate H.
  - destruct Hshape as [H | [_ H]]; [by left |].
    rewrite H. destruct (tc_train _); [by right | by left].
  - intros Hin. unfold selected_variant.
    by rewrite (proj2 (contrastive_strategy_spec _) Hin).
  - intros Hnin. unfold selected_variant.
    destruct (contrastive_strategy _) eqn:E; [| done].
    by apply contrastive_strategy_spec in E.
Qed.

(** ** Running the script step by step *)

(** Symbolic execution: unfolds the monad's operations and the state's
    projections, and nothing of the heap's representation. *)

Lemma run_deref {B} r (k : option obj -> M B) s :
  bind (deref r) k s = k (heap s !! r) s.
Proof. reflexivity. Qed.

Lemma run_bind {A B C} (m : M A) (f : A -> M B) (g : B -> M C) s :
  bind (bind m f) g s = bind m (fun x => bind (f x) g) s.
Proof. unfold bind. by destruct (m s) as [[e | a] s1]. Qed.

Ltac run :=
  repeat first
    [ progress
        cbn [bind emit alloc mutate deref ret raise heap next trace nth_error]
    | rewrite run_bind ].

(** ** Allocation only grows the heap, and leaves EMA updaters alone *)

Lemma keeps_ret {A} (a : A) : keeps (ret a).
Proof. by intros s r s' [= <- <-]. Qed.

Lemma keeps_raise {A} e : keeps (@raise A e).
Proof. by intros s r s' [= <- <-]. Qed.

Lemma keeps_emit e : keeps (emit e).
Proof. by intros s r s' [= <- <-]. Qed.

Lemma keeps_deref r0 : keeps (deref r0).
Proof. by intros s r s' [= <- <-]. Qed.

Lemma keeps_alloc o0 : keeps (alloc o0).
Proof.
  intros s r s' [= <- <-]. simpl. split; [lia |].
  intros x o Hx _ Hlook. rewrite lookup_insert_ne; [done | lia].
Qed.

Lemma keeps_mutate f r0 : (forall o, is_ema o -> f o = o) -> keeps (mutate f r0).
Proof.
  intros Hf s r s' [= <- <-]. simpl. split; [done |].
  intros x o _ Ho Hlook. destruct (decide (r0 = x)) as [-> | Hne].
  - by rewrite lookup_alter_eq, Hlook; simpl; rewrite Hf.
  - by rewrite lookup_alter_ne.
Qed.

Lemma keeps_bind {A B} (m : M A) (k : A -> M B) :
  keeps m -> (forall a, keeps (k a)) -> keeps (bind m k).
Proof.
  intros Hm Hk s r s' H.
  apply bind_inv in H as [(e & H & ->) | (a & s1 & H & H')].
  - exact (Hm _ _ _ H).
  - destruct (Hm _ _ _ H) as [N1 K1]. destruct (Hk _ _ _ _ H') as [N2 K2].
    split; [lia |]. intros x o Hx Ho Hlook.
    apply K2; [lia | done | by apply K1].
Qed.

Ltac keeps_step :=
  lazymatch goal with
  | |- keeps (bind _ _) => apply keeps_bind; [| intros ?]
  | |- keeps (ret _) => apply keeps_ret
  | |- keeps (raise _) => apply keeps_raise
  | |- keeps (emit _) => apply keeps_emit
  | |- keeps (alloc _) => apply keeps_alloc
  | |- keeps (mutate _ _) => apply keeps_mutate; by intros []
  | |- keeps (deref _) => apply keeps_deref
  | |- keeps (if ?b then _ else _) => destruct b
  | |- keeps (match ?x with _ => _ end) => destruct x
  end.

Ltac keeps_script :=
  repeat first
    [ progress repeat keeps_step
    | progress unfold check_devices, start_run, load_datasets, build_models,
        build_optimizers, reference_statistics, linear_probe,
        make_logger, SummaryWriter, logger_info,
        LoadDataset, construct, ema_, data_parallel,
        patch_replication_callback, make_optimizer, make_checkpoint_dir,
        load_checkpoint, load_state_dict, get_out_dims,
        prepare_inception_moments_eval_dataset, py_assert, py_mod, py_index,
        py_last, py_getitem ].

Lemma keeps_load_checkpoint w model optim filename metric ema_flag :
  keeps (load_checkpoint w model optim filename metric ema_flag).
Proof. keeps_script. Qed.

Lemma keeps_build_optimizers c Gen Dis : keeps (build_optimizers c Gen Dis).
Proof. keeps_script. Qed.

Lemma keeps_reference_statistics w c loader Gen run_name logger d sec :
  keeps (reference_statistics w c loader Gen run_name logger d sec).
Proof. keeps_script. Qed.

Lemma keeps_linear_probe w c Dis n d sec : keeps (linear_probe w c Dis n d sec).
Proof. keeps_script. Qed.

(** ** Restoring a checkpoint (modelled) *)

Lemma alter_keeps_ema (f : obj -> obj) r0 (h : gmap nat obj) x o :
  (forall o, is_ema o -> f o = o) ->
  is_ema o -> h !! x = Some o -> alter f r0 h !! x = Some o.
Proof.
  intros Hf Ho Hlook. destruct (decide (r0 = x)) as [-> | Hne].
  - by rewrite lookup_alter_eq, Hlook; simpl; rewrite Hf.
  - by rewrite lookup_alter_ne.
Qed.

Lemma set_weights_ema sd o : is_ema o -> set_weights sd o = o.
Proof. by destruct o. Qed.

Lemma set_optimizer_state_ema sd o : is_ema o -> set_optimizer_state sd o = o.
Proof. by destruct o. Qed.

Lemma set_weights_optimizer sd kind params st :
  set_weights sd (Optimizer kind params st) = Optimizer kind params st.
Proof. reflexivity. Qed.

(** A load never fails when it is given an optimizer or told to skip it;
    it returns the record of the file, records the call, and changes
    neither EMA updaters nor, with [ema=True], any optimizer. *)
Lemma load_checkpoint_run w model optim filename metric ema_flag s :
  ema_flag = true \/ is_Some optim ->
  exists h',
    load_checkpoint w model optim filename metric ema_flag s
    = (Return (torch_load w filename),
       {| heap := h'; next := next s;
          trace := trace s ++ [EvLoadCheckpoint model optim filename metric ema_flag] |})
    /\ (forall x o, is_ema o -> heap s !! x = Some o -> h' !! x = Some o)
    /\ (ema_flag = true ->
        forall x kind params st,
          heap s !! x = Some (Optimizer kind params st) ->
          h' !! x = Some (Optimizer kind params st)).
Proof.
  intros Hok. unfold load_checkpoint, load_state_dict. run.
  rewrite ?run_deref. run.
  assert (forall r0 sd x kind params st,
            heap s !! x = Some (Optimizer kind params st) ->
            alter (set_weights sd) r0 (heap s) !! x
            = Some (Optimizer kind params st)) as Hopt.
  { intros r0 sd x kind params st Hlook. destruct (decide (r0 = x)) as [-> | Hne].
    - by rewrite lookup_alter_eq, Hlook.
    - by rewrite lookup_alter_ne. }
  destruct ema_flag; [| destruct optim as [o |]; [| by destruct Hok as [| []]]];
    destruct (heap s !! model) as [[] |]; run;
    eexists; (split; [reflexivity |]); split;
    try (intros Hfl; discriminate Hfl); try (intros _; by apply Hopt);
    intros x o' Ho Hlook;
    repeat (apply alter_keeps_ema;
            [first [apply set_weights_ema | apply set_optimizer_state_ema] | done |]);
    done.
Qed.

(** ** The resume block (lines 137-157) *)

Ltac step_load :=
  match goal with
  | |- context [bind (load_checkpoint ?w ?m ?o ?f ?me ?fl) ?k ?st] =>
      let h := fresh "h" in
      let E := fresh "E" in
      let K := fresh "K" in
      let O := fresh "O" in
      destruct (load_checkpoint_run w m o f me fl st) as (h & E & K & O);
      [ first [by left | by right; eexists]
      | rewrite (bind_return _ _ _ _ _ E); clear E; run ]
  end.

Lemma resume_fresh w c run_name logger writer Gen Dis G_optimizer D_optimizer
    Gen_copy Gen_ema s :
  checkpoint_folder (train_config c) = None ->
  resume w c run_name logger writer Gen Dis G_optimizer D_optimizer Gen_copy
    Gen_ema s
  = (Return {| s_run_name := run_name; s_logger := logger; s_writer := writer;
               s_Gen_copy := Gen_copy; s_step := 0; s_best_step := 0;
               s_best_fid := None; s_best_fid_checkpoint_path := None;
               s_checkpoint_dir := checkpoint_dir_of w None run_name |},
     after s [EvMakeCheckpointDir None run_name]).
Proof. intros Hf. unfold resume. by rewrite Hf. Qed.

Lemma resume_from_folder w c run_name logger writer Gen Dis G_optimizer
    D_optimizer Gen_copy Gen_ema s r s' folder :
  checkpoint_folder (train_config c) = Some folder ->
  resume w c run_name logger writer Gen Dis G_optimizer D_optimizer Gen_copy
    Gen_ema s = (r, s') ->
  let dir := checkpoint_dir_of w (Some folder) run_name in
  (exists_ w (abspath w folder) = false
   /\ r = Raise NotADirectoryError /\ trace s' = trace s)
  \/ (exists_ w (abspath w folder) = true
      /\ (matching w c dir "G" = [] \/ matching w c dir "D" = [])
      /\ r = Raise IndexError
      /\ trace s' = trace s ++ [EvMakeCheckpointDir (Some folder) run_name])
  \/ (exists g d,
        exists_ w (abspath w folder) = true
        /\ head (matching w c dir "G") = Some g
        /\ head (matching w c dir "D") = Some d
        /\ let ck := torch_load w d in
           let loads :=
             loading_calls folder run_name Gen Dis G_optimizer D_optimizer g d ck in
           (ema c = false
            /\ trace s' = trace s ++ loads ++ checking_calls c g d ck
            /\ r = verdict c ck Gen_copy dir)
           \/ (ema c = true /\ matching w c dir "G_ema" = []
               /\ trace s' = trace s ++ loads /\ r = Raise IndexError)
           \/ (ema c = true
               /\ exists x, head (matching w c dir "G_ema") = Some x
               /\ ((exists copy updater,
                      Gen_copy = Some copy /\ Gen_ema = Some updater
                      /\ trace s' = trace s ++ loads
                                    ++ EvLoadCheckpoint copy None x false true
                                       :: checking_calls c g d ck
                      /\ r = verdict c ck (Some copy) dir
                      /\ forall a b q z,
                           heap s !! updater = Some (Ema a b q z) ->
                           heap s' !! updater = Some (Ema Gen copy q z))
                   \/ ((Gen_copy = None \/ Gen_ema = None)
                       /\ trace s' = trace s ++ loads
                       /\ r = Raise (AttributeError "load_state_dict"))))).
Proof.
  intros Hf. unfold resume, matching, slot. rewrite Hf.
  destruct (exists_ w (abspath w folder)) eqn:Hex; run;
    [| intros [= <- <-]; by left].
  unfold make_checkpoint_dir, py_index. run.
  destruct (glob w _) as [| g gs] eqn:HG at 1; run;
    [intros [= <- <-]; right; left; eauto |].
  destruct (glob w _) as [| d ds] eqn:HD at 1; run;
    [intros [= <- <-]; right; left; eauto |].
  do 2 step_load. unfold make_logger, SummaryWriter, logger_info, py_assert.
  run. intros H. right. right. exists g, d. rewrite HG, HD.
  split; [done | split; [done | split; [done |]]].
  unfold verdict, checking_calls, loading_calls. revert H.
  destruct (ema c) eqn:Hema; run.
  - destruct (glob w _) as [| x xs] eqn:HX at 1; run.
    + intros [= <- <-]. right. left. simpl. rewrite <- !app_assoc.
      by repeat split.
    + intros H. right. right. split; [done |]. exists x.
      split; [by rewrite HX |]. revert H.
      destruct Gen_copy as [copy |], Gen_ema as [updater |]; run;
        try (intros [= <- <-]; right; simpl; rewrite <- !app_assoc;
             repeat split; by eauto).
      step_load. intros H. left. exists copy, updater. revert H.
      destruct (seed c =? ck_seed (torch_load w d)); run;
        intros [= <- <-]; simpl; rewrite <- !app_assoc; simpl;
        (split; [done | split; [done | split; [done | split; [done |]]]]);
        intros a b q z Hlook;
        assert (h1 !! updater = Some (Ema a b q z)) as Hl
          by exact (K1 _ (Ema a b q z) I
                      (K0 _ (Ema a b q z) I (K _ (Ema a b q z) I Hlook)));
        by rewrite lookup_alter_eq, Hl.
  - intros H. left. revert H.
    destruct (seed c =? ck_seed (torch_load w d)); run;
      intros [= <- <-]; simpl; rewrite <- !app_assoc; by simpl.
Qed.

(** ** References are allocated in increasing order *)

Lemma refs_from_mono lo lo' e : (lo <= lo')%nat -> refs_from lo' e -> refs_from lo e.
Proof. destruct e; simpl; lia. Qed.

Lemma appends_ret {A} (a : A) : appends (ret a).
Proof.
  intros s r s' [= <- <-]. split; [done |]. exists []. by rewrite app_nil_r.
Qed.

Lemma appends_raise {A} e : appends (@raise A e).
Proof.
  intros s r s' [= <- <-]. split; [done |]. exists []. by rewrite app_nil_r.
Qed.

Lemma appends_emit e : (forall lo, refs_from lo e) -> appends (emit e).
Proof.
  intros He s r s' [= <- <-]. split; [done |]. exists [e].
  split; [done | by constructor].
Qed.

Lemma appends_mutate f r0 : appends (mutate f r0).
Proof.
  intros s r s' [= <- <-]. split; [done |]. exists []. by rewrite app_nil_r.
Qed.

Lemma appends_deref r0 : appends (deref r0).
Proof.
  intros s r s' [= <- <-]. split; [done |]. exists []. by rewrite app_nil_r.
Qed.

Lemma appends_bind {A B} (m : M A) (k : A -> M B) :
  appends m -> (forall a, appends (k a)) -> appends (bind m k).
Proof.
  intros Hm Hk s r s' H.
  apply bind_inv in H as [(e & H & ->) | (a & s1 & H & H')].
  - exact (Hm _ _ _ H).
  - destruct (Hm _ _ _ H) as (N1 & evs1 & E1 & F1).
    destruct (Hk _ _ _ _ H') as (N2 & evs2 & E2 & F2).
    split; [lia |]. exists (evs1 ++ evs2). split.
    + by rewrite E2, E1, app_assoc.
    + apply Forall_app. split; [done |].
      eapply Forall_impl; [exact F2 |]. intros e. by apply refs_from_mono.
Qed.

Lemma appends_construct cls d : appends (construct cls d).
Proof.
  intros s r s'. unfold construct. run. intros [= <- <-]. simpl.
  split; [lia |]. eexists. split; [done |]. constructor; [| done]. simpl. lia.
Qed.

Lemma appends_ema_ source target decay start : appends (ema_ source target decay start).
Proof.
  intros s r s'. unfold ema_. run. intros [= <- <-]. simpl.
  split; [lia |]. eexists. split; [done |]. constructor; [| done]. simpl. lia.
Qed.

Lemma appends_make_optimizer kind params : appends (make_optimizer kind params).
Proof.
  intros s r s'. unfold make_optimizer. run. intros [= <- <-]. simpl.
  split; [lia |]. eexists. split; [done |]. constructor; [| done]. simpl. lia.
Qed.

Lemma appends_data_parallel inner d : appends (data_parallel inner d).
Proof.
  intros s r s'. unfold data_parallel. run. intros [= <- <-]. simpl.
  split; [lia |]. eexists. split; [done |]. constructor; [| done]. simpl. lia.
Qed.

(** A replica that is patched right after it is made. *)
Lemma appends_replicate_and_patch inner d (b : bool) :
  appends (let* r := data_parallel inner d in
           (if b then patch_replication_callback r else ret tt) ;; ret r).
Proof.
  intros s r s'. unfold data_parallel, patch_replication_callback.
  destruct b; run; intros [= <- <-]; simpl; (split; [lia |]); eexists;
    (split; [by rewrite <- ?app_assoc |]); repeat constructor; simpl; lia.
Qed.

Ltac appends_step :=
  lazymatch goal with
  | |- appends (bind (data_parallel _ _) (fun r => bind (if _ then _ else _) _)) =>
      apply appends_replicate_and_patch
  | |- appends (bind _ _) => apply appends_bind; [| intros ?]
  | |- appends (ret _) => apply appends_ret
  | |- appends (raise _) => apply appends_raise
  | |- appends (emit _) => apply appends_emit; by intros ?
  | |- appends (mutate _ _) => apply appends_mutate
  | |- appends (deref _) => apply appends_deref
  | |- appends (construct _ _) => apply appends_construct
  | |- appends (ema_ _ _ _ _) => apply appends_ema_
  | |- appends (make_optimizer _ _) => apply appends_make_optimizer
  | |- appends (data_parallel _ _) => apply appends_data_parallel
  | |- appends (if ?b then _ else _) => destruct b
  | |- appends (match ?x with _ => _ end) => destruct x
  end.

Ltac appends_script :=
  repeat first
    [ progress repeat appends_step
    | progress unfold check_devices, start_run, load_datasets,
        build_optimizers, resume, reference_statistics, linear_probe,
        make_logger, SummaryWriter, logger_info, LoadDataset,
        make_checkpoint_dir, load_checkpoint, load_state_dict, get_out_dims,
        prepare_inception_moments_eval_dataset, py_assert, py_mod, py_index,
        py_last, py_getitem ].

Lemma appends_check_devices w c : appends (check_devices w c).
Proof. appends_script. Qed.

Lemma appends_start_run w c : appends (start_run w c).
Proof. appends_script. Qed.

Lemma appends_load_datasets w c logger : appends (load_datasets w c logger).
Proof. appends_script. Qed.

Lemma appends_build_optimizers c Gen Dis : appends (build_optimizers c Gen Dis).
Proof. appends_script. Qed.


Lemma appends_reference_statistics w c loader Gen run_name logger d sec :
  appends (reference_statistics w c loader Gen run_name logger d sec).
Proof. appends_script. Qed.

Lemma appends_linear_probe w c Dis n d sec : appends (linear_probe w c Dis n d sec).
Proof. appends_script. Qed.

(** ** Building the models (lines 85-117) *)

(** Case analysis on membership in an explicit list of calls. *)
Ltac in_cases :=
  repeat match goal with
         | H : _ \/ _ |- _ => destruct H as [H | H]
         | H : False |- _ => destruct H
         | H : @eq event _ _ |- _ => first [discriminate H | injection H as; subst]
         end.

Lemma build_models_calls w c logger n d sec s r s' :
  build_models w c logger n d sec s = (r, s') ->
  exists evs,
    trace s' = trace s ++ evs
    /\ (next s <= next s')%nat
    /\ Forall (fun e => refs_from (next s) e /\ refs_below (next s') e) evs
    /\ (forall x sb ini,
          In (EvConstruct x (Generator sb ini)) evs ->
          (x = next s /\ sb = synchronized_bn c /\ ini = InitScheme (g_init c))
          \/ (x = S (S (next s)) /\ sb = false /\ ini = InitFalse))
    /\ (forall u src tgt,
          In (EvEma u src tgt) evs ->
          ema c = true /\ src = next s /\ tgt = S (S (next s))
          /\ In (EvConstruct tgt (Generator false InitFalse)) evs
          /\ forall cls, In (EvConstruct tgt cls) evs ->
                         cls = Generator false InitFalse)
    /\ (forall x,
          In (EvPatchReplication x) evs ->
          (1 <? n) = true /\ synchronized_bn c = true
          /\ (ema c = true -> x <> S (S (next s))))
    /\ match r with
       | Raise _ => True
       | Return (Gen, Dis, Gen_copy, Gen_ema) =>
           ema_prepared c n sec (next s) (S (S (next s))) evs s' Gen_copy Gen_ema
           /\ ((1 <? n) = true -> synchronized_bn c = true ->
               In (EvPatchReplication Gen) evs /\ In (EvPatchReplication Dis) evs
               /\ In (EvDataParallel Gen (next s) sec) evs
               /\ In (EvDataParallel Dis (S (next s)) sec) evs)
           /\ In (EvConstruct (next s)
                    (Generator (synchronized_bn c) (InitScheme (g_init c)))) evs
           /\ In (EvConstruct (S (next s))
                    (Discriminator (synchronized_bn c) (InitScheme (d_init c)))) evs
       end.
Proof.
  unfold build_models, logger_info, construct, ema_, data_parallel,
    patch_replication_callback, py_assert, ema_prepared.
  destruct (String.eqb (architecture c) "dcgan"), (img_size c =? 32),
    (has_module w _), (ema c) eqn:Hema, (1 <? n) eqn:Hn,
    (synchronized_bn c) eqn:Hsync; run;
    intros [= <- <-]; cbn [heap next trace]; rewrite <- ?app_assoc;
    (eexists; split; [reflexivity |]); (split; [lia |]).
  all: split;
    [repeat (constructor; [simpl; split; first [exact I | lia] |]); constructor |].
  all: split; [intros x sb ini Hin; simpl in Hin; in_cases; auto |].
  all: split;
    [intros u src tgt Hin; simpl in Hin; in_cases;
     (split; [done | split; [done | split; [done | split;
       [simpl; tauto |
        intros cls Hin; simpl in Hin; in_cases; (done || lia)]]]]) |].
  all: split;
    [intros x Hin; simpl in Hin; in_cases;
     (split; [done | split; [done | intros He; first [discriminate He | lia]]]) |].
  all: try exact I.
  all: split;
    [| split; [intros; try discriminate; simpl; tauto | simpl; tauto] ].
  all: try (split; reflexivity).
  all: do 2 eexists; split; [reflexivity |]; split; [reflexivity |];
      split; [simpl; tauto |]; split; [lia |]; split; [lia |].
  all: split; [rewrite ?lookup_alter_ne, ?lookup_insert_ne by lia;
              by rewrite lookup_insert_eq |].
  all: split; [intros x Hin; simpl in Hin; in_cases; lia | simpl; tauto].
Qed.

(** ** The stages of a run *)

Lemma emits_trace {A} (P : event -> Prop) (m : M A) s r s' :
  emits P m -> m s = (r, s') -> Forall P (trace s) -> Forall P (trace s').
Proof.
  intros He H F. destruct (He _ _ _ H) as (evs & -> & F'). by apply Forall_app.
Qed.

Lemma check_devices_returns w c s n d sec s' :
  check_devices w c s = (Return (n, d, sec), s') ->
  n = device_count w /\ d = current_device w.
Proof.
  unfold check_devices, py_mod, py_assert.
  destruct (device_count w =? 0); run; [by intros [=] |].
  destruct (batch_size c mod device_count w =? 0); run; [| by intros [=]].
  destruct (device_count w =? 1); run; intros [=]; by subst.
Qed.

(** Lines 48-135 either stop before any model is built, or reach line 85
    having made only quiet calls, and then build the models and the
    optimizers. *)
Lemma build_inv w c r s :
  build w c initial = (r, s) ->
  (exists e, r = Raise e /\ Forall (holds quiet) (trace s))
  \/ (exists logger sec sC rm sD,
        Forall (holds quiet) (trace sC)
        /\ build_models w c logger (device_count w) (current_device w) sec sC
           = (rm, sD)
        /\ match rm with
           | Raise e => r = Raise e /\ s = sD
           | Return (Gen, Dis, Gen_copy, Gen_ema) =>
               exists ro,
                 build_optimizers c Gen Dis sD = (ro, s)
                 /\ match ro with
                    | Raise e => r = Raise e
                    | Return (G_optimizer, D_optimizer) =>
                        exists b,
                          r = Return b
                          /\ b_Gen b = Gen /\ b_Dis b = Dis
                          /\ b_Gen_copy b = Gen_copy /\ b_Gen_ema b = Gen_ema
                          /\ b_G_optimizer b = G_optimizer
                          /\ b_D_optimizer b = D_optimizer
                          /\ b_n_gpus b = device_count w
                          /\ b_default_device b = current_device w
                          /\ b_second_device b = sec
                    end
           end).
Proof.
  assert (emits (holds quiet) (check_devices w c)) as E1 by emits_script.
  assert (emits (holds quiet) (start_run w c)) as E2 by emits_script.
  assert (forall logger, emits (holds quiet) (load_datasets w c logger)) as E3
    by (intros; emits_script).
  unfold build. intros H.
  apply bind_inv in H as [(e & H & ->) | ([[n d] sec] & s1 & H1 & H)].
  { left. exists e. split; [done |].
    by apply (emits_trace _ _ _ _ _ E1 H). }
  pose proof (emits_trace _ _ _ _ _ E1 H1 (List.Forall_nil _)) as F1.
  apply check_devices_returns in H1 as [-> ->].
  apply bind_inv in H as [(e & H & ->) | ([[run_name logger] writer] & s2 & H2 & H)].
  { left. exists e. split; [done |]. by apply (emits_trace _ _ _ _ _ E2 H). }
  pose proof (emits_trace _ _ _ _ _ E2 H2 F1) as F2.
  apply bind_inv in H as [(e & H & ->) | ([tds eds] & sC & H3 & H)].
  { left. exists e. split; [done |]. by apply (emits_trace _ _ _ _ _ (E3 _) H). }
  pose proof (emits_trace _ _ _ _ _ (E3 _) H3 F2) as F3.
  right. exists logger, sec, sC.
  apply bind_inv in H as [(e & H & ->) | ([[[Gen Dis] Gc] Ge] & sD & H4 & H)].
  { exists (Raise e), s. by split; [| split]. }
  exists (Return (Gen, Dis, Gc, Ge)), sD. split; [done | split; [done |]].
  apply bind_inv in H as [(e & H & ->) | ([Go Do] & sE & H5 & H)].
  { exists (Raise e). by split. }
  exists (Return (Go, Do)). injection H as <- <-. split; [done |].
  eexists. split; [reflexivity |]. by repeat split.
Qed.

(** Lines 159-171, exactly. *)
Lemma reference_statistics_run w c loader Gen run_name logger d sec s :
  reference_statistics w c loader Gen run_name logger d sec s
  = if tc_eval (train_config c) then
      (Return (Some (m_mu (inception_moments w (type4eval_dataset c))),
               Some (m_sigma (inception_moments w (type4eval_dataset c))),
               Some (S (next s))),
       {| heap := <[S (next s) := DataParallel (next s) sec false]>
                    (<[next s := Network InceptionV3 d None]> (heap s));
          next := S (S (next s));
          trace := trace s
                   ++ [EvConstruct (next s) InceptionV3;
                       EvDataParallel (S (next s)) (next s) sec;
                       EvPrepareMoments loader Gen (type4eval_dataset c)
                         (S (next s)) 10 run_name logger sec] |})
    else (Return (None, None, None), s).
Proof.
  unfold reference_statistics, construct, data_parallel,
    prepare_inception_moments_eval_dataset.
  destruct (tc_eval _); [| done]. run. by rewrite <- !app_assoc.
Qed.

(** Lines 137-192 stop in the resume block or in the linear probe, or
    return the variables of all three blocks. *)
Lemma finish_inv w c b s r s' :
  finish w c b s = (r, s') ->
  exists rr sR,
    resume w c (b_run_name b) (b_logger b) (b_writer b) (b_Gen b) (b_Dis b)
      (b_G_optimizer b) (b_D_optimizer b) (b_Gen_copy b) (b_Gen_ema b) s
    = (rr, sR)
    /\ match rr with
       | Raise e => r = Raise e /\ s' = sR
       | Return ss =>
           exists mu sigma inception sS rl,
             reference_statistics w c (b_eval_dataloader b) (b_Gen b)
               (s_run_name ss) (s_logger ss) (b_default_device b)
               (b_second_device b) sR
             = (Return (mu, sigma, inception), sS)
             /\ linear_probe w c (b_Dis b) (b_n_gpus b) (b_default_device b)
                  (b_second_device b) sS = (rl, s')
             /\ match rl with
                | Raise e => r = Raise e
                | Return _ =>
                    exists p,
                      r = Return p /\ p_session p = ss /\ p_mu p = mu
                      /\ p_sigma p = sigma /\ p_Gen p = b_Gen b
                      /\ p_Dis p = b_Dis b /\ p_Gen_ema p = b_Gen_ema b
                      /\ p_n_gpus p = b_n_gpus b
                end
       end.
Proof.
  unfold finish. intros H.
  apply bind_inv in H as [(e & H & ->) | (ss & sR & H1 & H)].
  { exists (Raise e), s'. by split. }
  exists (Return ss), sR. split; [done |].
  apply bind_inv in H as [(e & H & ->) | ([[mu sigma] inc] & sS & H2 & H)].
  { rewrite reference_statistics_run in H. by destruct (tc_eval _). }
  exists mu, sigma, inc, sS.
  apply bind_inv in H as [(e & H & ->) | ([lin Lo] & sL & H3 & H)].
  { exists (Raise e). by split; [| split]. }
  exists (Return (lin, Lo)). injection H as <- <-.
  split; [done | split; [done |]]. eexists. split; [reflexivity |].
  by repeat split.
Qed.

(** ** The Trainer's calls *)

Lemma emits_iterate (P : event -> Prop) w fuel v t :
  (forall e, is_trainer_event e = true -> P e) ->
  forall step total, emits P (iterate w fuel v t step total).
Proof.
  intros HP. induction fuel as [| fuel IH]; intros step total; simpl.
  - apply emits_ret.
  - unfold evaluation. emits_auto ltac:(by apply HP). apply IH.
Qed.

Lemma emits_operate (P : event -> Prop) w c p :
  (forall e, is_trainer_event e = true -> P e) -> emits P (operate w c p).
Proof.
  intros HP.
  unfold operate, make_trainer, dispatch, training_loop, closing_passes,
    evaluation, Nearest_Neighbor, linear_interpolation, linear_classification.
  repeat first
    [ apply emits_iterate; exact HP
    | apply emits_py_getitem
    | progress emits_auto ltac:(by apply HP) ].
Qed.

(** The calls of a run, cut where lines 48-192 end. *)
Lemma calls_after_prepare w c r s :
  prepare w c initial = (r, s) ->
  exists later,
    calls w c = trace s ++ later
    /\ Forall (fun e => is_trainer_event e = true) later
    /\ match r with
       | Raise e => outcome w c = Raise e /\ later = []
       | Return _ => True
       end.
Proof.
  intros Hp. unfold calls, outcome, train_framework.
  destruct r as [e | p].
  - rewrite (bind_raise _ _ _ _ _ Hp). exists []. by rewrite app_nil_r.
  - rewrite (bind_return _ _ _ _ _ Hp).
    destruct (operate w c p s) as [r' s'] eqn:Ho.
    destruct (emits_operate (fun e => is_trainer_event e = true) w c p
                (fun e H => H) _ _ _ Ho) as (later & E & F).
    exists later. simpl. by rewrite E.
Qed.

Lemma in_holds (p : event -> bool) e l : Forall (holds p) l -> In e l -> p e = true.
Proof.
  intros F Hin. rewrite Forall_forall in F. by apply F, list_elem_of_In.
Qed.

Lemma build_trace w c r s :
  build w c initial = (r, s) -> Forall (holds building) (trace s).
Proof.
  intros H.
  assert (emits (holds building) (build w c)) as E
    by (unfold build; emits_script).
  by apply (emits_trace _ _ _ _ _ E H).
Qed.

Lemma probing_calls w c b ss s mu sigma inception sS rl s' :
  reference_statistics w c (b_eval_dataloader b) (b_Gen b) (s_run_name ss)
    (s_logger ss) (b_default_device b) (b_second_device b) s
  = (Return (mu, sigma, inception), sS) ->
  linear_probe w c (b_Dis b) (b_n_gpus b) (b_default_device b)
    (b_second_device b) sS = (rl, s') ->
  exists evs, trace s' = trace s ++ evs /\ Forall (holds probing) evs.
Proof.
  intros H1 H2.
  assert (forall loader Gen rn lg d sec,
            emits (holds probing)
              (reference_statistics w c loader Gen rn lg d sec)) as E1
    by (intros; emits_script).
  assert (forall Dis n d sec, emits (holds probing) (linear_probe w c Dis n d sec))
    as E2 by (intros; emits_script).
  destruct (E1 _ _ _ _ _ _ _ _ _ H1) as (evs1 & T1 & F1).
  destruct (E2 _ _ _ _ _ _ _ H2) as (evs2 & T2 & F2).
  exists (evs1 ++ evs2). split; [by rewrite T2, T1, app_assoc |].
  by apply Forall_app.
Qed.

(** Lines 48-192 stop while building, in the resume block or in the
    linear probe, or go through. *)
Lemma prepare_inv w c r s :
  prepare w c initial = (r, s) ->
  (exists e, build w c initial = (Raise e, s) /\ r = Raise e)
  \/ (exists b sB rr sR,
        build w c initial = (Return b, sB)
        /\ resume w c (b_run_name b) (b_logger b) (b_writer b) (b_Gen b)
             (b_Dis b) (b_G_optimizer b) (b_D_optimizer b) (b_Gen_copy b)
             (b_Gen_ema b) sB = (rr, sR)
        /\ match rr with
           | Raise e => r = Raise e /\ s = sR
           | Return ss =>
               exists mu sigma inception sS rl,
                 reference_statistics w c (b_eval_dataloader b) (b_Gen b)
                   (s_run_name ss) (s_logger ss) (b_default_device b)
                   (b_second_device b) sR
                 = (Return (mu, sigma, inception), sS)
                 /\ linear_probe w c (b_Dis b) (b_n_gpus b)
                      (b_default_device b) (b_second_device b) sS = (rl, s)
                 /\ match rl with
                    | Raise e => r = Raise e
                    | Return _ =>
                        exists p,
                          r = Return p /\ p_session p = ss /\ p_mu p = mu
                          /\ p_sigma p = sigma /\ p_Gen p = b_Gen b
                          /\ p_Dis p = b_Dis b /\ p_Gen_ema p = b_Gen_ema b
                          /\ p_n_gpus p = b_n_gpus b
                    end
           end).
Proof.
  unfold prepare. intros H.
  apply bind_inv in H as [(e & H & ->) | (b & sB & Hb & H)].
  - left. by exists e.
  - right. exists b, sB. apply finish_inv in H as (rr & sR & Hr & H).
    by exists rr, sR.
Qed.

Lemma prepare_raises w c e s :
  prepare w c initial = (Raise e, s) ->
  outcome w c = Raise e /\ calls w c = trace s
  /\ Forall (fun e => is_training e = false) (calls w c).
Proof.
  intros Hp. destruct (calls_after_prepare _ _ _ _ Hp) as (later & Hc & _ & Ho & ->).
  rewrite app_nil_r in Hc. rewrite Hc.
  split; [done | split; [done |]]. exact (prepare_trace_no_training _ _ _ _ Hp).
Qed.

(** The variables [Gen_copy] and [Gen_ema] after lines 48-135, and the
    updater they refer to. *)
Lemma build_ema_vars w c b sB :
  build w c initial = (Return b, sB) ->
  if ema c then
    exists copy updater live target,
      b_Gen_copy b = Some copy /\ b_Gen_ema b = Some updater
      /\ heap sB !! updater = Some (Ema live target (ema_decay c) (ema_start c))
      /\ (updater < next sB)%nat /\ (copy < next sB)%nat
  else b_Gen_copy b = None /\ b_Gen_ema b = None.
Proof.
  intros Hb. apply build_inv in Hb as [(e & [=] & _) | Hb].
  destruct Hb as (logger & sec & sC & rm & sD & _ & Hm & Hb).
  destruct rm as [e | [[[Gen Dis] Gc] Ge]]; [by destruct Hb |].
  destruct Hb as (ro & Ho & Hb). destruct ro as [e | [Go Do]]; [done |].
  destruct Hb as (b' & [= <-] & _ & _ & -> & -> & _).
  apply build_models_calls in Hm as (evs & _ & _ & _ & _ & _ & _ & Hema & _).
  unfold ema_prepared in Hema. destruct (ema c); [| done].
  destruct Hema as (copy & updater & -> & -> & _ & Hc & Hu & Hh & _).
  destruct (keeps_build_optimizers c Gen Dis _ _ _ Ho) as [Hn Hk].
  exists copy, updater, (next sC), (S (S (next sC))).
  split; [done | split; [done | split; [| lia]]].
  by apply Hk.
Qed.

(** ** The checkpoints a run loads *)

Lemma loads_of_app evs1 evs2 : loads_of (evs1 ++ evs2) = loads_of evs1 ++ loads_of evs2.
Proof. apply List.filter_app. Qed.

Lemma loads_of_none (p : event -> bool) evs :
  (forall e, p e = true -> is_load e = false) ->
  Forall (holds p) evs -> loads_of evs = [].
Proof.
  intros Hp. induction 1 as [| e evs He _ IH]; [done |].
  unfold loads_of in *. simpl. by rewrite (Hp _ He).
Qed.

Lemma loads_of_in e evs : In e evs -> is_load e = true -> In e (loads_of evs).
Proof. intros Hin Hl. apply List.filter_In. by split. Qed.

Lemma in_loads_of e evs : In e (loads_of evs) -> In e evs.
Proof. intros Hin. by apply List.filter_In in Hin as [? _]. Qed.

Lemma loads_of_building evs : Forall (holds building) evs -> loads_of evs = [].
Proof.
  apply loads_of_none. intros e. unfold building. by destruct (is_load e).
Qed.

Lemma loads_of_probing evs : Forall (holds probing) evs -> loads_of evs = [].
Proof. apply loads_of_none. intros e. by destruct e. Qed.

Lemma loads_of_trainer evs :
  Forall (fun e => is_trainer_event e = true) evs -> loads_of evs = [].
Proof. apply (loads_of_none is_trainer_event). intros e. by destruct e. Qed.

Lemma loads_of_checking c g d ck : loads_of (checking_calls c g d ck) = [].
Proof. unfold checking_calls. by destruct (seed c =? ck_seed ck). Qed.

Lemma resume_reported w c folder r s :
  checkpoint_folder (train_config c) = Some folder ->
  prepare w c initial = (r, s) ->
  resume_report w c folder r.
Proof.
  intros Hf Hp.
  destruct (calls_after_prepare _ _ _ _ Hp) as (later & Hc & Fl & Hr).
  pose proof (loads_of_trainer _ Fl) as Ll.
  destruct (prepare_inv _ _ _ _ Hp)
    as [(e & Hb & ->) | (b & sB & rr & sR & Hb & Hres & Hrest)].
  { destruct Hr as [_ ->]. eapply NotBuilt; [done | done |].
    by rewrite Hc, app_nil_r, (loads_of_building _ (build_trace _ _ _ _ Hb)). }
  pose proof (loads_of_building _ (build_trace _ _ _ _ Hb)) as Lb.
  pose proof (build_ema_vars _ _ _ _ Hb) as Hvars.
  assert (forall evs,
            match rr with
            | Raise _ => trace sR = trace sB ++ evs
            | Return _ => trace sR = trace sB ++ evs
            end -> loads_of (calls w c) = loads_of evs) as Hloads.
  { intros evs Hevs. rewrite Hc, loads_of_app, Ll, app_nil_r.
    destruct rr as [e | ss].
    - destruct Hrest as [_ ->]. by rewrite Hevs, loads_of_app, Lb.
    - destruct Hrest as (mu & sigma & inc & sS & rl & H1 & H2 & _).
      destruct (probing_calls _ _ _ _ _ _ _ _ _ _ _ H1 H2) as (pe & -> & Fp).
      by rewrite Hevs, !loads_of_app, Lb, (loads_of_probing _ Fp), app_nil_r. }
  assert (forall e, rr = Raise e -> r = Raise e) as Hraise.
  { intros e ->. by destruct Hrest. }
  assert (forall ss, rr = Return ss ->
            match r with Return p => p_session p = ss | Raise _ => True end)
    as Hret.
  { intros ss ->. destruct Hrest as (mu & sigma & inc & sS & rl & _ & _ & Hrl).
    destruct rl as [e | ?]; [by rewrite Hrl |].
    by destruct Hrl as (p & -> & -> & _). }
  destruct (resume_from_folder _ _ _ _ _ _ _ _ _ _ _ _ _ _ _ Hf Hres)
    as [(Hex & -> & Ht) | [(Hex & Hnone & -> & Ht) | (g & d & Hex & HG & HD & Hcase)]].
  - eapply NoFolder; [done | done | by apply Hraise |].
    rewrite (Hloads []); [done | by rewrite app_nil_r].
  - eapply NoFile; [done | done | done | by apply Hraise |].
    by rewrite (Hloads _ Ht).
  - destruct Hcase
      as [(Hema & Ht & Hv)
         | [(Hema & HX & Ht & ->)
           | (Hema & x & HX & [(copy & updater & Hcopy & Hup & Ht & Hv & _)
                              | (Hnone & _)])]].
    + eapply (Checked _ _ _ _ _ _ g d [] (b_Gen_copy b)); [done | done | | ].
      * split; [done | split; [done | split; [by left |]]].
        rewrite <- Hv. destruct rr as [e | ss]; [by apply Hraise | by apply Hret].
      * rewrite (Hloads (loading_calls folder (b_run_name b) (b_Gen b) (b_Dis b)
                           (b_G_optimizer b) (b_D_optimizer b) g d (torch_load w d)
                         ++ checking_calls c g d (torch_load w d))).
        -- by rewrite loads_of_app, loads_of_checking.
        -- by destruct rr.
    + eapply (NoEmaFile _ _ _ _ _ _ g d); [done | done | done | done
                                          | by apply Hraise |].
      by rewrite (Hloads _ Ht).
    + eapply (Checked _ _ _ _ _ _ g d
                [EvLoadCheckpoint copy None x false true] (Some copy));
        [done | done | | ].
      * split; [done | split; [done | split; [right; eauto 10 |]]].
        rewrite <- Hv. destruct rr as [e | ss]; [by apply Hraise | by apply Hret].
      * rewrite (Hloads (loading_calls folder (b_run_name b) (b_Gen b) (b_Dis b)
                           (b_G_optimizer b) (b_D_optimizer b) g d (torch_load w d)
                         ++ EvLoadCheckpoint copy None x false true
                            :: checking_calls c g d (torch_load w d))).
        -- change (EvLoadCheckpoint copy None x false true :: ?l)
             with ([EvLoadCheckpoint copy None x false true] ++ l).
           by rewrite !loads_of_app, loads_of_checking.
        -- by destruct rr.
    + rewrite Hema in Hvars.
      destruct Hvars as (copy & updater & ? & ? & Hc1 & Hc2 & _).
      destruct Hnone as [Hn | Hn]; congruence.
Qed.

Lemma fresh_reported w c r s :
  checkpoint_folder (train_config c) = None ->
  prepare w c initial = (r, s) ->
  loads_of (calls w c) = []
  /\ match r with
     | Return p => s_step (p_session p) = 0
     | Raise _ => True
     end.
Proof.
  intros Hf Hp.
  destruct (calls_after_prepare _ _ _ _ Hp) as (later & Hc & Fl & Hr).
  pose proof (loads_of_trainer _ Fl) as Ll.
  destruct (prepare_inv _ _ _ _ Hp)
    as [(e & Hb & ->) | (b & sB & rr & sR & Hb & Hres & Hrest)].
  { split; [| done].
    by rewrite Hc, loads_of_app, Ll, (loads_of_building _ (build_trace _ _ _ _ Hb)). }
  pose proof (loads_of_building _ (build_trace _ _ _ _ Hb)) as Lb.
  rewrite resume_fresh in Hres by done. injection Hres as <- <-.
  destruct Hrest as (mu & sigma & inc & sS & rl & H1 & H2 & Hrl).
  destruct (probing_calls _ _ _ _ _ _ _ _ _ _ _ H1 H2) as (pe & Hs & Fp).
  split.
  - rewrite Hc, Hs. simpl.
    by rewrite !loads_of_app, Lb, (loads_of_probing _ Fp), Ll.
  - destruct rl as [e | ?]; [by rewrite Hrl |].
    by destruct Hrl as (p & -> & -> & _).
Qed.

(** A loop entered in a run is the selected one, of the one Trainer the
    run constructed, started at the step that lines 48-192 left. *)
Lemma loop_in_run w c v t current total :
  In (EvLoop v t current total) (calls w c) ->
  exists p s1 g d loop,
    prepare w c initial = (Return p, s1)
    /\ registered (adv_loss c) = Some (g, d)
    /\ t = Trainer c p g d /\ v = selected_variant c
    /\ current = s_step (p_session p) /\ total = total_step c
    /\ tc_train (train_config c) = true
    /\ calls w c
       = trace s1
         ++ EvTrainer t :: loop ++ closing_calls c t (Z.max current total)
    /\ loop_part c t current loop.
Proof.
  intros Hin.
  assert (forall r s, prepare w c initial = (r, s) ->
            ~ In (EvLoop v t current total) (trace s)) as Hpre.
  { intros r s Hp Hin'. pose proof (prepare_trace _ _ _ _ Hp) as F.
    rewrite Forall_forall in F. by apply list_elem_of_In, F in Hin'. }
  destruct (run_cases w c)
    as [(e & s & Hp & Ho & Hc)
       | (p & s1 & Hp & [(_ & Ho & Hc) | (g & d & loop & Hreg & Ho & Hc & Hl)])].
  - rewrite Hc in Hin. by destruct (Hpre _ _ Hp).
  - rewrite Hc in Hin. by destruct (Hpre _ _ Hp).
  - exists p, s1, g, d, loop. split; [done | split; [done |]].
    pose proof Hl as Hl'. pose proof Hc as Hc'.
    rewrite Hc in Hin. apply in_app_or in Hin as [Hin | [Hin | Hin]];
      [by destruct (Hpre _ _ Hp) | done |].
    apply in_app_or in Hin as [Hin | Hin].
    + unfold loop_part in Hl. unfold final_step in Hc'.
      destruct (tc_train _); [| by subst].
      destruct Hl as (body & -> & F & _). destruct Hin as [[= <- <- <- <-] | Hin];
        [done |].
      rewrite Forall_forall in F. apply list_elem_of_In, F in Hin. destruct Hin.
    + unfold closing_calls in Hin.
      destruct (tc_eval _), (k_nearest_neighbor _), (interpolation _),
        (linear_evaluation _); simpl in Hin; intuition discriminate.
Qed.


(** ** Claims about the resume *)


Lemma evaluation_steps_app evs1 evs2 :
  evaluation_steps (evs1 ++ evs2) = evaluation_steps evs1 ++ evaluation_steps evs2.
Proof. apply omap_app. Qed.

Lemma evaluation_steps_closing c t step :
  evaluation_steps (closing_calls c t step)
  = if tc_eval (train_config c) then [step] else [].
Proof.
  unfold closing_calls.
  by destruct (tc_eval _), (k_nearest_neighbor _), (interpolation _),
    (linear_evaluation _).
Qed.

(** C7.  The step counter handed to the training loop is 0 on a fresh
    start and, on a resume, the step recorded in the checkpoint whose
    metadata the run keeps (the discriminator's); the loop is called with
    the configured [total_step]; it always returns, having run one
    iteration per step from the counter it was given up to [total_step],
    and returns the final step count ([total_step] when it started at or
    below it); that returned value is the step of the last, post-training,
    [evaluation] call. *)
Theorem step_counter_resumes_and_returns w c :
  (forall v t current total,
     In (EvLoop v t current total) (calls w c) ->
     total = total_step c
     /\ match checkpoint_folder (train_config c) with
        | None => current = 0
        | Some _ =>
            exists model optim path,
              In (EvLoadCheckpoint model optim path true false) (calls w c)
              /\ current = ck_step (torch_load w path)
        end
     /\ (tc_eval (train_config c) = true ->
         last (evaluation_steps (calls w c)) = Some (Z.max current total)))
  /\ (forall v t current total s,
        exists body,
          training_loop w v t current total s
          = (Return (Z.max current total),
             after s (EvLoop v t current total :: body))
          /\ train_steps body = seqZ current (total - current)
          /\ (current <= total -> Z.max current total = total)).
Proof.
  split.
  - intros v t current total Hin.
    destruct (loop_in_run _ _ _ _ _ _ Hin)
      as (p & s1 & g & d & loop & Hp & Hreg & -> & -> & -> & -> & Htrain & Hc & Hl).
    split; [done | split].
    + destruct (checkpoint_folder (train_config c)) as [folder |] eqn:Hf.
      * destruct (resume_reported _ _ _ _ _ Hf Hp)
          as [e sB Hb [=] L | b sB Hb _ [=] L | b sB Hb _ _ [=] L
             | b sB g' d' Hb _ _ _ [=] L
             | b sB g' d' more copy' Hb Hex' (HG & HD & Hmore & Hv) L].
        unfold verdict in Hv.
        destruct (seed c =? ck_seed (torch_load w d')); [| discriminate Hv].
        exists (b_Dis b), (Some (b_D_optimizer b)), d'. split.
        -- apply in_loads_of. rewrite L. right. by left.
        -- by rewrite Hv.
      * by destruct (fresh_reported _ _ _ _ Hf Hp) as [_ H0].
    + intros Heval. rewrite Hc.
      change (EvTrainer ?x :: ?l) with ([EvTrainer x] ++ l).
      rewrite !evaluation_steps_app, evaluation_steps_closing, Heval, !app_assoc.
      apply last_snoc.
  - intros v t current total s.
    destruct (training_loop_run w v t current total s) as (body & H & _ & S).
    exists body. split; [done | split; [done | lia]].
Qed.




(** ** The reference statistics (lines 159-171) *)

Lemma moments_requests_app evs1 evs2 :
  moments_requests (evs1 ++ evs2) = moments_requests evs1 ++ moments_requests evs2.
Proof. apply omap_app. Qed.

Lemma moments_requests_none evs :
  Forall (holds (fun e => negb (is_prepare e))) evs -> moments_requests evs = [].
Proof.
  induction 1 as [| e evs He _ IH]; [done |].
  change (e :: evs) with ([e] ++ evs). rewrite moments_requests_app, IH.
  by destruct e.
Qed.

Lemma moments_requests_trainer evs :
  Forall (fun e => is_trainer_event e = true) evs -> moments_requests evs = [].
Proof.
  intros F. apply moments_requests_none. eapply Forall_impl; [exact F |].
  intros e. unfold holds. by destruct e.
Qed.

Lemma prepare_moments w c r s :
  tc_eval (train_config c) = true ->
  prepare w c initial = (r, s) ->
  (moments_requests (trace s) = [] /\ exists e, r = Raise e)
  \/ (moments_requests (trace s) = [type4eval_dataset c]
      /\ match r with
         | Return p =>
             p_mu p = Some (m_mu (inception_moments w (type4eval_dataset c)))
             /\ p_sigma p
                = Some (m_sigma (inception_moments w (type4eval_dataset c)))
         | Raise _ => True
         end).
Proof.
  intros Heval Hp.
  assert (emits (holds (fun e => negb (is_prepare e))) (build w c)) as Eb
    by (unfold build; emits_script).
  assert (forall rn lg wr G D Go Do Gc Ge,
            emits (holds (fun e => negb (is_prepare e)))
              (resume w c rn lg wr G D Go Do Gc Ge)) as Er
    by (intros; emits_script).
  assert (forall D n d sec,
            emits (holds (fun e => negb (is_prepare e)))
              (linear_probe w c D n d sec)) as El
    by (intros; emits_script).
  destruct (prepare_inv _ _ _ _ Hp)
    as [(e & Hb & ->) | (b & sB & rr & sR & Hb & Hres & Hrest)].
  { left. split; [| by eexists]. apply moments_requests_none.
    by apply (emits_trace _ _ _ _ _ Eb Hb). }
  assert (moments_requests (trace sR) = []) as HR.
  { apply moments_requests_none.
    apply (emits_trace _ _ _ _ _ (Er _ _ _ _ _ _ _ _ _) Hres).
    by apply (emits_trace _ _ _ _ _ Eb Hb). }
  destruct rr as [e | ss].
  { destruct Hrest as [-> ->]. left. split; [done | by eexists]. }
  destruct Hrest as (mu & sigma & inc & sS & rl & H1 & H2 & Hrl).
  rewrite reference_statistics_run, Heval in H1. injection H1 as <- <- <- <-.
  destruct (El _ _ _ _ _ _ _ H2) as (evs & Hs & Fe).
  right. split.
  - rewrite Hs. simpl.
    by rewrite !moments_requests_app, HR, (moments_requests_none _ Fe).
  - destruct rl as [e | ?]; [by rewrite Hrl |].
    by destruct Hrl as (p & -> & _ & -> & -> & _).
Qed.

(** C5, as the code has it.  With evaluation enabled, the preparer is
    invoked at most once in a run, and exactly once in every run that gets
    as far as constructing its Trainer: before that construction and
    before any training.  The Trainer receives the mean and the covariance
    of that one result; every [evaluation] call of the run, in the loop or
    after it, is made on that Trainer; and nothing after the Trainer's
    construction invokes the preparer, however many evaluations follow. *)
Theorem reference_statistics_prepared_once w c :
  tc_eval (train_config c) = true ->
  (List.length (moments_requests (calls w c)) <= 1)%nat
  /\ forall t,
       In (EvTrainer t) (calls w c) ->
       exists before later,
         calls w c = before ++ EvTrainer t :: later
         /\ moments_requests before = [type4eval_dataset c]
         /\ moments_requests later = []
         /\ Forall (fun e => is_training e = false) before
         /\ t_mu t = Some (m_mu (inception_moments w (type4eval_dataset c)))
         /\ t_sigma t = Some (m_sigma (inception_moments w (type4eval_dataset c)))
         /\ forall t' step, In (EvEvaluation t' step) (calls w c) -> t' = t.
Proof.
  intros Heval.
  destruct (prepare w c initial) as [r s] eqn:Hp.
  destruct (calls_after_prepare _ _ _ _ Hp) as (later & Hc & Fl & Hr).
  pose proof (prepare_moments _ _ _ _ Heval Hp) as Hm.
  split.
  - rewrite Hc, moments_requests_app, (moments_requests_trainer _ Fl), app_nil_r.
    destruct Hm as [[-> _] | [-> _]]; simpl; lia.
  - intros t Hin.
    destruct (run_cases w c)
      as [(e & s0 & Hp0 & Ho & Hc0)
         | (p & s1 & Hp1 & [(_ & Ho & Hc1) | (g & d & loop & Hreg & Ho & Hc1 & Hl)])].
    { rewrite Hc0 in Hin. by destruct (prepare_trace_no_trainer _ _ _ _ _ Hp0 Hin). }
    { rewrite Hc1 in Hin. by destruct (prepare_trace_no_trainer _ _ _ _ _ Hp1 Hin). }
    rewrite Hp in Hp1. injection Hp1 as -> ->.
    assert (t = Trainer c p g d) as ->.
    { rewrite Hc1 in Hin. apply in_app_or in Hin as [Hin | [Hin | Hin]].
      - by destruct (prepare_trace_no_trainer _ _ _ _ _ Hp Hin).
      - by injection Hin as <-.
      - apply in_app_or in Hin as [Hin | Hin].
        + by destruct (trainer_not_in_loop _ _ _ _ _ Hl Hin).
        + by destruct (trainer_not_in_closing _ _ _ _ Hin). }
    destruct Hm as [(_ & e & [=]) | (Hmr & Hmu & Hsigma)].
    eexists _, _. split; [exact Hc1 | split; [done | split; [| split; [| split; [done | split; [done |]]]]]].
    + assert (trace s1 ++ later
              = trace s1
                ++ EvTrainer (Trainer c p g d)
                   :: loop
                   ++ closing_calls c (Trainer c p g d)
                        (final_step c (s_step (p_session p)))) as E
        by (by rewrite <- Hc, <- Hc1).
      apply app_inv_head in E. rewrite E in Fl.
      apply moments_requests_trainer. by inversion Fl.
    + exact (prepare_trace_no_training _ _ _ _ Hp).
    + intros t' step Hev. rewrite Hc1 in Hev.
      apply in_app_or in Hev as [Hev | [Hev | Hev]].
      * pose proof (prepare_trace _ _ _ _ Hp) as F. rewrite Forall_forall in F.
        by apply list_elem_of_In, F in Hev.
      * discriminate Hev.
      * apply in_app_or in Hev as [Hev | Hev].
        -- unfold loop_part in Hl. destruct (tc_train _); [| by subst].
           destruct Hl as (body & -> & F & _).
           destruct Hev as [Hev | Hev]; [discriminate Hev |].
           rewrite Forall_forall in F. by apply list_elem_of_In, F in Hev.
        -- unfold closing_calls in Hev.
           destruct (tc_eval _), (k_nearest_neighbor _), (interpolation _),
             (linear_evaluation _); simpl in Hev;
             repeat (destruct Hev as [Hev | Hev]; [by inversion Hev |]);
             by destruct Hev.
Qed.

(** ** The calls that follow the building of the models *)

Lemma appends_finish w c b : appends (finish w c b).
Proof. unfold finish. appends_script. Qed.

Lemma emits_later_build_optimizers c n Gen Dis :
  emits (later_event c n) (build_optimizers c Gen Dis).
Proof. unfold later_event. emits_script. Qed.

Lemma emits_later_finish w c b :
  emits (later_event c (b_n_gpus b)) (finish w c b).
Proof. unfold later_event, finish. emits_script. Qed.

Lemma trainer_events_later c n lo evs :
  Forall (fun e => is_trainer_event e = true) evs ->
  Forall (refs_from lo) evs /\ Forall (later_event c n) evs.
Proof.
  intros F. split; (eapply Forall_impl; [exact F |]); intros e; by destruct e.
Qed.

Lemma calls_after_build w c b sB :
  build w c initial = (Return b, sB) ->
  exists later,
    calls w c = trace sB ++ later
    /\ Forall (refs_from (next sB)) later
    /\ Forall (later_event c (b_n_gpus b)) later.
Proof.
  intros Hb. destruct (finish w c b sB) as [rf sF] eqn:Hf.
  assert (prepare w c initial = (rf, sF)) as Hp
    by (unfold prepare; by rewrite (bind_return _ _ _ _ _ Hb)).
  destruct (calls_after_prepare _ _ _ _ Hp) as (op & Hc & Fop & _).
  destruct (appends_finish _ _ _ _ _ _ Hf) as (_ & evs & Ht & Fr).
  destruct (emits_later_finish _ _ _ _ _ _ Hf) as (evs' & Ht' & Fl).
  assert (evs' = evs) as -> by (rewrite Ht in Ht'; by apply app_inv_head in Ht').
  destruct (trainer_events_later c (b_n_gpus b) (next sB) _ Fop) as [Fr' Fl'].
  exists (evs ++ op). split; [by rewrite Hc, Ht, app_assoc |].
  split; by apply Forall_app.
Qed.

(** The calls of a run, cut around lines 85-117. *)
Lemma calls_around_models w c :
  Forall (holds quiet) (calls w c)
  \/ exists logger sec sC rm sD later,
       Forall (holds quiet) (trace sC)
       /\ build_models w c logger (device_count w) (current_device w) sec sC
          = (rm, sD)
       /\ calls w c = trace sD ++ later
       /\ Forall (refs_from (next sD)) later
       /\ Forall (later_event c (device_count w)) later
       /\ forall b sB,
            build w c initial = (Return b, sB) ->
            rm = Return (b_Gen b, b_Dis b, b_Gen_copy b, b_Gen_ema b)
            /\ b_second_device b = sec.
Proof.
  destruct (build w c initial) as [rb sB] eqn:Hb.
  destruct (build_inv _ _ _ _ Hb)
    as [(e & -> & Fq) | (logger & sec & sC & rm & sD & Fq & Hm & Hrest)].
  { left. assert (prepare w c initial = (Raise e, sB)) as Hp
      by (unfold prepare; by rewrite (bind_raise _ _ _ _ _ Hb)).
    destruct (prepare_raises _ _ _ _ Hp) as (_ & -> & _). done. }
  right. exists logger, sec, sC, rm, sD.
  destruct rm as [e | [[[Gen Dis] Gc] Ge]].
  { destruct Hrest as [-> ->]. exists [].
    assert (prepare w c initial = (Raise e, sD)) as Hp
      by (unfold prepare; by rewrite (bind_raise _ _ _ _ _ Hb)).
    destruct (prepare_raises _ _ _ _ Hp) as (_ & -> & _).
    rewrite app_nil_r. repeat split; try done; intros; discriminate. }
  destruct Hrest as (ro & Ho & Hrest).
  destruct (appends_build_optimizers _ _ _ _ _ _ Ho) as (Hn & evo & Hto & Fro).
  destruct (emits_later_build_optimizers c (device_count w) _ _ _ _ _ Ho)
    as (evo' & Hto' & Flo).
  assert (evo' = evo) as -> by (rewrite Hto in Hto'; by apply app_inv_head in Hto').
  destruct ro as [e | [Go Do]].
  { subst rb. exists evo.
    assert (prepare w c initial = (Raise e, sB)) as Hp
      by (unfold prepare; by rewrite (bind_raise _ _ _ _ _ Hb)).
    destruct (prepare_raises _ _ _ _ Hp) as (_ & -> & _).
    repeat split; try done; intros; discriminate. }
  destruct Hrest as (b & -> & <- & <- & <- & <- & _ & _ & Hng & _ & <-).
  destruct (calls_after_build _ _ _ _ Hb) as (later & Hc & Fr & Fl).
  exists (evo ++ later). rewrite Hng in Fl.
  split; [done | split; [done | split; [by rewrite Hc, Hto, app_assoc |]]].
  split; [| split].
  - apply Forall_app. split; [done |].
    eapply Forall_impl; [exact Fr |]. intros e. by apply refs_from_mono.
  - by apply Forall_app.
  - intros b' sB' [= <- <-]. done.
Qed.

Lemma quiet_not_in e evs :
  Forall (holds quiet) evs -> In e evs -> quiet e = false -> False.
Proof.
  intros F Hin Hq. apply (in_holds _ _ _ F) in Hin. congruence.
Qed.

Lemma build_constructs w c b sB :
  build w c initial = (Return b, sB) ->
  exists x cls, In (EvConstruct x cls) (calls w c).
Proof.
  intros Hbuild.
  destruct (calls_after_build _ _ _ _ Hbuild) as (lt & Hcl & _ & _).
  apply build_inv in Hbuild as [(e & [=] & _) | Hbuild].
  destruct Hbuild as (lg & sc & sC & rm & sD & _ & Hm & Hrest).
  destruct rm as [e | [[[Gen Dis] Gc] Ge]]; [by destruct Hrest |].
  destruct Hrest as (ro & Ho & Hrest). destruct ro as [e | [Go Do]]; [done |].
  apply build_models_calls
    in Hm as (evs & Ht & _ & _ & _ & _ & _ & _ & _ & HinG & _).
  destruct (appends_build_optimizers _ _ _ _ _ _ Ho) as (_ & evo & Hto & _).
  eexists _, _. rewrite Hcl, Hto, Ht.
  apply in_or_app. left. apply in_or_app. left. apply in_or_app. right.
  exact HinG.
Qed.

(** ** Claims about the EMA copy *)

(** C9, as the code has it.  Every EMA updater of a run targets a
    Generator that was constructed with [synchronized_bn=False] and
    [initialize=False], whatever the run's [synchronized_bn]; with EMA
    enabled, a run that builds its models has such an updater.  Under
    multi-device replication with [synchronized_bn] enabled, the replicas
    of the live Generator and of the Discriminator are patched; without
    [synchronized_bn], or on a single device, nothing is patched; and no
    patch is ever applied to the EMA copy, be it the network the updater
    targets or the value of [Gen_copy] (its replica). *)
Theorem ema_copy_plain_and_never_patched w c :
  (forall u src tgt,
     In (EvEma u src tgt) (calls w c) ->
     ema c = true
     /\ In (EvConstruct tgt (Generator false InitFalse)) (calls w c)
     /\ forall cls, In (EvConstruct tgt cls) (calls w c) ->
                    cls = Generator false InitFalse)
  /\ (forall b sB,
        build w c initial = (Return b, sB) ->
        (ema c = true ->
         exists u src tgt copy,
           In (EvEma u src tgt) (calls w c)
           /\ b_Gen_ema b = Some u /\ b_Gen_copy b = Some copy)
        /\ (1 < device_count w -> synchronized_bn c = true ->
            In (EvPatchReplication (b_Gen b)) (calls w c)
            /\ In (EvPatchReplication (b_Dis b)) (calls w c))
        /\ (forall x, In (EvPatchReplication x) (calls w c) ->
                      b_Gen_copy b <> Some x))
  /\ (forall x,
        In (EvPatchReplication x) (calls w c) ->
        1 < device_count w /\ synchronized_bn c = true
        /\ forall u src tgt, In (EvEma u src tgt) (calls w c) -> x <> tgt).
Proof.
  destruct (calls_around_models w c)
    as [Fq | (logger & sec & sC & rm & sD & later & Fq & Hm & Hc & Fr & Fl & Hb)].
  { split; [| split].
    - intros u src tgt Hin. by destruct (quiet_not_in _ _ Fq Hin eq_refl).
    - intros b sB Hbuild.
      destruct (build_constructs _ _ _ _ Hbuild) as (x & cls & Hin).
      by destruct (quiet_not_in _ _ Fq Hin eq_refl).
    - intros x Hin. by destruct (quiet_not_in _ _ Fq Hin eq_refl). }
  destruct (build_models_calls _ _ _ _ _ _ _ _ _ Hm)
    as (evs & Ht & Hn & Frange & FG & FE & FP & Hret).
  rewrite Ht in Hc.
  assert (forall e, In e (calls w c) -> quiet e = false ->
            In e evs \/ In e later) as Hsplit.
  { intros e Hin Hq. rewrite Hc in Hin.
    apply in_app_or in Hin as [Hin | Hin]; [| by right].
    apply in_app_or in Hin as [Hin | Hin]; [| by left].
    by destruct (quiet_not_in _ _ Fq Hin Hq). }
  assert (forall e, In e evs -> In e (calls w c)) as Hevs.
  { intros e Hin. rewrite Hc. apply in_or_app. left. apply in_or_app. by right. }
  assert (forall e, In e later -> refs_from (next sD) e /\ later_event c (device_count w) e)
    as Hlater.
  { intros e Hin. rewrite Forall_forall in Fr, Fl.
    split; [apply Fr | apply Fl]; by apply list_elem_of_In. }
  assert (forall e, In e evs -> refs_below (next sD) e) as Hbelow.
  { intros e Hin. rewrite Forall_forall in Frange.
    by apply list_elem_of_In, Frange in Hin as [_ ?]. }
  assert (forall u src tgt, In (EvEma u src tgt) (calls w c) ->
            In (EvEma u src tgt) evs) as Hema_in.
  { intros u src tgt Hin. destruct (Hsplit _ Hin eq_refl) as [? | Hl]; [done |].
    by destruct (Hlater _ Hl) as [_ []]. }
  split; [| split].
  - intros u src tgt Hin. apply Hema_in in Hin.
    destruct (FE _ _ _ Hin) as (He & -> & -> & Hcons & Honly).
    split; [done | split; [by apply Hevs |]].
    intros cls Hcls. destruct (Hsplit _ Hcls eq_refl) as [Hl | Hl]; [by apply Honly |].
    destruct (Hlater _ Hl) as [Hfrom _]. pose proof (Hbelow _ Hcons) as Hb'.
    simpl in Hfrom, Hb'. lia.
  - intros b sB Hbuild. destruct (Hb _ _ Hbuild) as [-> Hsec].
    destruct Hret as (Hprep & Hpatch & _). unfold ema_prepared in Hprep.
    split; [| split].
    + intros He. rewrite He in Hprep.
      destruct Hprep as (copy & updater & Hcopy & Hup & Hin & _).
      exists updater, (next sC), (S (S (next sC))), copy.
      split; [by apply Hevs | done].
    + intros Hmulti Hsync.
      destruct Hpatch as (HG & HD & _); [by apply Z.ltb_lt | done |].
      split; by apply Hevs.
    + intros x Hin Hcopy.
      destruct (ema c) eqn:He; [| destruct Hprep; congruence].
      destruct Hprep as (copy & updater & Hcopy' & _ & _ & Hlt & _ & _ & Hne & _).
      assert (copy = x) as -> by congruence.
      destruct (Hsplit _ Hin eq_refl) as [Hl | Hl]; [by destruct (Hne _ Hl) |].
      destruct (Hlater _ Hl) as [Hfrom _]. simpl in Hfrom. lia.
  - intros x Hin. destruct (Hsplit _ Hin eq_refl) as [Hl | Hl].
    + destruct (FP _ Hl) as (Hmulti & Hsync & Hne).
      split; [by apply Z.ltb_lt | split; [done |]].
      intros u src tgt He. apply Hema_in in He.
      destruct (FE _ _ _ He) as (Hema & _ & -> & _). by apply Hne.
    + destruct (Hlater _ Hl) as [Hfrom [Hmulti Hsync]].
      split; [by apply Z.ltb_lt | split; [done |]].
      intros u src tgt He. apply Hema_in in He.
      destruct (FE _ _ _ He) as (_ & _ & -> & Hcons & _).
      pose proof (Hbelow _ Hcons) as Hb'. simpl in Hfrom, Hb'. lia.
Qed.

Ltac find_call := vm_compute; repeat first [left; reflexivity | right].

(** * Example runs of the claims *)



Lemma indivisible_batch_is_fatal_before_models_witness :
  ~ (device_count two_gpus | batch_size (example_config 0 5 "hinge" true None))
  /\ (outcome two_gpus (example_config 0 5 "hinge" true None)
      = Raise (AssertionError batch_size_message)
      \/ outcome two_gpus (example_config 0 5 "hinge" true None)
         = Raise ZeroDivisionError)
  /\ Forall (fun e => is_model_construction e = false /\ is_training e = false)
       (calls two_gpus (example_config 0 5 "hinge" true None)).
Proof.
  assert (~ (device_count two_gpus
             | batch_size (example_config 0 5 "hinge" true None))) as H
    by (intros [k Hk]; simpl in Hk; lia).
  split; [exact H |].
  exact (indivisible_batch_is_fatal_before_models two_gpus
           (example_config 0 5 "hinge" true None) H).
Defined.

Lemma adv_loss_selects_registered_pair_witness :
  ~ In (adv_loss (example_config 0 4 "lsgan" true None)) supported_adv_losses
  /\ (exists e, outcome single_gpu (example_config 0 4 "lsgan" true None) = Raise e)
  /\ In (adv_loss fresh_run) supported_adv_losses
  /\ exists g d, registered (adv_loss fresh_run) = Some (g, d).
Proof.
  assert (~ In (adv_loss (example_config 0 4 "lsgan" true None))
            supported_adv_losses) as H1
    by (simpl; intros [H | [H | [H | []]]]; discriminate H).
  assert (In (adv_loss fresh_run) supported_adv_losses) as H2
    by (simpl; right; left; reflexivity).
  destruct (adv_loss_selects_registered_pair single_gpu
              (example_config 0 4 "lsgan" true None)) as [Hbad _].
  destruct (adv_loss_selects_registered_pair single_gpu fresh_run)
    as (_ & Hgood & _).
  split; [exact H1 | split; [exact (proj1 (Hbad H1)) | split; [exact H2 |]]].
  destruct (Hgood H2) as (g & d & Hreg & _). exists g, d. exact Hreg.
Defined.

Lemma reference_statistics_prepared_once_witness :
  tc_eval (train_config fresh_run) = true
  /\ (List.length (moments_requests (calls single_gpu fresh_run)) <= 1)%nat.
Proof.
  split; [reflexivity |].
  exact (proj1 (reference_statistics_prepared_once single_gpu fresh_run eq_refl)).
Defined.

Lemma one_loop_selected_by_strategy_witness :
  tc_train (train_config fresh_run) = true
  /\ (exists t, In (EvTrainer t) (calls single_gpu fresh_run))
  /\ loops_of (calls single_gpu fresh_run) = [selected_variant fresh_run].
Proof.
  assert (exists t, In (EvTrainer t) (calls single_gpu fresh_run)) as H
    by (vm_compute; eexists; repeat first [left; reflexivity | right]).
  split; [reflexivity | split; [exact H |]].
  destruct (one_loop_selected_by_strategy single_gpu fresh_run) as (_ & Hone & _).
  exact (Hone eq_refl H).
Defined.

Lemma step_counter_resumes_and_returns_witness :
  exists t,
    In (EvLoop run t 40 43) (calls single_gpu (resumed_run 0))
    /\ last (evaluation_steps (calls single_gpu (resumed_run 0))) = Some 43.
Proof.
  assert (exists t, In (EvLoop run t 40 43) (calls single_gpu (resumed_run 0)))
    as [t H] by (vm_compute; eexists; repeat first [left; reflexivity | right]).
  exists t. split; [exact H |].
  destruct (step_counter_resumes_and_returns single_gpu (resumed_run 0))
    as [Hloop _].
  destruct (Hloop _ _ _ _ H) as (_ & _ & Hlast). exact (Hlast eq_refl).
Defined.


Lemma ema_copy_plain_and_never_patched_witness :
  In (EvPatchReplication 4%nat) (calls two_gpus fresh_run)
  /\ 1 < device_count two_gpus
  /\ synchronized_bn fresh_run = true.
Proof.
  assert (In (EvPatchReplication 4%nat) (calls two_gpus fresh_run)) as H
    by find_call.
  split; [exact H |].
  destruct (ema_copy_plain_and_never_patched two_gpus fresh_run) as (_ & _ & Hp).
  destruct (Hp _ H) as (Hmulti & Hsync & _). split; [exact Hmulti | exact Hsync].
Defined.


(** * Where the code departs from the claims *)


(** C5 as stated fails: the Trainer does not receive the quality score
    (nor its deviation).  No function of the Trainer recovers the
    preparer's result: two machines whose preparers differ in the score
    construct the same Trainer. *)
Lemma quality_score_not_handed_to_trainer :
  ~ (exists recover : trainer -> moments,
       forall w t,
         In (EvTrainer t) (calls w fresh_run) ->
         recover t = inception_moments w (type4eval_dataset fresh_run)).
Proof.
  intros [recover Hrec].
  assert (exists t, In (EvTrainer t) (calls single_gpu fresh_run)
                    /\ In (EvTrainer t) (calls other_score fresh_run))
    as (t & H1 & H2).
  { vm_compute. eexists. split; repeat first [left; reflexivity | right]. }
  pose proof (Hrec _ _ H1) as E1. pose proof (Hrec _ _ H2) as E2.
  rewrite E1 in E2. vm_compute in E2. discriminate E2.
Qed.

(** C9 as stated fails: under multi-device replication without
    [synchronized_bn], the live Generator and Discriminator are replicated
    and nothing is patched. *)
Lemma replicas_unpatched_without_synchronized_bn :
  1 < device_count two_gpus
  /\ synchronized_bn (example_config 0 4 "hinge" false None) = false
  /\ outcome two_gpus (example_config 0 4 "hinge" false None) = Return tt
  /\ replicas_of (calls two_gpus (example_config 0 4 "hinge" false None))
     = [4%nat; 5%nat; 6%nat; 10%nat]
  /\ patches_of (calls two_gpus (example_config 0 4 "hinge" false None)) = [].
Proof. repeat split; vm_compute; reflexivity. Qed.

(** * Further properties of the script *)

(** ** Lines 48-83, exactly *)

Lemma devices_fit_dec w c : {devices_fit w c} + {~ devices_fit w c}.
Proof.
  unfold devices_fit.
  destruct (decide (device_count w = 0)) as [E | E]; [right; tauto |].
  destruct (decide (batch_size c mod device_count w = 0)) as [E' | E'];
    [left | right]; tauto.
Qed.

Lemma check_devices_run w c s :
  devices_fit w c ->
  check_devices w c s
  = (Return (device_count w, current_device w, second_device_of w c),
     after s (device_calls w c)).
Proof.
  intros [Hn Hm].
  unfold check_devices, py_mod, py_assert, device_calls, second_device_of, after.
  destruct (device_count w =? 0) eqn:E0; [lia |]. run. rewrite Hm. simpl (0 =? 0).
  run. destruct (device_count w =? 1); run; by rewrite <- ?app_assoc.
Qed.

Lemma check_devices_stops w c s :
  ~ devices_fit w c ->
  exists e,
    check_devices w c s
    = (Raise e, after s [EvFixAllSeed (seed c); EvCudnn false true])
    /\ (e = ZeroDivisionError \/ e = AssertionError batch_size_message).
Proof.
  intros Hn. destruct (decide (device_count w = 0)) as [E | E].
  - exists ZeroDivisionError. split; [by apply check_devices_zero | by left].
  - exists (AssertionError batch_size_message). split; [| by right].
    apply check_devices_indivisible; [done |]. intros Hm. apply Hn. by split.
Qed.

Lemma start_run_run w c s :
  start_run w c s
  = match nth_error (split_slash (config_path c)) 3 with
    | Some part =>
        (Return (fresh_name w part, fresh_name w part,
                 join "./logs" (fresh_name w part)),
         after s (start_calls (fresh_name w part)))
    | None => (Raise IndexError, s)
    end.
Proof.
  unfold start_run, py_index, make_logger, SummaryWriter, logger_info,
    fresh_name, start_calls, after.
  destruct (nth_error _ 3); run; [| done]. by rewrite <- !app_assoc.
Qed.

Lemma load_datasets_run w c logger s :
  load_datasets w c logger s
  = (Return (train_dataset_of w c, eval_dataset_of w c),
     after s (dataset_calls w c logger)).
Proof.
  unfold dataset_calls, load_datasets, LoadDataset, logger_info,
    train_dataset_of, eval_dataset_of, full_train_dataset, num_train, after.
  destruct (lt_one _); run; simpl; rewrite <- ?app_assoc; reflexivity.
Qed.

(** Lines 48-135: where they can stop, and what they bind. *)
Lemma build_stages w c r s :
  build w c initial = (r, s) ->
  (~ devices_fit w c
   /\ s = after initial [EvFixAllSeed (seed c); EvCudnn false true]
   /\ (r = Raise ZeroDivisionError \/ r = Raise (AssertionError batch_size_message)))
  \/ (devices_fit w c
      /\ ((nth_error (split_slash (config_path c)) 3 = None
           /\ r = Raise IndexError /\ s = after initial (device_calls w c))
          \/ exists part rm sD,
               nth_error (split_slash (config_path c)) 3 = Some part
               /\ build_models w c (fresh_name w part) (device_count w)
                    (current_device w) (second_device_of w c)
                    (after initial (opening_calls w c (fresh_name w part)))
                  = (rm, sD)
               /\ match rm with
                  | Raise e => r = Raise e /\ s = sD
                  | Return (Gen, Dis, Gen_copy, Gen_ema) =>
                      exists ro,
                        build_optimizers c Gen Dis sD = (ro, s)
                        /\ match ro with
                           | Raise e => r = Raise e
                           | Return (G_optimizer, D_optimizer) =>
                               r = Return (built_of w c (fresh_name w part) Gen
                                             Dis Gen_copy Gen_ema G_optimizer
                                             D_optimizer)
                           end
                  end)).
Proof.
  unfold build. intros H.
  destruct (devices_fit_dec w c) as [Hf | Hf].
  2: { left. destruct (check_devices_stops w c initial Hf) as (e & He & Hc).
       rewrite (bind_raise _ _ _ _ _ He) in H. injection H as <- <-.
       split; [done | split; [done |]]. destruct Hc as [-> | ->]; tauto. }
  right. split; [done |].
  rewrite (bind_return _ _ _ _ _ (check_devices_run w c initial Hf)) in H.
  pose proof (start_run_run w c (after initial (device_calls w c))) as Hs.
  destruct (nth_error _ 3) as [part |].
  2: { left. rewrite (bind_raise _ _ _ _ _ Hs) in H. by injection H as <- <-. }
  right. exists part.
  rewrite (bind_return _ _ _ _ _ Hs) in H.
  rewrite (bind_return _ _ _ _ _ (load_datasets_run _ _ _ _)) in H.
  rewrite !after_after in H. fold (opening_calls w c (fresh_name w part)) in H.
  apply bind_inv in H as [(e & H & ->) | ([[[Gen Dis] Gc] Ge] & sD & H4 & H)].
  { exists (Raise e), s. by split; [| split]. }
  exists (Return (Gen, Dis, Gc, Ge)), sD. split; [done | split; [done |]].
  apply bind_inv in H as [(e & H & ->) | ([Go Do] & sE & H5 & H)].
  { exists (Raise e). by split. }
  exists (Return (Go, Do)). injection H as <- <-. by split.
Qed.

(** ** The run name (lines 60-66) *)

Lemma split_slash_nonempty s : split_slash s <> [].
Proof.
  destruct s as [| a s]; simpl; [done |].
  destruct (Ascii.eqb a "/"); [done |]. by destruct (split_slash s).
Qed.

Lemma split_slash_length s : List.length (split_slash s) = S (count_slashes s).
Proof.
  induction s as [| a s IH]; simpl; [done |].
  destruct (Ascii.eqb a "/"); simpl; [by rewrite IH |].
  destruct (split_slash s) eqn:E; [by apply split_slash_nonempty in E | done].
Qed.

Lemma fourth_component_none s :
  nth_error (split_slash s) 3 = None <-> (count_slashes s < 3)%nat.
Proof. rewrite nth_error_None, split_slash_length. lia. Qed.









(** ** Lines 85-135, exactly *)

Lemma models_available_dec w c : {models_available w c} + {~ models_available w c}.
Proof.
  unfold models_available.
  destruct (has_module w (module_name c)); [| right; intros [_ ?]; done].
  destruct (String.eqb (architecture c) "dcgan"); [| left; by split].
  destruct (decide (img_size c = 32)); [left | right]; [by split | ].
  intros [H _]. by apply n, H.
Qed.

Lemma build_models_stops w c logger n d sec s :
  ~ models_available w c ->
  exists e,
    build_models w c logger n d sec s
    = (Raise e, after s [EvLog logger LogBuilding])
    /\ (e = AssertionError dcgan_message
        /\ String.eqb (architecture c) "dcgan" = true /\ img_size c <> 32
        \/ e = ModuleNotFoundError (module_name c)
           /\ has_module w (module_name c) = false
           /\ (String.eqb (architecture c) "dcgan" = true -> img_size c = 32)).
Proof.
  intros Hn. unfold build_models, logger_info, py_assert, models_available in *.
  fold (module_name c).
  destruct (String.eqb (architecture c) "dcgan") eqn:Ea.
  - destruct (img_size c =? 32) eqn:Ei; run.
    + destruct (has_module w (module_name c)) eqn:Eh; run.
      * exfalso. apply Hn. split; [intros _; lia | done].
      * eexists. split; [reflexivity |]. right.
        split; [done | split; [done | intros _; lia]].
    + eexists. split; [reflexivity |]. left. split; [done | split; [done | lia]].
  - run. destruct (has_module w (module_name c)) eqn:Eh; run.
    + exfalso. apply Hn. by split.
    + eexists. split; [reflexivity |]. right. by split.
Qed.

Lemma build_models_run w c logger n d sec s :
  models_available w c ->
  exists h',
    build_models w c logger n d sec s
    = (Return (model_refs c n (next s)),
       {| heap := h'; next := models_end c n (next s);
          trace := trace s ++ model_calls c logger n sec (next s) |})
    /\ models_in c n d sec (next s) h'
    /\ forall x, (x < next s)%nat -> h' !! x = heap s !! x.
Proof.
  intros [Hd Hm].
  unfold build_models, logger_info, py_assert, construct, ema_, data_parallel,
    patch_replication_callback, model_calls, model_refs, models_end, models_in,
    networks_made.
  fold (module_name c). rewrite Hm.
  destruct (String.eqb (architecture c) "dcgan");
    [rewrite (Hd eq_refl); simpl (32 =? 32) |].
  all: destruct (ema c) eqn:Hema, (1 <? n) eqn:Hn, (synchronized_bn c) eqn:Hsync; run;
    rewrite <- ?app_assoc; (eexists; split; [reflexivity |]).
  all: split; [| intros x Hx; by rewrite ?lookup_alter_ne, ?lookup_insert_ne by lia].
  all: simpl; repeat split; intros; try discriminate.
  all: rewrite ?lookup_alter_ne, ?lookup_insert_ne by lia.
  all: try by rewrite lookup_insert_eq.
  all: rewrite lookup_alter_eq, ?lookup_alter_ne, ?lookup_insert_ne by lia;
    by rewrite lookup_insert_eq.
Qed.

Lemma build_optimizers_run c Gen Dis s :
  build_optimizers c Gen Dis s
  = match optimizer_kind c (g_lr c), optimizer_kind c (d_lr c) with
    | Some kg, Some kd =>
        (Return (next s, S (next s)),
         {| heap := <[S (next s) := Optimizer kd Dis None]>
                      (<[next s := Optimizer kg Gen None]> (heap s));
            next := S (S (next s));
            trace := trace s ++ [EvOptimizer (next s) kg Gen;
                                 EvOptimizer (S (next s)) kd Dis] |})
    | _, _ => (Raise NotImplementedError, s)
    end.
Proof.
  unfold build_optimizers, optimizer_kind, make_optimizer.
  destruct (String.eqb (optimizer c) "SGD"); [run; by rewrite <- app_assoc |].
  destruct (String.eqb (optimizer c) "RMSprop"); [run; by rewrite <- app_assoc |].
  destruct (String.eqb (optimizer c) "Adam"); [run; by rewrite <- app_assoc |].
  done.
Qed.

Lemma optimizer_kind_supported c lr :
  is_Some (optimizer_kind c lr) <-> In (optimizer c) supported_optimizers.
Proof.
  unfold optimizer_kind, supported_optimizers. simpl.
  destruct (String.eqb_spec (optimizer c) "SGD") as [-> | N1];
    [split; [tauto | by eexists] |].
  destruct (String.eqb_spec (optimizer c) "RMSprop") as [-> | N2];
    [split; [tauto | by eexists] |].
  destruct (String.eqb_spec (optimizer c) "Adam") as [-> | N3];
    [split; [tauto | by eexists] |].
  split; [by intros [? [=]] |]. intros [? | [? | [? | []]]]; congruence.
Qed.

Lemma optimizer_kind_none c lr lr' :
  optimizer_kind c lr = None -> optimizer_kind c lr' = None.
Proof.
  unfold optimizer_kind.
  by destruct (String.eqb (optimizer c) "SGD"),
    (String.eqb (optimizer c) "RMSprop"), (String.eqb (optimizer c) "Adam").
Qed.

(** Lines 48-135 get through: what they bind, call and allocate. *)
Lemma build_returns w c b sB :
  build w c initial = (Return b, sB) ->
  devices_fit w c /\ models_available w c
  /\ exists part kg kd Gen Dis Gen_copy Gen_ema,
       nth_error (split_slash (config_path c)) 3 = Some part
       /\ optimizer_kind c (g_lr c) = Some kg
       /\ optimizer_kind c (d_lr c) = Some kd
       /\ model_refs c (device_count w) 0%nat = (Gen, Dis, Gen_copy, Gen_ema)
       /\ let name := fresh_name w part in
          let Go := models_end c (device_count w) 0%nat in
          b = built_of w c name Gen Dis Gen_copy Gen_ema Go (S Go)
          /\ trace sB
             = opening_calls w c name
               ++ model_calls c name (device_count w) (second_device_of w c) 0%nat
               ++ [EvOptimizer Go kg Gen; EvOptimizer (S Go) kd Dis]
          /\ next sB = S (S Go)
          /\ models_in c (device_count w) (current_device w)
               (second_device_of w c) 0%nat (heap sB)
          /\ heap sB !! Go = Some (Optimizer kg Gen None)
          /\ heap sB !! S Go = Some (Optimizer kd Dis None).
Proof.
  intros H. apply build_stages in H as [(_ & _ & [? | ?]) | (Hf & H)]; try done.
  destruct H as [(_ & ? & _) | (part & rm & sD & Hp & Hm & H)]; [done |].
  split; [done |].
  destruct (models_available_dec w c) as [Ha | Ha].
  2: { destruct (build_models_stops w c (fresh_name w part) (device_count w)
                   (current_device w) (second_device_of w c)
                   (after initial (opening_calls w c (fresh_name w part))) Ha)
         as (e & He & _).
       rewrite He in Hm. injection Hm as <- <-. by destruct H. }
  split; [done |].
  destruct (build_models_run w c (fresh_name w part) (device_count w)
              (current_device w) (second_device_of w c)
              (after initial (opening_calls w c (fresh_name w part))) Ha)
    as (h' & He & Hin & _).
  rewrite He in Hm. injection Hm as <- <-.
  destruct (model_refs c (device_count w) _) as [[[Gen Dis] Gc] Ge] eqn:Hr.
  destruct H as (ro & Ho & H). rewrite build_optimizers_run in Ho.
  destruct (optimizer_kind c (g_lr c)) as [kg |] eqn:Hkg;
    [| injection Ho as <- <-; done].
  destruct (optimizer_kind c (d_lr c)) as [kd |] eqn:Hkd;
    [| injection Ho as <- <-; done].
  injection Ho as <- <-. injection H as ->.
  exists part, kg, kd, Gen, Dis, Gc, Ge. simpl in *.
  repeat (split; [done |]). split; [by rewrite <- app_assoc |].
  split; [done |]. split.
  - unfold models_in in *. simpl in *.
    destruct Hin as (H1 & H2 & H3 & H4).
    assert (forall x o, (x < models_end c (device_count w) 0%nat)%nat ->
              h' !! x = Some o ->
              <[S (models_end c (device_count w) 0%nat) := Optimizer kd Dis None]>
                (<[models_end c (device_count w) 0%nat := Optimizer kg Gen None]> h')
              !! x = Some o) as Hk.
    { intros x o Hx Hl. by rewrite !lookup_insert_ne by lia. }
    unfold models_end, networks_made in *.
    split; [apply Hk; [destruct (1 <? _), (ema c); simpl; lia | done] |].
    split; [apply Hk; [destruct (1 <? _), (ema c); simpl; lia | done] |].
    split.
    + intros E. destruct (H3 E) as [A B]. rewrite E in *.
      split; (apply Hk; [destruct (1 <? _); simpl; lia | done]).
    + intros E. destruct (H4 E) as (A & B & C). rewrite E in *.
      split; [apply Hk; [destruct (ema c); simpl; lia | done] |].
      split; [apply Hk; [destruct (ema c); simpl; lia | done] |].
      intros E'. rewrite E' in *. apply Hk; [simpl; lia | by apply C].
  - split; [| by rewrite lookup_insert_eq].
    by rewrite lookup_insert_ne, lookup_insert_eq by lia.
Qed.

(** Lines 48-135 stop: where, with what, and after which calls. *)
Lemma build_raises w c e s :
  build w c initial = (Raise e, s) ->
  (~ devices_fit w c
   /\ trace s = [EvFixAllSeed (seed c); EvCudnn false true]
   /\ (e = ZeroDivisionError \/ e = AssertionError batch_size_message))
  \/ (devices_fit w c
      /\ nth_error (split_slash (config_path c)) 3 = None
      /\ e = IndexError /\ trace s = device_calls w c)
  \/ (exists part,
        devices_fit w c
        /\ nth_error (split_slash (config_path c)) 3 = Some part
        /\ ((~ models_available w c
             /\ trace s = opening_calls w c (fresh_name w part)
                          ++ [EvLog (fresh_name w part) LogBuilding]
             /\ (e = AssertionError dcgan_message
                 /\ String.eqb (architecture c) "dcgan" = true
                 /\ img_size c <> 32
                 \/ e = ModuleNotFoundError (module_name c)
                    /\ has_module w (module_name c) = false
                    /\ (String.eqb (architecture c) "dcgan" = true ->
                        img_size c = 32)))
            \/ (models_available w c
                /\ ~ In (optimizer c) supported_optimizers
                /\ e = NotImplementedError
                /\ trace s
                   = opening_calls w c (fresh_name w part)
                     ++ model_calls c (fresh_name w part) (device_count w)
                          (second_device_of w c) 0%nat))).
Proof.
  intros H. apply build_stages in H as [(Hf & -> & He) | (Hf & H)].
  { left. split; [done | split; [done |]].
    destruct He as [[= ->] | [= ->]]; tauto. }
  right. destruct H as [(Hp & [= ->] & ->) | (part & rm & sD & Hp & Hm & H)];
    [by left |].
  right. exists part. split; [done | split; [done |]].
  destruct (models_available_dec w c) as [Ha | Ha].
  2: { left. split; [done |].
       destruct (build_models_stops w c (fresh_name w part) (device_count w)
                   (current_device w) (second_device_of w c)
                   (after initial (opening_calls w c (fresh_name w part))) Ha)
         as (e' & He & Hc).
       rewrite He in Hm. injection Hm as <- <-. destruct H as [[= ->] ->].
       by split. }
  right. split; [done |].
  destruct (build_models_run w c (fresh_name w part) (device_count w)
              (current_device w) (second_device_of w c)
              (after initial (opening_calls w c (fresh_name w part))) Ha)
    as (h' & He & Hin & _).
  rewrite He in Hm. injection Hm as <- <-.
  destruct (model_refs c (device_count w) _) as [[[Gen Dis] Gc] Ge] eqn:Hr.
  destruct H as (ro & Ho & H). rewrite build_optimizers_run in Ho.
  destruct (optimizer_kind c (g_lr c)) as [kg |] eqn:Hkg.
  - destruct (optimizer_kind c (d_lr c)) as [kd |] eqn:Hkd.
    + by injection Ho as <- <-.
    + by rewrite (optimizer_kind_none _ _ (g_lr c) Hkd) in Hkg.
  - injection Ho as <- <-. injection H as ->. split; [| by split].
    intros Hin'. apply (optimizer_kind_supported c (g_lr c)) in Hin'.
    rewrite Hkg in Hin'. by destruct Hin'.
Qed.

(** ** Objects keep their kind *)

Lemma same_kind_refl o : same_kind o o.
Proof. by destruct o. Qed.

Lemma same_kind_trans o1 o2 o3 :
  same_kind o1 o2 -> same_kind o2 o3 -> same_kind o1 o3.
Proof. destruct o1, o2, o3; simpl; try tauto; intros [-> ->] [-> ->]; done. Qed.

Lemma stable_ret {A} (a : A) : stable (ret a).
Proof.
  intros s r s' [= <- <-]. split; [done |]. intros x o _ Hl.
  exists o. split; [done | apply same_kind_refl].
Qed.

Lemma stable_raise {A} e : stable (@raise A e).
Proof.
  intros s r s' [= <- <-]. split; [done |]. intros x o _ Hl.
  exists o. split; [done | apply same_kind_refl].
Qed.

Lemma stable_emit e : stable (emit e).
Proof.
  intros s r s' [= <- <-]. split; [done |]. intros x o _ Hl.
  exists o. split; [done | apply same_kind_refl].
Qed.

Lemma stable_deref r0 : stable (deref r0).
Proof.
  intros s r s' [= <- <-]. split; [done |]. intros x o _ Hl.
  exists o. split; [done | apply same_kind_refl].
Qed.

Lemma stable_alloc o0 : stable (alloc o0).
Proof.
  intros s r s' [= <- <-]. simpl. split; [lia |]. intros x o Hx Hl.
  exists o. split; [| apply same_kind_refl]. rewrite lookup_insert_ne; [done | lia].
Qed.

Lemma stable_mutate f r0 : (forall o, same_kind o (f o)) -> stable (mutate f r0).
Proof.
  intros Hf s r s' [= <- <-]. simpl. split; [done |]. intros x o _ Hl.
  destruct (decide (r0 = x)) as [-> | Hne].
  - exists (f o). split; [by rewrite lookup_alter_eq, Hl | apply Hf].
  - exists o. split; [by rewrite lookup_alter_ne | apply same_kind_refl].
Qed.

Lemma stable_bind {A B} (m : M A) (k : A -> M B) :
  stable m -> (forall a, stable (k a)) -> stable (bind m k).
Proof.
  intros Hm Hk s r s' H.
  apply bind_inv in H as [(e & H & ->) | (a & s1 & H & H')].
  - exact (Hm _ _ _ H).
  - destruct (Hm _ _ _ H) as [N1 K1]. destruct (Hk _ _ _ _ H') as [N2 K2].
    split; [lia |]. intros x o Hx Hl.
    destruct (K1 _ _ Hx Hl) as (o1 & Hl1 & S1).
    destruct (K2 x o1) as (o2 & Hl2 & S2); [lia | done |].
    exists o2. split; [done |]. by apply same_kind_trans with o1.
Qed.

Ltac stable_step :=
  lazymatch goal with
  | |- stable (bind _ _) => apply stable_bind; [| intros ?]
  | |- stable (ret _) => apply stable_ret
  | |- stable (raise _) => apply stable_raise
  | |- stable (emit _) => apply stable_emit
  | |- stable (alloc _) => apply stable_alloc
  | |- stable (mutate _ _) => apply stable_mutate; by intros []
  | |- stable (deref _) => apply stable_deref
  | |- stable (if ?b then _ else _) => destruct b
  | |- stable (match ?x with _ => _ end) => destruct x
  end.

Ltac stable_script :=
  repeat first
    [ progress repeat stable_step
    | progress unfold check_devices, start_run, load_datasets, build_models,
        build_optimizers, resume, reference_statistics, linear_probe,
        make_logger, SummaryWriter, logger_info,
        LoadDataset, construct, ema_, data_parallel,
        patch_replication_callback, make_optimizer, make_checkpoint_dir,
        load_checkpoint, load_state_dict, get_out_dims,
        prepare_inception_moments_eval_dataset, py_assert, py_mod, py_index,
        py_last, py_getitem ].

Lemma stable_resume w c run_name logger writer Gen Dis G_optimizer D_optimizer
    Gen_copy Gen_ema :
  stable (resume w c run_name logger writer Gen Dis G_optimizer D_optimizer
            Gen_copy Gen_ema).
Proof. stable_script. Qed.

Lemma stable_reference_statistics w c loader Gen run_name logger d sec :
  stable (reference_statistics w c loader Gen run_name logger d sec).
Proof. stable_script. Qed.



(** ** Lines 159-192, exactly *)

Lemma reference_statistics_returns w c loader Gen run_name logger d sec s :
  exists sS,
    reference_statistics w c loader Gen run_name logger d sec s
    = (Return (stats_of w c (next s)), sS)
    /\ trace sS
       = trace s
         ++ (if tc_eval (train_config c) then
               [EvConstruct (next s) InceptionV3;
                EvDataParallel (S (next s)) (next s) sec;
                EvPrepareMoments loader Gen (type4eval_dataset c) (S (next s))
                  10 run_name logger sec]
             else []).
Proof.
  rewrite reference_statistics_run. unfold stats_of.
  destruct (tc_eval _); eexists; (split; [reflexivity |]); [done |].
  by rewrite app_nil_r.
Qed.

Lemma linear_probe_off w c Dis n d sec s :
  linear_evaluation (train_config c) = false ->
  linear_probe w c Dis n d sec s = (Return (None, None), s).
Proof. intros H. unfold linear_probe. by rewrite H. Qed.

Lemma linear_probe_on w c Dis n d sec s :
  linear_evaluation (train_config c) = true ->
  match probe_in_channels w c (heap s) Dis with
  | Raise e => linear_probe w c Dis n d sec s = (Raise e, s)
  | Return ic =>
      match optimizer_kind c (g_lr c) with
      | None =>
          exists s',
            linear_probe w c Dis n d sec s = (Raise NotImplementedError, s')
            /\ trace s' = trace s ++ probe_calls c n sec ic (next s)
      | Some k =>
          exists s',
            linear_probe w c Dis n d sec s
            = (Return (Some (probe_model n (next s)),
                       Some (S (probe_model n (next s)))), s')
            /\ trace s'
               = trace s ++ probe_calls c n sec ic (next s)
                 ++ [EvOptimizer (S (probe_model n (next s))) k
                       (probe_model n (next s))]
      end
  end.
Proof.
  intros H.
  unfold linear_probe, probe_in_channels, get_out_dims, py_last, optimizer_kind,
    probe_calls, probe_model, construct, data_parallel,
    patch_replication_callback, make_optimizer.
  rewrite H.
  destruct (String.eqb (conditional_strategy c) "ContraGAN");
    [| run; destruct (heap s !! Dis)
         as [[[sb ini | sb ini | | ch] dev wts | md od pt | k ps ld | a b q z] |];
       run; try done;
       destruct (last (out_dims w)); run; [| done]].
  all: destruct (1 <? n), (synchronized_bn c), (String.eqb (optimizer c) "SGD"),
      (String.eqb (optimizer c) "RMSprop"), (String.eqb (optimizer c) "Adam");
      run; eexists; (split; [reflexivity |]); simpl; by rewrite <- ?app_assoc.
Qed.

(** ** Whole runs, stage by stage *)

Lemma prepare_returns w c p s1 :
  prepare w c initial = (Return p, s1) ->
  exists b sB,
    build w c initial = (Return b, sB) /\ finish w c b sB = (Return p, s1).
Proof.
  unfold prepare. intros H.
  apply bind_inv in H as [(e & _ & [=]) | (b & sB & Hb & H)]. by exists b, sB.
Qed.

Lemma finish_returns w c b s p s' :
  finish w c b s = (Return p, s') ->
  exists ss sR sS mu sigma inception linear_model L_optimizer,
    resume w c (b_run_name b) (b_logger b) (b_writer b) (b_Gen b) (b_Dis b)
      (b_G_optimizer b) (b_D_optimizer b) (b_Gen_copy b) (b_Gen_ema b) s
    = (Return ss, sR)
    /\ stats_of w c (next sR) = (mu, sigma, inception)
    /\ reference_statistics w c (b_eval_dataloader b) (b_Gen b) (s_run_name ss)
         (s_logger ss) (b_default_device b) (b_second_device b) sR
       = (Return (mu, sigma, inception), sS)
    /\ trace sS
       = trace sR
         ++ (if tc_eval (train_config c) then
               [EvConstruct (next sR) InceptionV3;
                EvDataParallel (S (next sR)) (next sR) (b_second_device b);
                EvPrepareMoments (b_eval_dataloader b) (b_Gen b)
                  (type4eval_dataset c) (S (next sR)) 10 (s_run_name ss)
                  (s_logger ss) (b_second_device b)]
             else [])
    /\ linear_probe w c (b_Dis b) (b_n_gpus b) (b_default_device b)
         (b_second_device b) sS
       = (Return (linear_model, L_optimizer), s')
    /\ p = prepared_of b ss mu sigma inception linear_model L_optimizer.
Proof.
  unfold finish. intros H.
  apply bind_inv in H as [(e & _ & [=]) | (ss & sR & H1 & H)].
  destruct (reference_statistics_returns w c (b_eval_dataloader b) (b_Gen b)
              (s_run_name ss) (s_logger ss) (b_default_device b)
              (b_second_device b) sR) as (sS & H2 & HT).
  rewrite (bind_return _ _ _ _ _ H2) in H.
  destruct (stats_of w c (next sR)) as [[mu sigma] inc] eqn:Hst.
  apply bind_inv in H as [(e & _ & [=]) | ([lin Lo] & sL & H3 & H)].
  injection H as <- <-.
  by exists ss, sR, sS, mu, sigma, inc, lin, Lo.
Qed.

(** A Trainer appears in the calls only when lines 48-192 went through and
    the two losses were found; the run then goes to its end. *)
Lemma trainer_in_run w c t :
  In (EvTrainer t) (calls w c) ->
  exists p s1 g d loop,
    prepare w c initial = (Return p, s1)
    /\ registered (adv_loss c) = Some (g, d)
    /\ t = Trainer c p g d
    /\ outcome w c = Return tt
    /\ calls w c
       = trace s1
         ++ EvTrainer t
            :: loop ++ closing_calls c t (final_step c (s_step (p_session p)))
    /\ loop_part c t (s_step (p_session p)) loop.
Proof.
  intros Hin.
  destruct (run_cases w c)
    as [(e & s & Hp & _ & Hc)
       | (p & s1 & Hp & [(_ & _ & Hc) | (g & d & loop & Hr & Ho & Hc & Hl)])].
  - rewrite Hc in Hin. by apply (prepare_trace_no_trainer _ _ _ _ t Hp) in Hin.
  - rewrite Hc in Hin. by apply (prepare_trace_no_trainer _ _ _ _ t Hp) in Hin.
  - rewrite Hc in Hin. apply in_app_or in Hin as [Hin | [Hin | Hin]].
    + by apply (prepare_trace_no_trainer _ _ _ _ t Hp) in Hin.
    + injection Hin as <-. by exists p, s1, g, d, loop.
    + apply in_app_or in Hin as [Hin | Hin].
      * by apply (trainer_not_in_loop _ _ _ _ t Hl) in Hin.
      * by apply trainer_not_in_closing in Hin.
Qed.

(** A property of every call of a run, from the stages of the run. *)
Lemma run_forall (P : event -> Prop) w c :
  emits P (build w c) ->
  (forall b sB, build w c initial = (Return b, sB) -> emits P (finish w c b)) ->
  (forall e, is_trainer_event e = true -> P e) ->
  Forall P (calls w c).
Proof.
  intros Eb Ef Et.
  destruct (build w c initial) as [rb sB] eqn:Hb.
  pose proof (emits_trace _ _ _ _ _ Eb Hb (List.Forall_nil _)) as Fb.
  destruct (prepare w c initial) as [r s1] eqn:Hp.
  assert (Forall P (trace s1)) as F1.
  { unfold prepare in Hp. destruct rb as [e | b].
    - rewrite (bind_raise _ _ _ _ _ Hb) in Hp. by injection Hp as <- <-.
    - rewrite (bind_return _ _ _ _ _ Hb) in Hp.
      exact (emits_trace _ _ _ _ _ (Ef _ _ eq_refl) Hp Fb). }
  destruct (calls_after_prepare _ _ _ _ Hp) as (later & -> & Fl & _).
  apply Forall_app. split; [done |].
  eapply Forall_impl; [exact Fl |]. exact Et.
Qed.

Lemma emits_bind_of {A B} (P : event -> Prop) (Q : A -> Prop) (m : M A)
    (k : A -> M B) :
  emits P m ->
  (forall s a s', m s = (Return a, s') -> Q a) ->
  (forall a, Q a -> emits P (k a)) ->
  emits P (bind m k).
Proof.
  intros Hm HQ Hk s r s' H.
  apply bind_inv in H as [(e & H & ->) | (a & s1 & H & H')].
  - destruct (Hm _ _ _ H) as (evs & ? & ?). by exists evs.
  - destruct (Hm _ _ _ H) as (evs1 & E1 & F1).
    destruct (Hk _ (HQ _ _ _ H) _ _ _ H') as (evs2 & E2 & F2).
    exists (evs1 ++ evs2). split.
    + by rewrite E2, E1, app_assoc.
    + by apply Forall_app.
Qed.

Lemma check_devices_value w c s v s' :
  check_devices w c s = (Return v, s') ->
  v = (device_count w, current_device w, second_device_of w c).
Proof.
  destruct (devices_fit_dec w c) as [Hf | Hf].
  - rewrite (check_devices_run w c s Hf). by intros [= <- _].
  - destruct (check_devices_stops w c s Hf) as (e & -> & _). by intros [=].
Qed.

(** The rest of lines 48-135 once the devices are known. *)
Lemma emits_build (P : event -> Prop) w c :
  emits P (check_devices w c) ->
  emits P (start_run w c) ->
  (forall logger, emits P (load_datasets w c logger)) ->
  (forall logger,
     emits P (build_models w c logger (device_count w) (current_device w)
                (second_device_of w c))) ->
  (forall Gen Dis, emits P (build_optimizers c Gen Dis)) ->
  emits P (build w c).
Proof.
  intros E1 E2 E3 E4 E5. unfold build.
  eapply emits_bind_of; [exact E1 | apply check_devices_value |].
  intros v ->. apply emits_bind; [exact E2 |]. intros [[run_name logger] writer].
  apply emits_bind; [apply E3 |]. intros [tds eds].
  apply emits_bind; [apply E4 |]. intros [[[Gen Dis] Gc] Ge].
  apply emits_bind; [apply E5 |]. intros [Go Do]. apply emits_ret.
Qed.

Lemma build_stops_run w c e s :
  build w c initial = (Raise e, s) -> outcome w c = Raise e /\ calls w c = trace s.
Proof.
  intros Hb.
  assert (prepare w c initial = (Raise e, s)) as Hp
    by (unfold prepare; by rewrite (bind_raise _ _ _ _ _ Hb)).
  by destruct (prepare_raises _ _ _ _ Hp) as (? & ? & _).
Qed.

(** The calls of a run whose devices fit, cut after line 58. *)
Lemma calls_after_devices (P : event -> Prop) w c :
  devices_fit w c ->
  emits P (start_run w c) ->
  (forall logger, emits P (load_datasets w c logger)) ->
  (forall logger,
     emits P (build_models w c logger (device_count w) (current_device w)
                (second_device_of w c))) ->
  (forall Gen Dis, emits P (build_optimizers c Gen Dis)) ->
  (forall b sB, build w c initial = (Return b, sB) -> emits P (finish w c b)) ->
  (forall e, is_trainer_event e = true -> P e) ->
  exists later, calls w c = device_calls w c ++ later /\ Forall P later.
Proof.
  intros Hf E2 E3 E4 E5 E6 Et.
  destruct (build w c initial) as [rb sB] eqn:Hb.
  assert (exists evs, trace sB = device_calls w c ++ evs /\ Forall P evs)
    as (evs & Tb & Fb).
  { pose proof Hb as Hb'. unfold build in Hb'.
    rewrite (bind_return _ _ _ _ _ (check_devices_run w c initial Hf)) in Hb'.
    apply bind_inv in Hb' as [(e & H & ->) | ([[rn lg] wr] & s2 & H2 & Hb')].
    { destruct (E2 _ _ _ H) as (evs & ? & ?). by exists evs. }
    destruct (E2 _ _ _ H2) as (evs2 & T2 & F2).
    apply bind_inv in Hb' as [(e & H & ->) | ([tds eds] & s3 & H3 & Hb')].
    { destruct (E3 _ _ _ _ H) as (evs & T & F). exists (evs2 ++ evs).
      split; [by rewrite T, T2, app_assoc | by apply Forall_app]. }
    destruct (E3 _ _ _ _ H3) as (evs3 & T3 & F3).
    apply bind_inv in Hb' as [(e & H & ->) | ([[[Gen Dis] Gc] Ge] & s4 & H4 & Hb')].
    { destruct (E4 _ _ _ _ H) as (evs & T & F). exists (evs2 ++ evs3 ++ evs).
      split; [by rewrite T, T3, T2, !app_assoc | by rewrite !Forall_app]. }
    destruct (E4 _ _ _ _ H4) as (evs4 & T4 & F4).
    apply bind_inv in Hb' as [(e & H & ->) | ([Go Do] & s5 & H5 & Hb')].
    { destruct (E5 _ _ _ _ _ H) as (evs & T & F).
      exists (evs2 ++ evs3 ++ evs4 ++ evs).
      split; [by rewrite T, T4, T3, T2, !app_assoc | by rewrite !Forall_app]. }
    destruct (E5 _ _ _ _ _ H5) as (evs5 & T5 & F5). injection Hb' as _ <-.
    exists (evs2 ++ evs3 ++ evs4 ++ evs5).
    split; [by rewrite T5, T4, T3, T2, !app_assoc | by rewrite !Forall_app]. }
  destruct rb as [e | b].
  { destruct (build_stops_run _ _ _ _ Hb) as [_ ->]. by exists evs. }
  destruct (finish w c b sB) as [r s1] eqn:Hfin.
  destruct (E6 _ _ eq_refl _ _ _ Hfin) as (evsF & TF & FF).
  assert (prepare w c initial = (r, s1)) as Hp
    by (unfold prepare; by rewrite (bind_return _ _ _ _ _ Hb)).
  destruct (calls_after_prepare _ _ _ _ Hp) as (later & -> & Fl & _).
  exists (evs ++ evsF ++ later). split; [by rewrite TF, Tb, !app_assoc |].
  rewrite !Forall_app. repeat split; try done.
  eapply Forall_impl; [exact Fl | exact Et].
Qed.

Lemma calls_from_build w c r sB :
  build w c initial = (r, sB) -> exists later, calls w c = trace sB ++ later.
Proof.
  intros Hb. destruct r as [e | b].
  - destruct (build_stops_run _ _ _ _ Hb) as [_ ->]. exists []. by rewrite app_nil_r.
  - destruct (calls_after_build _ _ _ _ Hb) as (later & ? & _). by exists later.
Qed.


(** ** The Discriminator that line 174 reads *)

Lemma built_discriminator w c b sB :
  build w c initial = (Return b, sB) ->
  (b_Dis b < next sB)%nat
  /\ if 1 <? device_count w then
       exists inner patched,
         heap sB !! b_Dis b
         = Some (DataParallel inner (second_device_of w c) patched)
     else
       heap sB !! b_Dis b
       = Some (Network (Discriminator (synchronized_bn c) (InitScheme (d_init c)))
                 (current_device w) None).
Proof.
  intros Hb. apply build_returns in Hb as (_ & _ & Hb).
  destruct Hb as (part & kg & kd & Gen & Dis & Gc & Ge & _ & _ & _ & Hr & Hb).
  cbv zeta in Hb. destruct Hb as (-> & _ & -> & (_ & H2 & _ & H4) & _).
  unfold model_refs in Hr. unfold models_end. cbn [b_Dis built_of].
  destruct (1 <? device_count w) eqn:Hn; injection Hr as <- <- <- <-.
  - destruct (H4 eq_refl) as (_ & E & _). cbv zeta in E.
    split; [| by eauto]. unfold networks_made. destruct (ema c); simpl; lia.
  - split; [lia | done].
Qed.

Lemma probe_in_channels_in_run w c b sB ss sR mu sigma inception sS :
  build w c initial = (Return b, sB) ->
  resume w c (b_run_name b) (b_logger b) (b_writer b) (b_Gen b) (b_Dis b)
    (b_G_optimizer b) (b_D_optimizer b) (b_Gen_copy b) (b_Gen_ema b) sB
  = (Return ss, sR) ->
  reference_statistics w c (b_eval_dataloader b) (b_Gen b) (s_run_name ss)
    (s_logger ss) (b_default_device b) (b_second_device b) sR
  = (Return (mu, sigma, inception), sS) ->
  probe_in_channels w c (heap sS) (b_Dis b) = in_channels_of w c.
Proof.
  intros Hb Hr Hs. unfold probe_in_channels, in_channels_of, ref in *.
  destruct (String.eqb (conditional_strategy c) "ContraGAN"); [done |].
  destruct (built_discriminator _ _ _ _ Hb) as [Hlt Hd].
  destruct (stable_resume _ _ _ _ _ _ _ _ _ _ _ _ _ _ Hr) as [N1 K1].
  destruct (stable_reference_statistics _ _ _ _ _ _ _ _ _ _ _ Hs) as [N2 K2].
  destruct (1 <? device_count w).
  - destruct Hd as (inner & patched & Hd).
    destruct (K1 _ _ Hlt Hd) as (o1 & L1 & S1).
    destruct (K2 (b_Dis b) o1) as (o2 & L2 & S2); [lia | done |].
    rewrite L2. destruct o1; try done. by destruct o2.
  - destruct (K1 _ _ Hlt Hd) as (o1 & L1 & S1).
    destruct (K2 (b_Dis b) o1) as (o2 & L2 & S2); [lia | done |].
    rewrite L2. destruct o1 as [cls1 d1 w1 | | |]; try done.
    destruct S1 as [<- _]. destruct o2 as [cls2 d2 w2 | | |]; try done.
    by destruct S2 as [<- _].
Qed.

(** ** Where lines 137-192 can stop *)

Lemma built_ema_vars w c b sB :
  build w c initial = (Return b, sB) ->
  ema c = true -> is_Some (b_Gen_copy b) /\ is_Some (b_Gen_ema b).
Proof.
  intros Hb He. pose proof (build_ema_vars _ _ _ _ Hb) as H. rewrite He in H.
  destruct H as (copy & updater & _ & _ & -> & -> & _). by split; eexists.
Qed.

Lemma finish_raises w c b sB e s :
  build w c initial = (Return b, sB) ->
  finish w c b sB = (Raise e, s) ->
  (exists folder,
     checkpoint_folder (train_config c) = Some folder
     /\ (e = NotADirectoryError /\ exists_ w (abspath w folder) = false
         \/ e = IndexError /\ exists_ w (abspath w folder) = true
         \/ e = AssertionError seed_message /\ exists_ w (abspath w folder) = true))
  \/ (linear_evaluation (train_config c) = true
      /\ in_channels_of w c = Raise e).
Proof.
  intros Hb Hf. apply finish_inv in Hf as (rr & sR & Hr & Hf).
  destruct rr as [e' | ss].
  - destruct Hf as [[= ->] ->]. left.
    destruct (checkpoint_folder (train_config c)) as [folder |] eqn:Ec.
    2: { rewrite resume_fresh in Hr by done. by injection Hr. }
    exists folder. split; [done |].
    apply (resume_from_folder _ _ _ _ _ _ _ _ _ _ _ _ _ _ folder Ec) in Hr.
    cbv zeta in Hr.
    destruct Hr as [(? & [= ->] & _) | [(? & _ & [= ->] & _) | Hr]];
      [by left | right; by left |].
    destruct Hr as (g & d & Hex & _ & _ & Hr).
    destruct Hr as [(_ & _ & Hv) | [(_ & _ & _ & [= ->]) | Hr]].
    + unfold verdict in Hv. destruct (seed c =? _); [done |].
      injection Hv as ->. right. by right.
    + right. by left.
    + destruct Hr as (He & x & _ & [Hr | Hr]).
      * destruct Hr as (copy & updater & _ & _ & _ & Hv & _).
        unfold verdict in Hv. destruct (seed c =? _); [done |].
        injection Hv as ->. right. by right.
      * destruct (built_ema_vars _ _ _ _ Hb He) as [[? E1] [? E2]].
        destruct Hr as ([E | E] & _); congruence.
  - destruct Hf as (mu & sigma & inc & sS & rl & Hs & Hl & Hf).
    destruct rl as [e' |]; [| by destruct Hf as (? & [=] & _)].
    injection Hf as ->. right.
    destruct (linear_evaluation (train_config c)) eqn:El.
    2: { by rewrite linear_probe_off in Hl. }
    split; [done |].
    pose proof (linear_probe_on w c (b_Dis b) (b_n_gpus b) (b_default_device b)
                  (b_second_device b) sS El) as Hp.
    rewrite (probe_in_channels_in_run _ _ _ _ _ _ _ _ _ _ Hb Hr Hs) in Hp.
    destruct (in_channels_of w c) as [e'' | ic]; [congruence |].
    apply build_returns in Hb as (_ & _ & Hb).
    destruct Hb as (part & kg & kd & Gen & Dis & Gc & Ge & _ & Hk & _).
    rewrite Hk in Hp. destruct Hp as (s' & Hp & _). congruence.
Qed.

(** Every way in which lines 48-192 can stop, with its cause. *)
Lemma prepare_raises_cases w c e s :
  prepare w c initial = (Raise e, s) ->
  (~ devices_fit w c
   /\ (e = ZeroDivisionError \/ e = AssertionError batch_size_message))
  \/ (e = IndexError /\ (count_slashes (config_path c) < 3)%nat)
  \/ (e = AssertionError dcgan_message
      /\ String.eqb (architecture c) "dcgan" = true /\ img_size c <> 32)
  \/ (e = ModuleNotFoundError (module_name c)
      /\ has_module w (module_name c) = false)
  \/ (e = NotImplementedError /\ ~ In (optimizer c) supported_optimizers)
  \/ (exists folder,
        checkpoint_folder (train_config c) = Some folder
        /\ (e = NotADirectoryError /\ exists_ w (abspath w folder) = false
            \/ e = IndexError /\ exists_ w (abspath w folder) = true
            \/ e = AssertionError seed_message
               /\ exists_ w (abspath w folder) = true))
  \/ (linear_evaluation (train_config c) = true /\ in_channels_of w c = Raise e).
Proof.
  intros Hp. unfold prepare in Hp.
  destruct (build w c initial) as [[e' | b] sB] eqn:Hb.
  - rewrite (bind_raise _ _ _ _ _ Hb) in Hp. injection Hp as -> ->.
    apply build_raises in Hb as [(Hn & _ & He) | [(_ & Hs & -> & _) | Hb]].
    + by left.
    + right. left. split; [done |]. by apply fourth_component_none.
    + destruct Hb as (part & _ & _ & [(_ & _ & He) | (_ & Hn & -> & _)]).
      * destruct He as [(-> & ? & ?) | (-> & ? & _)].
        -- do 2 right. by left.
        -- do 3 right. by left.
      * do 4 right. by left.
  - rewrite (bind_return _ _ _ _ _ Hb) in Hp.
    destruct (finish_raises _ _ _ _ _ _ Hb Hp) as [H | H].
    + do 5 right. by left.
    + by do 6 right.
Qed.

(** Every way in which a run can stop, with its cause. *)
Lemma outcome_raises w c e :
  outcome w c = Raise e ->
  (exists s, prepare w c initial = (Raise e, s))
  \/ (e = KeyError (adv_loss c) /\ ~ In (adv_loss c) supported_adv_losses
      /\ exists p s1, prepare w c initial = (Return p, s1) /\ calls w c = trace s1).
Proof.
  intros Ho.
  destruct (run_cases w c)
    as [(e' & s & Hp & Ho' & _)
       | (p & s1 & Hp & [(Hr & Ho' & Hc) | (g & d & loop & _ & Ho' & _)])].
  - left. exists s. congruence.
  - right. assert (e = KeyError (adv_loss c)) as -> by congruence.
    split; [done |]. split; [| by eauto]. intros Hin.
    apply registered_supported in Hin as [? Hin]. congruence.
  - congruence.
Qed.

(** ** The calls of lines 48-117 *)

Lemma opening_quiet w c name : Forall (holds quiet) (opening_calls w c name).
Proof.
  unfold opening_calls, device_calls, start_calls, dataset_calls.
  destruct (device_count w =? 1), (lt_one (reduce_train_dataset c));
    by repeat constructor.
Qed.

Lemma device_calls_quiet w c : Forall (holds quiet) (device_calls w c).
Proof. unfold device_calls. destruct (device_count w =? 1); by repeat constructor. Qed.

Lemma model_calls_start c name n sec lo :
  exists rest,
    model_calls c name n sec lo
    = EvLog name LogBuilding :: EvImport (module_name c)
      :: EvLog name (LogModulesLocated (architecture c))
      :: EvConstruct lo (Generator (synchronized_bn c) (InitScheme (g_init c)))
      :: EvConstruct (S lo)
           (Discriminator (synchronized_bn c) (InitScheme (d_init c)))
      :: rest.
Proof.
  unfold model_calls. destruct (model_refs c n lo) as [[[Gen Dis] Gc] Ge].
  by eexists.
Qed.

(** Checks a decidable property of every call of lines 85-117. *)
Ltac model_cases :=
  unfold model_calls, model_refs, networks_made;
  destruct (ema _), (1 <? _), (synchronized_bn _); simpl.

Lemma model_calls_no_optimizer c name n sec lo :
  Forall (holds (fun e => negb (is_optimizer e))) (model_calls c name n sec lo).
Proof. model_cases; by repeat constructor. Qed.

Lemma quiet_no_optimizer evs :
  Forall (holds quiet) evs -> Forall (holds (fun e => negb (is_optimizer e))) evs.
Proof. intros F. eapply Forall_impl; [exact F |]. by intros []. Qed.

Lemma prepare_from_build w c b sB :
  build w c initial = (Return b, sB) -> prepare w c initial = finish w c b sB.
Proof. intros Hb. unfold prepare. by rewrite (bind_return _ _ _ _ _ Hb). Qed.

Lemma in_forall_false (p : event -> bool) e evs :
  Forall (holds p) evs -> In e evs -> p e = false -> False.
Proof. intros F Hin He. rewrite (in_holds _ _ _ F Hin) in He. done. Qed.

(** ** Runs that construct their Trainer *)

Lemma filter_none (p q : event -> bool) evs :
  (forall e, q e = true -> p e = false) ->
  Forall (holds q) evs -> List.filter p evs = [].
Proof.
  intros Hq. induction 1 as [| e evs He _ IH]; [done |].
  simpl. by rewrite (Hq _ He).
Qed.

Lemma linear_probe_returns w c b sB ss sR mu sigma inception sS lin Lo s1 :
  build w c initial = (Return b, sB) ->
  resume w c (b_run_name b) (b_logger b) (b_writer b) (b_Gen b) (b_Dis b)
    (b_G_optimizer b) (b_D_optimizer b) (b_Gen_copy b) (b_Gen_ema b) sB
  = (Return ss, sR) ->
  reference_statistics w c (b_eval_dataloader b) (b_Gen b) (s_run_name ss)
    (s_logger ss) (b_default_device b) (b_second_device b) sR
  = (Return (mu, sigma, inception), sS) ->
  linear_probe w c (b_Dis b) (b_n_gpus b) (b_default_device b)
    (b_second_device b) sS = (Return (lin, Lo), s1) ->
  if linear_evaluation (train_config c) then
    exists ic k,
      in_channels_of w c = Return ic
      /\ optimizer_kind c (g_lr c) = Some k
      /\ lin = Some (probe_model (b_n_gpus b) (next sS))
      /\ Lo = Some (S (probe_model (b_n_gpus b) (next sS)))
      /\ trace s1
         = trace sS
           ++ probe_calls c (b_n_gpus b) (b_second_device b) ic (next sS)
           ++ [EvOptimizer (S (probe_model (b_n_gpus b) (next sS))) k
                 (probe_model (b_n_gpus b) (next sS))]
  else lin = None /\ Lo = None /\ s1 = sS.
Proof.
  intros Hb Hr Hs Hl. destruct (linear_evaluation (train_config c)) eqn:El.
  2: { rewrite linear_probe_off in Hl by done. by injection Hl as <- <- <-. }
  pose proof (linear_probe_on w c (b_Dis b) (b_n_gpus b) (b_default_device b)
                (b_second_device b) sS El) as Hp.
  rewrite (probe_in_channels_in_run _ _ _ _ _ _ _ _ _ _ Hb Hr Hs) in Hp.
  destruct (in_channels_of w c) as [e | ic]; [congruence |].
  destruct (optimizer_kind c (g_lr c)) as [k |].
  - destruct Hp as (s' & Hp & Ht). rewrite Hp in Hl.
    injection Hl as <- <- <-. by exists ic, k.
  - destruct Hp as (s' & Hp & _). congruence.
Qed.

(** Unpacks a run in which the Trainer [t] was constructed. *)
Ltac trainer_run Hin :=
  apply trainer_in_run in Hin
    as (p & s1 & g & d & loop & Hp & Hreg & Ht & Hout & Hcalls & Hloop);
  pose proof Hp as Hprep;
  apply prepare_returns in Hp as (b & sB & Hb & Hfin);
  apply finish_returns in Hfin
    as (ss & sR & sS & mu & sigma & inc & lin & Lo & Hres & Hst & Hstats
        & HtS & Hprobe & Hpeq);
  pose proof (linear_probe_returns _ _ _ _ _ _ _ _ _ _ _ _ _ Hb Hres Hstats
                Hprobe) as Hlin;
  pose proof Hb as Hb';
  apply build_returns in Hb'
    as (Hfit & Hav & part & kg & kd & Gen & Dis & Gc & Ge & Hpart & Hkg & Hkd
        & Hrefs & Hb');
  cbv zeta in Hb'; destruct Hb' as (Hbeq & HtB & HnB & Hmod & HGo & HDo).

(** The linear probe of a run, whatever its result. *)
Lemma linear_probe_in_run w c b sB ss sR mu sigma inception sS rl s1 :
  build w c initial = (Return b, sB) ->
  resume w c (b_run_name b) (b_logger b) (b_writer b) (b_Gen b) (b_Dis b)
    (b_G_optimizer b) (b_D_optimizer b) (b_Gen_copy b) (b_Gen_ema b) sB
  = (Return ss, sR) ->
  reference_statistics w c (b_eval_dataloader b) (b_Gen b) (s_run_name ss)
    (s_logger ss) (b_default_device b) (b_second_device b) sR
  = (Return (mu, sigma, inception), sS) ->
  linear_probe w c (b_Dis b) (b_n_gpus b) (b_default_device b)
    (b_second_device b) sS = (rl, s1) ->
  if linear_evaluation (train_config c) then
    match in_channels_of w c with
    | Raise e => rl = Raise e /\ s1 = sS
    | Return ic =>
        exists k,
          optimizer_kind c (g_lr c) = Some k
          /\ rl = Return (Some (probe_model (device_count w) (next sS)),
                          Some (S (probe_model (device_count w) (next sS))))
          /\ trace s1
             = trace sS
               ++ probe_calls c (device_count w) (second_device_of w c) ic
                    (next sS)
               ++ [EvOptimizer (S (probe_model (device_count w) (next sS))) k
                     (probe_model (device_count w) (next sS))]
    end
  else rl = Return (None, None) /\ s1 = sS.
Proof.
  intros Hb Hr Hs Hl. destruct (linear_evaluation (train_config c)) eqn:El.
  2: { rewrite linear_probe_off in Hl by done. by injection Hl as <- <-. }
  pose proof (linear_probe_on w c (b_Dis b) (b_n_gpus b) (b_default_device b)
                (b_second_device b) sS El) as Hp.
  rewrite (probe_in_channels_in_run _ _ _ _ _ _ _ _ _ _ Hb Hr Hs) in Hp.
  destruct (in_channels_of w c) as [e | ic].
  { rewrite Hp in Hl. by injection Hl as <- <-. }
  apply build_returns in Hb as (_ & _ & Hb).
  destruct Hb as (part & kg & kd & Gen & Dis & Gc & Ge & _ & Hk & _ & _ & Hb).
  cbv zeta in Hb. destruct Hb as (-> & _). rewrite Hk in Hp.
  destruct Hp as (s' & Hp & Ht). rewrite Hp in Hl. injection Hl as <- <-.
  by exists kg.
Qed.

(** The stages that a run goes through, and its calls cut after the last
    one reached. *)
Lemma run_stages w c :
  (exists e sB,
     build w c initial = (Raise e, sB)
     /\ calls w c = trace sB /\ outcome w c = Raise e)
  \/ (exists b sB,
        build w c initial = (Return b, sB)
        /\ ((exists e sR,
               resume w c (b_run_name b) (b_logger b) (b_writer b) (b_Gen b)
                 (b_Dis b) (b_G_optimizer b) (b_D_optimizer b) (b_Gen_copy b)
                 (b_Gen_ema b) sB = (Raise e, sR)
               /\ calls w c = trace sR /\ outcome w c = Raise e)
            \/ (exists ss sR mu sigma inception sS rl s1 later,
                  resume w c (b_run_name b) (b_logger b) (b_writer b) (b_Gen b)
                    (b_Dis b) (b_G_optimizer b) (b_D_optimizer b)
                    (b_Gen_copy b) (b_Gen_ema b) sB = (Return ss, sR)
                  /\ stats_of w c (next sR) = (mu, sigma, inception)
                  /\ reference_statistics w c (b_eval_dataloader b) (b_Gen b)
                       (s_run_name ss) (s_logger ss) (b_default_device b)
                       (b_second_device b) sR
                     = (Return (mu, sigma, inception), sS)
                  /\ trace sS
                     = trace sR
                       ++ (if tc_eval (train_config c) then
                             [EvConstruct (next sR) InceptionV3;
                              EvDataParallel (S (next sR)) (next sR)
                                (b_second_device b);
                              EvPrepareMoments (b_eval_dataloader b) (b_Gen b)
                                (type4eval_dataset c) (S (next sR)) 10
                                (s_run_name ss) (s_logger ss)
                                (b_second_device b)]
                           else [])
                  /\ linear_probe w c (b_Dis b) (b_n_gpus b)
                       (b_default_device b) (b_second_device b) sS = (rl, s1)
                  /\ calls w c = trace s1 ++ later
                  /\ Forall (fun e => is_trainer_event e = true) later
                  /\ match rl with
                     | Raise e => outcome w c = Raise e /\ later = []
                     | Return (lin, Lo) =>
                         prepare w c initial
                         = (Return (prepared_of b ss mu sigma inception lin Lo),
                            s1)
                     end))).
Proof.
  destruct (build w c initial) as [[e | b] sB] eqn:Hb.
  { left. exists e, sB. destruct (build_stops_run _ _ _ _ Hb) as [? ?].
    by repeat split. }
  right. exists b, sB. split; [done |].
  pose proof (prepare_from_build _ _ _ _ Hb) as Hp. unfold finish in Hp.
  destruct (resume w c (b_run_name b) (b_logger b) (b_writer b) (b_Gen b)
              (b_Dis b) (b_G_optimizer b) (b_D_optimizer b) (b_Gen_copy b)
              (b_Gen_ema b) sB) as [[e | ss] sR] eqn:Hr.
  { left. exists e, sR. split; [done |].
    rewrite (bind_raise _ _ _ _ _ Hr) in Hp.
    by destruct (prepare_raises _ _ _ _ Hp) as (? & ? & _). }
  right. rewrite (bind_return _ _ _ _ _ Hr) in Hp.
  destruct (reference_statistics_returns w c (b_eval_dataloader b) (b_Gen b)
              (s_run_name ss) (s_logger ss) (b_default_device b)
              (b_second_device b) sR) as (sS & Hs & HT).
  rewrite (bind_return _ _ _ _ _ Hs) in Hp.
  destruct (stats_of w c (next sR)) as [[mu sigma] inc] eqn:Hst.
  destruct (linear_probe w c (b_Dis b) (b_n_gpus b) (b_default_device b)
              (b_second_device b) sS) as [rl s1] eqn:Hl.
  destruct rl as [e | [lin Lo]].
  - rewrite (bind_raise _ _ _ _ _ Hl) in Hp.
    destruct (prepare_raises _ _ _ _ Hp) as (? & ? & _).
    exists ss, sR, mu, sigma, inc, sS, (Raise e), s1, [].
    rewrite app_nil_r. by repeat split.
  - rewrite (bind_return _ _ _ _ _ Hl) in Hp. cbn [ret] in Hp.
    destruct (calls_after_prepare _ _ _ _ Hp) as (later & Hc & Fl & _).
    exists ss, sR, mu, sigma, inc, sS, (Return (lin, Lo)), s1, later.
    by repeat split.
Qed.

(** ** The loggers and writers of a run *)

Lemma loggers_of_app evs1 evs2 :
  loggers_of (evs1 ++ evs2) = loggers_of evs1 ++ loggers_of evs2.
Proof. apply omap_app. Qed.




Lemma loggers_of_none (q : event -> bool) evs :
  (forall name, q (EvMakeLogger name) = false) ->
  Forall (holds q) evs -> loggers_of evs = [].
Proof.
  intros Hq. induction 1 as [| e evs He _ IH]; [done |].
  destruct e; try exact IH. unfold holds in He. by rewrite Hq in He.
Qed.

Lemma loggers_of_opening w c name : loggers_of (opening_calls w c name) = [name].
Proof.
  unfold opening_calls, device_calls, start_calls, dataset_calls.
  by destruct (device_count w =? 1), (lt_one (reduce_train_dataset c)).
Qed.

Lemma loggers_of_models c name n sec lo : loggers_of (model_calls c name n sec lo) = [].
Proof. by model_cases. Qed.

Lemma loggers_of_built w c b sB :
  build w c initial = (Return b, sB) -> loggers_of (trace sB) = [b_run_name b].
Proof.
  intros Hb. apply build_returns in Hb as (_ & _ & Hb).
  destruct Hb as (part & kg & kd & Gen & Dis & Gc & Ge & _ & _ & _ & _ & Hb).
  cbv zeta in Hb. destruct Hb as (-> & -> & _).
  by rewrite !loggers_of_app, loggers_of_opening, loggers_of_models.
Qed.

Lemma loggers_of_probe c n sec ic lo : loggers_of (probe_calls c n sec ic lo) = [].
Proof. unfold probe_calls. by destruct (1 <? n), (synchronized_bn c). Qed.

Lemma loggers_of_trainer evs :
  Forall (fun e => is_trainer_event e = true) evs -> loggers_of evs = [].
Proof. intros F. by apply (loggers_of_none is_trainer_event). Qed.

(** ** What remains of a run after the resume block *)

Lemma omap_none {A} (f : event -> option A) (q : event -> bool) evs :
  (forall e, q e = true -> f e = None) -> Forall (holds q) evs -> omap f evs = [].
Proof.
  intros Hq. induction 1 as [| e evs He _ IH]; [done |].
  simpl. by rewrite (Hq _ He).
Qed.

(** Lines 159-280 add nothing to what [f] collects, when [f] ignores the
    calls of the statistics, of the probe and of the Trainer. *)
Lemma omap_after_resume {A} (f : event -> option A) w c b ss sR mu sigma
    inception sS rl s1 later :
  reference_statistics w c (b_eval_dataloader b) (b_Gen b) (s_run_name ss)
    (s_logger ss) (b_default_device b) (b_second_device b) sR
  = (Return (mu, sigma, inception), sS) ->
  linear_probe w c (b_Dis b) (b_n_gpus b) (b_default_device b)
    (b_second_device b) sS = (rl, s1) ->
  calls w c = trace s1 ++ later ->
  Forall (fun e => is_trainer_event e = true) later ->
  (forall e, is_trainer_event e = true -> f e = None) ->
  (forall e, probing e = true -> f e = None) ->
  omap f (calls w c) = omap f (trace sR).
Proof.
  intros Hs Hl -> Fl Ht Hp.
  destruct (probing_calls _ _ _ _ _ _ _ _ _ _ _ Hs Hl) as (evs & -> & F).
  rewrite !omap_app, (omap_none f probing evs Hp F).
  rewrite (omap_none f is_trainer_event later Ht Fl). by rewrite !app_nil_r.
Qed.

(** ** The example runs construct their Trainers *)

Lemma example_trainer_constructed :
  In (EvTrainer example_trainer) (calls single_gpu fresh_run).
Proof. find_call. Qed.

Lemma resumed_trainer_constructed :
  In (EvTrainer resumed_trainer) (calls single_gpu (resumed_run 0)).
Proof. find_call. Qed.

(** The calls of a run around those of lines 160-169. *)
Lemma run_parts (P : event -> Prop) w c :
  emits P (build w c) ->
  (forall run_name logger writer Gen Dis G_optimizer D_optimizer Gen_copy Gen_ema,
     emits P (resume w c run_name logger writer Gen Dis G_optimizer D_optimizer
                Gen_copy Gen_ema)) ->
  (forall Dis,
     emits P (linear_probe w c Dis (device_count w) (current_device w)
                (second_device_of w c))) ->
  (forall e, is_trainer_event e = true -> P e) ->
  exists before stats later,
    calls w c = before ++ stats ++ later
    /\ Forall P before /\ Forall P later
    /\ (stats = []
        \/ tc_eval (train_config c) = true
           /\ exists lo loader g rn lg,
                stats
                = [EvConstruct lo InceptionV3;
                   EvDataParallel (S lo) lo (second_device_of w c);
                   EvPrepareMoments loader g (type4eval_dataset c) (S lo) 10 rn
                     lg (second_device_of w c)]).
Proof.
  intros Eb Er El Et.
  destruct (run_stages w c) as [(e & sB & Hb & -> & _) | (b & sB & Hb & Hs)].
  { exists (trace sB), [], []. rewrite !app_nil_r.
    split; [done |]. split; [| split; [done | by left]].
    exact (emits_trace _ _ _ _ _ Eb Hb (List.Forall_nil _)). }
  pose proof (emits_trace _ _ _ _ _ Eb Hb (List.Forall_nil _)) as FB.
  destruct Hs as [(e & sR & Hr & -> & _) | Hs].
  { exists (trace sR), [], []. rewrite !app_nil_r.
    split; [done |]. split; [| split; [done | by left]].
    exact (emits_trace _ _ _ _ _ (Er _ _ _ _ _ _ _ _ _) Hr FB). }
  destruct Hs as (ss & sR & mu & sigma & inc & sS & rl & s1 & later & Hr & _ & _
                  & HT & Hl & -> & Fl & _).
  pose proof (emits_trace _ _ _ _ _ (Er _ _ _ _ _ _ _ _ _) Hr FB) as FR.
  apply build_returns in Hb as (_ & _ & Hb).
  destruct Hb as (part & kg & kd & Gen & Dis & Gc & Ge & _ & _ & _ & _ & Hb).
  cbv zeta in Hb. destruct Hb as (-> & _).
  cbn [built_of b_Dis b_n_gpus b_default_device b_second_device
       b_eval_dataloader b_Gen] in *.
  destruct (El _ _ _ _ Hl) as (evsP & -> & FP).
  rewrite HT, <- !app_assoc.
  eexists (trace sR), _, (evsP ++ later).
  split; [reflexivity |]. split; [done |].
  split; [apply Forall_app; split; [done |];
          eapply Forall_impl; [exact Fl | exact Et] |].
  destruct (tc_eval (train_config c)); [right | by left].
  split; [done |]. by do 5 eexists.
Qed.

(** ** Seeding (lines 48-50) *)

Lemma emits_no_seeding_finish w c b :
  emits (holds (fun e => negb (is_seeding e))) (finish w c b).
Proof. unfold finish. emits_script. Qed.

(** X1.  Every run, also one that fails, starts by seeding all generators
    with the configured seed and by setting cudnn to deterministic without
    benchmarking, and never does either again. *)
Theorem every_run_starts_seeded w c :
  exists later,
    calls w c = EvFixAllSeed (seed c) :: EvCudnn false true :: later
    /\ Forall (fun e => is_seeding e = false) later.
Proof.
  assert (forall evs,
            Forall (holds (fun e => negb (is_seeding e))) evs ->
            Forall (fun e => is_seeding e = false) evs) as Himp.
  { intros evs F. eapply Forall_impl; [exact F |]. intros e H. unfold holds in H.
    by destruct (is_seeding e). }
  destruct (devices_fit_dec w c) as [Hf | Hf].
  - destruct (calls_after_devices (holds (fun e => negb (is_seeding e))) w c)
      as (later & Hc & F);
      [done | emits_script | intros; emits_script ..
      | intros; apply emits_no_seeding_finish | by intros [] |].
    unfold device_calls in Hc. rewrite Hc. eexists. split; [reflexivity |].
    apply Himp. apply Forall_app. split; [| done].
    destruct (device_count w =? 1); by repeat constructor.
  - destruct (check_devices_stops w c initial Hf) as (e & He & _).
    assert (build w c initial
            = (Raise e, after initial [EvFixAllSeed (seed c); EvCudnn false true]))
      as Hb by (unfold build; by rewrite (bind_raise _ _ _ _ _ He)).
    destruct (build_stops_run _ _ _ _ Hb) as [_ ->]. by exists [].
Qed.

(** ** The single-device warning (lines 56-58) *)

Lemma one_device_fits w c : device_count w = 1 -> devices_fit w c.
Proof. intros H. unfold devices_fit. rewrite H, Z.mod_1_r. by split. Qed.

Lemma emits_no_warning_finish w c b : emits (fun e => e <> EvWarn) (finish w c b).
Proof. unfold finish. emits_script. Qed.

(** X2.  On a machine with one device the batch check cannot fail and the
    warning about data parallelism is the third call of every run, issued
    once; on any other machine it is never issued. *)
Theorem single_device_warning w c :
  (device_count w = 1 ->
     exists later,
       calls w c
       = EvFixAllSeed (seed c) :: EvCudnn false true :: EvWarn :: later
       /\ ~ In EvWarn later)
  /\ (device_count w <> 1 -> ~ In EvWarn (calls w c)).
Proof.
  assert (forall e, is_trainer_event e = true -> e <> EvWarn) as Et
    by (intros [] Ht; first [discriminate Ht | done]).
  split.
  - intros Hn.
    destruct (calls_after_devices (fun e => e <> EvWarn) w c)
      as (later & Hc & F);
      [by apply one_device_fits | emits_script | intros; emits_script ..
      | intros; apply emits_no_warning_finish | exact Et |].
    exists later. unfold device_calls in Hc. rewrite Hn in Hc.
    split; [exact Hc |]. intros Hin. rewrite List.Forall_forall in F.
    by apply (F _ Hin).
  - intros Hn Hin.
    assert (Forall (fun e => e <> EvWarn) (calls w c)) as F.
    { apply run_forall; [| intros; apply emits_no_warning_finish | exact Et].
      apply emits_build; [| emits_script | intros; emits_script ..].
      intros s r s' H. destruct (devices_fit_dec w c) as [Hf | Hf].
      + rewrite check_devices_run in H by done. injection H as _ <-.
        exists (device_calls w c). split; [done |]. unfold device_calls.
        destruct (Z.eqb_spec (device_count w) 1); [done |].
        by repeat constructor.
      + destruct (check_devices_stops w c s Hf) as (e & He & _).
        rewrite He in H. injection H as _ <-. eexists. split; [done |].
        by repeat constructor. }
    rewrite List.Forall_forall in F. by apply (F _ Hin).
Qed.

Lemma single_device_warning_witness :
  device_count single_gpu = 1
  /\ exists later,
       calls single_gpu fresh_run
       = EvFixAllSeed (seed fresh_run) :: EvCudnn false true :: EvWarn :: later
       /\ ~ In EvWarn later.
Proof.
  split; [reflexivity |].
  exact (proj1 (single_device_warning single_gpu fresh_run) eq_refl).
Defined.

(** ** The devices (lines 51-58) *)

Lemma emits_on_device_finish w c b sB :
  build w c initial = (Return b, sB) ->
  emits (on_device (second_device_of w c)) (finish w c b).
Proof.
  intros Hb. apply build_returns in Hb as (_ & _ & Hb).
  destruct Hb as (part & kg & kd & Gen & Dis & Gc & Ge & _ & _ & _ & _ & Hb).
  cbv zeta in Hb. destruct Hb as (-> & _).
  unfold finish, built_of. cbn [b_run_name b_logger b_writer b_Gen b_Dis
    b_G_optimizer b_D_optimizer b_Gen_copy b_Gen_ema b_eval_dataloader
    b_default_device b_second_device b_n_gpus].
  emits_script.
Qed.

Lemma calls_on_device w c : Forall (on_device (second_device_of w c)) (calls w c).
Proof.
  apply run_forall.
  - apply emits_build; intros; emits_script.
  - apply emits_on_device_finish.
  - by intros [].
Qed.

(** X3.  Every replica of a run gathers its outputs on one device, the second
    device of line 53, where the reference statistics are computed too;
    that device is the default one on a single device or under
    Proxy_NCA_GAN and the one after it otherwise, and the Trainer is told
    the same devices. *)
Theorem replicas_gather_on_second_device w c :
  (forall r inner dev,
     In (EvDataParallel r inner dev) (calls w c) -> dev = second_device_of w c)
  /\ (forall loader g mode inc sp rn lg dev,
        In (EvPrepareMoments loader g mode inc sp rn lg dev) (calls w c) ->
        dev = second_device_of w c)
  /\ (forall t,
        In (EvTrainer t) (calls w c) ->
        t_n_gpus t = device_count w
        /\ t_default_device t = current_device w
        /\ t_second_device t = second_device_of w c)
  /\ (device_count w = 1 \/ conditional_strategy c = "Proxy_NCA_GAN" ->
      second_device_of w c = current_device w)
  /\ (device_count w <> 1 -> conditional_strategy c <> "Proxy_NCA_GAN" ->
      second_device_of w c = current_device w + 1).
Proof.
  pose proof (calls_on_device w c) as F. rewrite List.Forall_forall in F.
  split; [intros r inner dev Hin; exact (F _ Hin) |].
  split; [intros loader g mode inc sp rn lg dev Hin; exact (F _ Hin) |].
  split.
  { intros t Hin.
    apply trainer_in_run in Hin as (p & s1 & g & d & loop & Hp & _ & -> & _).
    apply prepare_returns in Hp as (b & sB & Hb & Hf).
    apply finish_returns in Hf
      as (ss & sR & sS & mu & sigma & inc & lin & Lo & _ & _ & _ & _ & _ & ->).
    apply build_returns in Hb as (_ & _ & Hb).
    destruct Hb as (part & kg & kd & Gen & Dis & Gc & Ge & _ & _ & _ & _ & Hb).
    cbv zeta in Hb. by destruct Hb as (-> & _). }
  unfold second_device_of. split.
  - intros [-> | ->]; [done |]. by rewrite orb_true_r.
  - intros Hn Hs. destruct (Z.eqb_spec (device_count w) 1) as [? | _]; [done |].
    by destruct (String.eqb_spec (conditional_strategy c) "Proxy_NCA_GAN").
Qed.

Lemma replicas_gather_on_second_device_witness :
  In (EvDataParallel 4%nat 0%nat 1) (calls two_gpus fresh_run)
  /\ 1 = second_device_of two_gpus fresh_run.
Proof.
  assert (In (EvDataParallel 4%nat 0%nat 1) (calls two_gpus fresh_run)) as Hin
    by find_call.
  split; [exact Hin |].
  exact (proj1 (replicas_gather_on_second_device two_gpus fresh_run) _ _ _ Hin).
Defined.

(** ** The run name (lines 60-66) *)

(** X4.  The run name comes from the fourth component of the configuration
    path, which must therefore have three slashes: with fewer, a run whose
    devices fit stops with an IndexError, and no run makes any call beyond
    seeding, the cudnn flags and the single-device warning. *)
Theorem config_path_needs_four_components w c :
  (count_slashes (config_path c) < 3)%nat ->
  (exists e, outcome w c = Raise e)
  /\ (devices_fit w c -> outcome w c = Raise IndexError)
  /\ Forall (holds is_device_setup) (calls w c).
Proof.
  intros Hs. apply fourth_component_none in Hs.
  destruct (build w c initial) as [r sB] eqn:Hb. destruct r as [e | b].
  - destruct (build_stops_run _ _ _ _ Hb) as [-> ->].
    apply build_raises in Hb as [(Hn & -> & _) | [(Hf & _ & -> & ->) | Hb]].
    + split; [by eexists |]. split; [done |]. by repeat constructor.
    + split; [by eexists |]. split; [done |]. unfold device_calls.
      destruct (device_count w =? 1); by repeat constructor.
    + destruct Hb as (part & _ & E & _). congruence.
  - apply build_returns in Hb as (_ & _ & part & ? & ? & ? & ? & ? & ? & E & _).
    congruence.
Qed.

Lemma config_path_needs_four_components_witness :
  (count_slashes (config_path
                    (custom_config "biggan32.json" "biggan32" "no" "Adam" 32
                       true 1 full_passes)) < 3)%nat
  /\ outcome single_gpu
       (custom_config "biggan32.json" "biggan32" "no" "Adam" 32 true 1
          full_passes)
     = Raise IndexError.
Proof.
  split; [vm_compute; lia |].
  apply config_path_needs_four_components; [vm_compute; lia |].
  split; [vm_compute; discriminate | vm_compute; reflexivity].
Defined.



(** ** The datasets and their loaders (lines 71-83, 119-120) *)

Lemma emits_no_prepare_resume w c run_name logger writer Gen Dis G_optimizer
    D_optimizer Gen_copy Gen_ema :
  emits (holds (fun e => negb (is_prepare e)))
    (resume w c run_name logger writer Gen Dis G_optimizer D_optimizer Gen_copy
       Gen_ema).
Proof. emits_script. Qed.

(** X6.  The Trainer's two loaders use the configured batch size and number
    of workers and both shuffle; the training loader drops the last
    incomplete batch and reads the training data with the run's
    conditional strategy, consistency regularisation and random flip; the
    evaluation loader keeps the last batch and reads the data named by
    [type4eval_dataset] without strategy, consistency regularisation or
    flip.  The preparer of the reference statistics is invoked on that
    evaluation loader, with the Trainer's Generator, run name and logger. *)
Theorem evaluation_data_is_never_augmented w c t :
  In (EvTrainer t) (calls w c) ->
  t_train_dataloader t
  = {| dl_dataset :=
         {| ds_train := true; ds_strategy := conditional_strategy c;
            ds_consistency_reg := consistency_reg c;
            ds_random_flip := random_flip_preprocessing c;
            ds_len := ds_len (dl_dataset (t_train_dataloader t)) |};
       dl_batch_size := batch_size c; dl_shuffle := true;
       dl_num_workers := num_workers c; dl_drop_last := true |}
  /\ t_eval_dataloader t
     = {| dl_dataset :=
            {| ds_train := String.eqb (type4eval_dataset c) "train";
               ds_strategy := "no"; ds_consistency_reg := false;
               ds_random_flip := false;
               ds_len := dataset_size w (String.eqb (type4eval_dataset c) "train") |};
          dl_batch_size := batch_size c; dl_shuffle := true;
          dl_num_workers := num_workers c; dl_drop_last := false |}
  /\ In (EvLoadDataset (dl_dataset (t_eval_dataloader t))) (calls w c)
  /\ (forall loader g mode inc sp rn lg dev,
        In (EvPrepareMoments loader g mode inc sp rn lg dev) (calls w c) ->
        loader = t_eval_dataloader t /\ g = t_gen_model t
        /\ rn = t_run_name t /\ lg = t_logger t
        /\ Some inc = t_inception_model t).
Proof.
  intros Hin. trainer_run Hin.
  assert (t_train_dataloader t = b_train_dataloader b
          /\ t_eval_dataloader t = b_eval_dataloader b
          /\ t_gen_model t = b_Gen b /\ t_run_name t = s_run_name ss
          /\ t_logger t = s_logger ss /\ t_inception_model t = inc)
    as (E1 & E2 & E3 & E4 & E5 & E6) by (by subst t p).
  rewrite E1, E2, E3, E4, E5, E6.
  split; [by subst b |]. split; [by subst b |]. split.
  - destruct (calls_from_build _ _ _ _ Hb) as (later & ->).
    rewrite HtB. subst b. cbn [built_of b_eval_dataloader DataLoader dl_dataset].
    unfold opening_calls, dataset_calls.
    apply in_or_app. left. apply in_or_app. left. apply in_or_app. right.
    apply in_or_app. right. apply in_or_app. right. apply in_or_app. right.
    simpl. tauto.
  - intros loader g0 mode inc0 sp rn lg dev Hpm.
    destruct (calls_after_prepare _ _ _ _ Hprep) as (later & Hl & Fl & _).
    destruct (probing_calls _ _ _ _ _ _ _ _ _ _ _ Hstats Hprobe) as (evs & Ht1 & _).
    assert (In (EvPrepareMoments loader g0 mode inc0 sp rn lg dev) (trace sS))
      as HinS.
    { rewrite Hl in Hpm. apply in_app_or in Hpm as [Hpm | Hpm].
      2: { rewrite List.Forall_forall in Fl. by specialize (Fl _ Hpm). }
      destruct (linear_evaluation (train_config c)).
      - destruct Hlin as (ic & k & _ & _ & _ & _ & Ht2). rewrite Ht2 in Hpm.
        apply in_app_or in Hpm as [Hpm | Hpm]; [done |].
        apply in_app_or in Hpm as [Hpm | [[=] | []]]. unfold probe_calls in Hpm.
        destruct Hpm as [[=] | Hpm]. destruct (1 <? _); [| done].
        destruct Hpm as [[=] | Hpm]. by destruct (synchronized_bn c), Hpm.
      - by destruct Hlin as (_ & _ & <-). }
    rewrite HtS in HinS. apply in_app_or in HinS as [HinS | HinS].
    + exfalso.
      pose proof (emits_trace _ _ _ _ _
                    (emits_no_prepare_resume _ _ _ _ _ _ _ _ _ _ _) Hres) as FR.
      assert (Forall (holds (fun e => negb (is_prepare e))) (trace sB)) as FB.
      { eapply Forall_impl; [exact (build_trace _ _ _ _ Hb) |].
        intros e He. unfold holds, building in *.
        by destruct (is_prepare e), (is_load e), (is_trainer_event e). }
      exact (in_forall_false _ _ _ (FR FB) HinS eq_refl).
    + unfold stats_of in Hst. destruct (tc_eval (train_config c)); [| done].
      injection Hst as <- <- <-.
      by destruct HinS as [[=] | [[=] | [[= <- <- <- <- <- <- <- <-] | []]]].
Qed.

Lemma evaluation_data_is_never_augmented_witness :
  In (EvTrainer example_trainer) (calls single_gpu fresh_run)
  /\ dl_drop_last (t_eval_dataloader example_trainer) = false.
Proof.
  split; [exact example_trainer_constructed |].
  rewrite (proj1 (proj2 (evaluation_data_is_never_augmented single_gpu fresh_run
                           example_trainer example_trainer_constructed))).
  reflexivity.
Defined.





(** ** Before the networks (lines 85-89) *)

(** X8.  A dcgan for images of another size than 32 is refused before the
    module is imported and before any network is made: the run ends in an
    exception after calls that only seed, log and load the datasets, and in
    the assertion of line 87 once the devices fit and the run name could be
    formed. *)
Theorem dcgan_makes_only_size_32 w c :
  architecture c = "dcgan" ->
  img_size c <> 32 ->
  (exists e, outcome w c = Raise e)
  /\ Forall (holds quiet) (calls w c)
  /\ (devices_fit w c -> (3 <= count_slashes (config_path c))%nat ->
      outcome w c = Raise (AssertionError dcgan_message)).
Proof.
  intros Ha Hi. destruct (build w c initial) as [[e | b] sB] eqn:Hb.
  2: { apply build_returns in Hb as (_ & [Hd _] & _).
       rewrite Ha in Hd. by destruct Hi, Hd. }
  destruct (build_stops_run _ _ _ _ Hb) as [-> ->].
  split; [by eexists |].
  apply build_raises in Hb as [(Hn & -> & _) | [(Hf & Hs & -> & ->) | Hb]].
  - split; [by repeat constructor | tauto].
  - split; [apply device_calls_quiet |]. intros _ Hl.
    apply fourth_component_none in Hs. lia.
  - destruct Hb as (part & _ & _ & [(_ & -> & He) | ([Hd _] & _)]).
    2: { rewrite Ha in Hd. by destruct Hi, Hd. }
    split.
    + apply Forall_app. split; [apply opening_quiet | by repeat constructor].
    + intros _ _. destruct He as [(-> & _) | (_ & _ & Hd)]; [done |].
      rewrite Ha in Hd. by destruct Hi, Hd.
Qed.

Lemma dcgan_makes_only_size_32_witness :
  architecture (custom_config example_path "dcgan" "no" "Adam" 64 true 1
                  full_passes) = "dcgan"
  /\ outcome single_gpu
       (custom_config example_path "dcgan" "no" "Adam" 64 true 1 full_passes)
     = Raise (AssertionError dcgan_message).
Proof.
  split; [reflexivity |].
  refine (proj2 (proj2 (dcgan_makes_only_size_32 single_gpu
                          (custom_config example_path "dcgan" "no" "Adam" 64
                             true 1 full_passes) eq_refl _)) _ _).
  - vm_compute. discriminate.
  - split; [vm_compute; discriminate | vm_compute; reflexivity].
  - vm_compute. lia.
Defined.

(** X9.  A network is constructed only in a run whose devices fit, whose
    configuration path has its four components, whose architecture passed
    the dcgan check and whose module was imported; the import comes before
    every construction, after calls that only seed, log and load the
    datasets. *)
Theorem networks_need_checked_setup w c r cls :
  In (EvConstruct r cls) (calls w c) ->
  devices_fit w c
  /\ (3 <= count_slashes (config_path c))%nat
  /\ (architecture c = "dcgan" -> img_size c = 32)
  /\ has_module w (module_name c) = true
  /\ exists before later,
       calls w c = before ++ EvImport (module_name c) :: later
       /\ Forall (holds quiet) before.
Proof.
  intros Hin.
  assert (forall part evs,
            devices_fit w c ->
            nth_error (split_slash (config_path c)) 3 = Some part ->
            models_available w c ->
            calls w c
            = (opening_calls w c (fresh_name w part)
               ++ model_calls c (fresh_name w part) (device_count w)
                    (second_device_of w c) 0%nat) ++ evs ->
            devices_fit w c
            /\ (3 <= count_slashes (config_path c))%nat
            /\ (architecture c = "dcgan" -> img_size c = 32)
            /\ has_module w (module_name c) = true
            /\ exists before later,
                 calls w c = before ++ EvImport (module_name c) :: later
                 /\ Forall (holds quiet) before) as Hgo.
  { intros part evs Hf Hp [Hd Hm] Hc. split; [done |]. split.
    { destruct (le_lt_dec 3 (count_slashes (config_path c))) as [? | Hl];
        [done |]. apply fourth_component_none in Hl. congruence. }
    split; [intros Ha; apply Hd; by rewrite Ha |]. split; [done |].
    destruct (model_calls_start c (fresh_name w part) (device_count w)
                (second_device_of w c) 0%nat) as (rest & Hs).
    rewrite Hs in Hc.
    exists (opening_calls w c (fresh_name w part)
            ++ [EvLog (fresh_name w part) LogBuilding]). eexists.
    split; [by rewrite Hc, <- !app_assoc |].
    apply Forall_app. split; [apply opening_quiet | by repeat constructor]. }
  destruct (build w c initial) as [[e | b] sB] eqn:Hb.
  - destruct (build_stops_run _ _ _ _ Hb) as [_ Hc].
    apply build_raises in Hb as [(_ & Ht & _) | [(_ & _ & _ & Ht) | Hb]].
    + rewrite Hc, Ht in Hin. exfalso.
      eapply (quiet_not_in _ _ _ Hin eq_refl). Unshelve. by repeat constructor.
    + rewrite Hc, Ht in Hin. exfalso.
      eapply (quiet_not_in _ _ _ Hin eq_refl). Unshelve. apply device_calls_quiet.
    + destruct Hb as (part & Hf & Hp & [(_ & Ht & _) | (Ha & _ & _ & Ht)]).
      * rewrite Hc, Ht in Hin. exfalso.
        eapply (quiet_not_in _ _ _ Hin eq_refl). Unshelve.
        apply Forall_app. split; [apply opening_quiet | by repeat constructor].
      * apply (Hgo part [] Hf Hp Ha). by rewrite app_nil_r, Hc.
  - destruct (calls_from_build _ _ _ _ Hb) as (later & Hc).
    apply build_returns in Hb as (Hf & Ha & Hb).
    destruct Hb as (part & kg & kd & Gen & Dis & Gc & Ge & Hp & _ & _ & _ & Hb).
    cbv zeta in Hb. destruct Hb as (_ & Ht & _).
    eapply (Hgo part _ Hf Hp Ha). rewrite Hc, Ht, <- !app_assoc. reflexivity.
Qed.

Lemma networks_need_checked_setup_witness :
  In (EvConstruct 0%nat (Generator true (InitScheme "ortho")))
    (calls single_gpu fresh_run)
  /\ devices_fit single_gpu fresh_run.
Proof.
  assert (In (EvConstruct 0%nat (Generator true (InitScheme "ortho")))
            (calls single_gpu fresh_run)) as Hin by find_call.
  split; [exact Hin |].
  exact (proj1 (networks_need_checked_setup single_gpu fresh_run _ _ Hin)).
Defined.

(** ** The optimizers (lines 125-135) *)

(** X12.  An optimizer name other than SGD, RMSprop and Adam stops every run
    before any optimizer is made, any checkpoint loaded, any reference
    statistics computed or any Trainer constructed; the name is only looked
    at after the networks have been constructed, where the run raises
    NotImplementedError; and NotImplementedError is raised for no other
    reason. *)
Theorem unsupported_optimizer_is_fatal w c :
  (~ In (optimizer c) supported_optimizers ->
     (exists e, outcome w c = Raise e)
     /\ Forall (holds (fun e => negb (is_optimizer e))) (calls w c)
     /\ Forall (holds building) (calls w c)
     /\ (devices_fit w c -> (3 <= count_slashes (config_path c))%nat ->
         models_available w c ->
         outcome w c = Raise NotImplementedError
         /\ In (EvConstruct 0%nat
                  (Generator (synchronized_bn c) (InitScheme (g_init c))))
              (calls w c)))
  /\ (outcome w c = Raise NotImplementedError ->
      ~ In (optimizer c) supported_optimizers).
Proof.
  split.
  - intros Hn. destruct (build w c initial) as [[e | b] sB] eqn:Hb.
    2: { apply build_returns in Hb as (_ & _ & Hb).
         destruct Hb as (part & kg & kd & Gen & Dis & Gc & Ge & _ & Hk & _).
         destruct Hn. apply (optimizer_kind_supported c (g_lr c)). by eexists. }
    destruct (build_stops_run _ _ _ _ Hb) as [-> ->].
    split; [by eexists |].
    split; [| split; [exact (build_trace _ _ _ _ Hb) |]].
    + apply build_raises in Hb as [(_ & -> & _) | [(_ & _ & _ & ->) | Hb]].
      * by repeat constructor.
      * apply quiet_no_optimizer, device_calls_quiet.
      * destruct Hb as (part & _ & _ & [(_ & -> & _) | (_ & _ & _ & ->)]).
        -- apply quiet_no_optimizer, Forall_app.
           split; [apply opening_quiet | by repeat constructor].
        -- apply Forall_app. split; [| apply model_calls_no_optimizer].
           apply quiet_no_optimizer, opening_quiet.
    + intros Hf Hl Ha.
      apply build_raises in Hb as [(? & _) | [(_ & Hs & _) | Hb]]; [done | |].
      { apply fourth_component_none in Hs. lia. }
      destruct Hb as (part & _ & _ & [(? & _) | (_ & _ & -> & ->)]); [done |].
      split; [done |].
      destruct (model_calls_start c (fresh_name w part) (device_count w)
                  (second_device_of w c) 0%nat) as (rest & ->).
      apply in_or_app. right. simpl. tauto.
  - intros Ho. apply outcome_raises in Ho as [[s Hp] | (? & _)]; [| done].
    apply prepare_raises_cases in Hp
      as [(_ & [? | ?]) | [(? & _) | [(? & _) | [(? & _) | [(_ & ?) | Hp]]]]];
      try done.
    destruct Hp as [(folder & _ & [(? & _) | [(? & _) | (? & _)]]) | (_ & Hp)];
      try done.
    unfold in_channels_of in Hp. repeat case_match; done.
Qed.

Lemma unsupported_optimizer_is_fatal_witness :
  ~ In (optimizer (custom_config example_path "biggan32" "no" "Adagrad" 32 true
                     1 full_passes)) supported_optimizers
  /\ outcome single_gpu
       (custom_config example_path "biggan32" "no" "Adagrad" 32 true 1
          full_passes)
     = Raise NotImplementedError.
Proof.
  assert (~ In (optimizer (custom_config example_path "biggan32" "no" "Adagrad"
                             32 true 1 full_passes)) supported_optimizers) as Hn.
  { vm_compute. intros [H | [H | [H | []]]]; discriminate H. }
  split; [exact Hn |].
  refine (proj1 (proj2 (proj2 (proj2 (proj1 (unsupported_optimizer_is_fatal
            single_gpu _) Hn))) _ _ _)).
  - split; [vm_compute; discriminate | vm_compute; reflexivity].
  - vm_compute. lia.
  - split; [vm_compute; discriminate | vm_compute; reflexivity].
Defined.

(** ** The EMA copy and its updater (lines 96-108) *)

Lemma resume_copy_without_ema w c run_name logger writer Gen Dis G_optimizer
    D_optimizer Gen_copy Gen_ema s ss s' :
  ema c = false ->
  resume w c run_name logger writer Gen Dis G_optimizer D_optimizer Gen_copy
    Gen_ema s = (Return ss, s') ->
  s_Gen_copy ss = Gen_copy.
Proof.
  intros He Hr.
  destruct (checkpoint_folder (train_config c)) as [folder |] eqn:Hc.
  2: { rewrite resume_fresh in Hr by done. by injection Hr as <- _. }
  apply (resume_from_folder _ _ _ _ _ _ _ _ _ _ _ _ _ _ folder Hc) in Hr.
  cbv zeta in Hr.
  destruct Hr as [(_ & ? & _) | [(_ & _ & ? & _) | Hr]]; try done.
  destruct Hr as (g & d & _ & _ & _ & [(_ & _ & Hv) | [(? & _) | (? & _)]]);
    try congruence.
  unfold verdict in Hv. destruct (seed c =? _); [| done]. by injection Hv as ->.
Qed.

(** X10.  With EMA disabled no shadow copy of the Generator is constructed
    (no network is made with [initialize=False]), no updater is made, no
    Generator-EMA checkpoint is loaded, and the Trainer is constructed
    without copy and without updater. *)
Theorem no_ema_no_copy w c :
  ema c = false ->
  Forall (fun e => is_ema_call e = false) (calls w c)
  /\ forall t,
       In (EvTrainer t) (calls w c) ->
       t_Gen_copy t = None /\ t_Gen_ema t = None /\ t_ema t = false.
Proof.
  intros He. split.
  - assert (Forall (holds (fun e => negb (is_ema_call e))) (calls w c)) as F.
    { apply run_forall; [| | by intros []].
      - unfold build, build_models. rewrite He. emits_script.
      - intros b sB _. unfold finish, resume. rewrite He. emits_script. }
    eapply Forall_impl; [exact F |]. intros e H. unfold holds in H.
    by destruct (is_ema_call e).
  - intros t Hin. trainer_run Hin.
    pose proof (resume_copy_without_ema _ _ _ _ _ _ _ _ _ _ _ _ _ _ He Hres) as Hcopy.
    unfold model_refs in Hrefs. rewrite He in Hrefs.
    assert (Gc = None /\ Ge = None) as [-> ->]
      by (destruct (1 <? _); by injection Hrefs as _ _ <- <-).
    subst t p b. cbn in *. by rewrite Hcopy.
Qed.

Lemma no_ema_no_copy_witness :
  ema (custom_config example_path "biggan32" "no" "Adam" 32 false 1 full_passes)
  = false
  /\ Forall (fun e => is_ema_call e = false)
       (calls single_gpu
          (custom_config example_path "biggan32" "no" "Adam" 32 false 1
             full_passes)).
Proof.
  split; [reflexivity |].
  exact (proj1 (no_ema_no_copy single_gpu
                  (custom_config example_path "biggan32" "no" "Adam" 32 false 1
                     full_passes) eq_refl)).
Defined.

(** X11.  In a fresh run with EMA the updater keeps, up to the Trainer's
    construction, the two networks it was made on at line 100: the first
    and the third object of the run.  On several devices these are not the
    Generator and the copy that the Trainer receives, which are their
    replicas made afterwards; on one device they are. *)
Theorem fresh_ema_updater_keeps_the_bare_networks w c p s1 :
  ema c = true ->
  checkpoint_folder (train_config c) = None ->
  prepare w c initial = (Return p, s1) ->
  exists updater copy,
    p_Gen_ema p = Some updater
    /\ s_Gen_copy (p_session p) = Some copy
    /\ heap s1 !! updater = Some (Ema 0%nat 2%nat (ema_decay c) (ema_start c))
    /\ In (EvConstruct 0%nat
             (Generator (synchronized_bn c) (InitScheme (g_init c)))) (calls w c)
    /\ In (EvConstruct 2%nat (Generator false InitFalse)) (calls w c)
    /\ (1 < device_count w ->
        In (EvDataParallel (p_Gen p) 0%nat (second_device_of w c)) (calls w c)
        /\ In (EvDataParallel copy 2%nat (second_device_of w c)) (calls w c)
        /\ p_Gen p <> 0%nat /\ copy <> 2%nat)
    /\ (device_count w <= 1 -> p_Gen p = 0%nat /\ copy = 2%nat).
Proof.
  intros He Hc Hp. apply prepare_returns in Hp as (b & sB & Hb & Hfin).
  apply finish_returns in Hfin
    as (ss & sR & sS & mu & sigma & inc & lin & Lo & Hres & _ & Hstats & _
        & Hprobe & ->).
  rewrite resume_fresh in Hres by done. injection Hres as <- <-.
  destruct (calls_from_build _ _ _ _ Hb) as (later & ->).
  pose proof Hb as Hb'. apply build_returns in Hb' as (_ & _ & Hb').
  destruct Hb' as (part & kg & kd & Gen & Dis & Gc & Ge & _ & _ & _ & Hrefs & Hb').
  cbv zeta in Hb'. destruct Hb' as (-> & HtB & HnB & Hmod & _).
  destruct Hmod as (_ & _ & Hema & _). destruct (Hema He) as [_ Hupd].
  unfold model_refs, networks_made in Hrefs. rewrite He in Hrefs.
  assert (Ge = Some 3%nat) as -> by (destruct (1 <? _); by injection Hrefs as _ _ _ <-).
  assert (heap s1 !! 3%nat = Some (Ema 0%nat 2%nat (ema_decay c) (ema_start c)))
    as Hheap.
  { destruct (keeps_reference_statistics _ _ _ _ _ _ _ _ _ _ _ Hstats) as [N1 K1].
    destruct (keeps_linear_probe _ _ _ _ _ _ _ _ _ Hprobe) as [N2 K2].
    cbn [after next heap] in *.
    assert (3 < next sB)%nat as Hlt.
    { rewrite HnB. unfold models_end, networks_made. rewrite He.
      destruct (1 <? _); simpl; lia. }
    apply K2; [lia | done |]. by apply K1. }
  assert (forall e,
            In e (model_calls c (fresh_name w part) (device_count w)
                    (second_device_of w c) 0%nat) ->
            In e (trace sB ++ later)) as Hsub.
  { intros e Hin. rewrite HtB. apply in_or_app. left. apply in_or_app. right.
    apply in_or_app. by left. }
  exists 3%nat. unfold model_calls, model_refs, networks_made in Hsub.
  rewrite He in Hsub. cbn [prepared_of p_Gen_ema p_session s_Gen_copy p_Gen
    built_of b_Gen_ema b_Gen_copy b_Gen].
  destruct (Z.ltb_spec 1 (device_count w)) as [Hn | Hn];
    injection Hrefs as <- <- <-; eexists; (split; [reflexivity |]);
    (split; [reflexivity |]); (split; [exact Hheap |]);
    (split; [apply Hsub; simpl; tauto |]);
    (split; [apply Hsub; simpl; tauto |]).
  - split; [| lia]. intros _.
    split; [apply Hsub; simpl; tauto |].
    split; [apply Hsub; simpl; tauto |]. done.
  - split; [lia |]. done.
Qed.

Lemma fresh_ema_updater_keeps_the_bare_networks_witness :
  ema fresh_run = true
  /\ checkpoint_folder (train_config fresh_run) = None
  /\ exists p s1,
       prepare two_gpus fresh_run initial = (Return p, s1)
       /\ p_Gen p = 4%nat
       /\ exists updater copy,
            p_Gen_ema p = Some updater
            /\ s_Gen_copy (p_session p) = Some copy
            /\ heap s1 !! updater
               = Some (Ema 0%nat 2%nat (ema_decay fresh_run) (ema_start fresh_run)).
Proof.
  split; [reflexivity |]. split; [reflexivity |].
  destruct (prepare two_gpus fresh_run initial) as [[e | p] s1] eqn:Hp;
    [exfalso; vm_compute in Hp; discriminate Hp |].
  exists p, s1. split; [reflexivity |].
  split; [vm_compute in Hp; by injection Hp as <- _ |].
  destruct (fresh_ema_updater_keeps_the_bare_networks two_gpus fresh_run p s1
              eq_refl eq_refl Hp) as (updater & copy & H1 & H2 & H3 & _).
  exists updater, copy. split; [exact H1 | split; [exact H2 | exact H3]].
Defined.

(** ** Objects keep their kind *)



(** ** The optimizers and the models they update *)

Lemma emits_no_optimizer_resume w c run_name logger writer Gen Dis G_optimizer
    D_optimizer Gen_copy Gen_ema :
  emits (holds (fun e => negb (is_optimizer e)))
    (resume w c run_name logger writer Gen Dis G_optimizer D_optimizer Gen_copy
       Gen_ema).
Proof. emits_script. Qed.

Lemma filter_optimizer_none evs :
  Forall (holds (fun e => negb (is_optimizer e))) evs ->
  List.filter is_optimizer evs = [].
Proof. apply filter_none. intros e. by destruct (is_optimizer e). Qed.

Lemma filter_optimizer_trainer evs :
  Forall (fun e => is_trainer_event e = true) evs ->
  List.filter is_optimizer evs = [].
Proof.
  intros F. apply (filter_none _ is_trainer_event); [by intros [] | exact F].
Qed.

Lemma probe_calls_no_optimizer c n sec ic lo :
  List.filter is_optimizer (probe_calls c n sec ic lo) = [].
Proof. unfold probe_calls. by destruct (1 <? n), (synchronized_bn c). Qed.

(** X13.  In a run that constructs its Trainer, the optimizers made are
    exactly those the Trainer receives, each of the configured class and
    made on the very model it is passed with: the Generator's with [g_lr],
    the Discriminator's with [d_lr] and, when there is a linear probe, the
    probe's with [g_lr]. *)
Theorem optimizers_follow_the_trained_models w c t :
  In (EvTrainer t) (calls w c) ->
  exists kg kd,
    optimizer_kind c (g_lr c) = Some kg
    /\ optimizer_kind c (d_lr c) = Some kd
    /\ List.filter is_optimizer (calls w c)
       = [EvOptimizer (t_G_optimizer t) kg (t_gen_model t);
          EvOptimizer (t_D_optimizer t) kd (t_dis_model t)]
         ++ match t_linear_model t, t_L_optimizer t with
            | Some lm, Some lo => [EvOptimizer lo kg lm]
            | _, _ => []
            end.
Proof.
  intros Hin. trainer_run Hin. exists kg, kd. split; [done | split; [done |]].
  destruct (calls_after_prepare _ _ _ _ Hprep) as (later & -> & Fl & _).
  destruct (emits_no_optimizer_resume _ _ _ _ _ _ _ _ _ _ _ _ _ _ Hres)
    as (evsR & TR & FR).
  assert (List.filter is_optimizer (trace sS)
          = [EvOptimizer (b_G_optimizer b) kg (b_Gen b);
             EvOptimizer (b_D_optimizer b) kd (b_Dis b)]) as HS.
  { rewrite HtS, TR, HtB, Hbeq, !List.filter_app.
    rewrite (filter_optimizer_none evsR FR).
    rewrite (filter_optimizer_none _ (quiet_no_optimizer _ (opening_quiet _ _ _))).
    rewrite (filter_optimizer_none _ (model_calls_no_optimizer _ _ _ _ _)).
    by destruct (tc_eval _). }
  rewrite List.filter_app, (filter_optimizer_trainer _ Fl), app_nil_r.
  subst t p. cbn [Trainer prepared_of t_G_optimizer t_gen_model t_D_optimizer
    t_dis_model t_linear_model t_L_optimizer p_G_optimizer p_Gen p_D_optimizer
    p_Dis p_linear_model p_L_optimizer].
  destruct (linear_evaluation (train_config c)).
  - destruct Hlin as (ic & k & _ & Hk & -> & -> & ->).
    assert (k = kg) as -> by congruence.
    by rewrite !List.filter_app, HS, probe_calls_no_optimizer.
  - destruct Hlin as (-> & -> & ->). by rewrite HS.
Qed.

Lemma optimizers_follow_the_trained_models_witness :
  In (EvTrainer example_trainer) (calls single_gpu fresh_run)
  /\ exists kg kd,
       optimizer_kind fresh_run (g_lr fresh_run) = Some kg
       /\ optimizer_kind fresh_run (d_lr fresh_run) = Some kd
       /\ List.filter is_optimizer (calls single_gpu fresh_run)
          = [EvOptimizer (t_G_optimizer example_trainer) kg
               (t_gen_model example_trainer);
             EvOptimizer (t_D_optimizer example_trainer) kd
               (t_dis_model example_trainer)]
            ++ match t_linear_model example_trainer,
                     t_L_optimizer example_trainer with
               | Some lm, Some lo => [EvOptimizer lo kg lm]
               | _, _ => []
               end.
Proof.
  split; [exact example_trainer_constructed |].
  exact (optimizers_follow_the_trained_models single_gpu fresh_run
           example_trainer example_trainer_constructed).
Defined.

(** ** Fresh starts and resumed runs (lines 137-157) *)

(** X14.  When the checkpoint folder does not exist, every run stops without
    loading a checkpoint, computing reference statistics or constructing a
    Trainer; the folder is looked at only after the networks and the
    optimizers were made, where the run raises NotADirectoryError, having
    made no call after line 135. *)
Theorem missing_checkpoint_folder_is_fatal w c folder :
  checkpoint_folder (train_config c) = Some folder ->
  exists_ w (abspath w folder) = false ->
  (exists e, outcome w c = Raise e)
  /\ Forall (holds building) (calls w c)
  /\ (forall b sB,
        build w c initial = (Return b, sB) ->
        outcome w c = Raise NotADirectoryError /\ calls w c = trace sB).
Proof.
  intros Hc Hex.
  assert (forall b sB,
            build w c initial = (Return b, sB) ->
            outcome w c = Raise NotADirectoryError /\ calls w c = trace sB) as Hgo.
  { intros b sB Hb.
    destruct (run_stages w c) as [(e & sB' & Hb' & _) | (b' & sB' & Hb' & Hs)];
      [congruence |].
    assert (b' = b /\ sB' = sB) as [-> ->] by (split; congruence).
    destruct Hs as [(e & sR & Hr & -> & ->) | Hs].
    - apply (resume_from_folder _ _ _ _ _ _ _ _ _ _ _ _ _ _ folder Hc) in Hr.
      destruct Hr as [(_ & [= ->] & ->) | [(? & _) | (g & d & ? & _)]];
        [done | congruence | congruence].
    - destruct Hs as (ss & sR & mu & sigma & inc & sS & rl & s1 & later & Hr & _).
      apply (resume_from_folder _ _ _ _ _ _ _ _ _ _ _ _ _ _ folder Hc) in Hr.
      destruct Hr as [(_ & ? & _) | [(? & _) | (g & d & ? & _)]];
        [done | congruence | congruence]. }
  destruct (build w c initial) as [[e | b] sB] eqn:Hb.
  - destruct (build_stops_run _ _ _ _ Hb) as [-> ->].
    split; [by eexists |]. split; [exact (build_trace _ _ _ _ Hb) | done].
  - destruct (Hgo _ _ eq_refl) as [-> ->].
    split; [by eexists |]. split; [exact (build_trace _ _ _ _ Hb) |].
    intros b' sB' [= <- <-]. by split.
Qed.

Lemma missing_checkpoint_folder_is_fatal_witness :
  checkpoint_folder (train_config (resumed_run 0)) = Some "checkpoints"
  /\ exists_ (custom_world 1 true false [64; 128])
       (abspath (custom_world 1 true false [64; 128]) "checkpoints") = false
  /\ exists e, outcome (custom_world 1 true false [64; 128]) (resumed_run 0)
               = Raise e.
Proof.
  split; [reflexivity |]. split; [reflexivity |].
  exact (proj1 (missing_checkpoint_folder_is_fatal
                  (custom_world 1 true false [64; 128]) (resumed_run 0)
                  "checkpoints" eq_refl eq_refl)).
Defined.

(** X15.  A run without checkpoint folder loads no checkpoint and hands its
    Trainer the bookkeeping of a new run: the run name made from the
    configuration path, the logger and the writer opened on it, the
    checkpoint directory made for it, best step 0 and no best score; that
    logger is the only one the run makes. *)
Theorem fresh_start_bookkeeping w c t :
  checkpoint_folder (train_config c) = None ->
  In (EvTrainer t) (calls w c) ->
  exists part,
    nth_error (split_slash (config_path c)) 3 = Some part
    /\ t_run_name t = fresh_name w part
    /\ t_logger t = fresh_name w part
    /\ t_writer t = join "./logs" (fresh_name w part)
    /\ t_checkpoint_dir t = checkpoint_dir_of w None (fresh_name w part)
    /\ t_best_step t = 0
    /\ t_best_fid t = None
    /\ t_best_fid_checkpoint_path t = None
    /\ loggers_of (calls w c) = [fresh_name w part]
    /\ loads_of (calls w c) = [].
Proof.
  intros Hc Hin. trainer_run Hin. exists part. split; [done |].
  destruct (calls_after_prepare _ _ _ _ Hprep) as (later & Hl & Fl & _).
  assert (loggers_of (calls w c) = loggers_of (trace sR)) as HL.
  { apply (omap_after_resume _ _ _ _ _ _ _ _ _ _ _ _ _ Hstats Hprobe Hl Fl);
      by intros []. }
  destruct (fresh_reported _ _ _ _ Hc Hprep) as [Hno _].
  rewrite resume_fresh in Hres by done. injection Hres as <- <-.
  rewrite HL. cbn [after trace]. rewrite loggers_of_app.
  rewrite (loggers_of_built _ _ _ _ Hb). by subst.
Qed.

Lemma fresh_start_bookkeeping_witness :
  checkpoint_folder (train_config fresh_run) = None
  /\ In (EvTrainer example_trainer) (calls single_gpu fresh_run)
  /\ exists part,
       nth_error (split_slash (config_path fresh_run)) 3 = Some part
       /\ t_run_name example_trainer = fresh_name single_gpu part.
Proof.
  split; [reflexivity |]. split; [exact example_trainer_constructed |].
  destruct (fresh_start_bookkeeping single_gpu fresh_run example_trainer
              eq_refl example_trainer_constructed) as (part & Hp & Hn & _).
  exists part. split; [exact Hp | exact Hn].
Defined.

Lemma loading_calls_loggers folder run_name Gen Dis Go Do g d ck :
  loggers_of (loading_calls folder run_name Gen Dis Go Do g d ck)
  = [ck_run_name ck].
Proof. done. Qed.

Lemma checking_calls_loggers c g d ck : loggers_of (checking_calls c g d ck) = [].
Proof. unfold checking_calls. by destruct (seed c =? ck_seed ck). Qed.

(** X16.  A resumed run that constructs its Trainer hands it the bookkeeping
    returned by the load of the Discriminator checkpoint (the load made with
    [metric=True], which overwrites what the Generator's load returned): run
    name, best step, best score and its path; the logger and the writer are
    made again on that run name, while the checkpoint directory stays the
    one made from the folder and the run's own fresh name; and the seeds
    agree. *)
Theorem resume_bookkeeping_from_discriminator w c folder t :
  checkpoint_folder (train_config c) = Some folder ->
  In (EvTrainer t) (calls w c) ->
  exists part path,
    nth_error (split_slash (config_path c)) 3 = Some part
    /\ head (matching w c (checkpoint_dir_of w (Some folder) (fresh_name w part))
               "D") = Some path
    /\ In (EvLoadCheckpoint (t_dis_model t) (Some (t_D_optimizer t)) path true
             false) (calls w c)
    /\ t_run_name t = ck_run_name (torch_load w path)
    /\ t_logger t = ck_run_name (torch_load w path)
    /\ t_writer t = join "./logs" (ck_run_name (torch_load w path))
    /\ t_best_step t = ck_best_step (torch_load w path)
    /\ t_best_fid t = ck_best_fid (torch_load w path)
    /\ t_best_fid_checkpoint_path t
       = ck_best_fid_checkpoint_path (torch_load w path)
    /\ t_checkpoint_dir t
       = checkpoint_dir_of w (Some folder) (fresh_name w part)
    /\ seed c = ck_seed (torch_load w path)
    /\ loggers_of (calls w c)
       = [fresh_name w part; ck_run_name (torch_load w path)].
Proof.
  intros Hc Hin. trainer_run Hin. exists part.
  destruct (calls_after_prepare _ _ _ _ Hprep) as (later & Hl & Fl & _).
  assert (loggers_of (calls w c) = loggers_of (trace sR)) as HL.
  { apply (omap_after_resume _ _ _ _ _ _ _ _ _ _ _ _ _ Hstats Hprobe Hl Fl);
      by intros []. }
  assert (forall e, In e (trace sR) -> In e (calls w c)) as Hsub.
  { intros e He. rewrite Hl.
    destruct (probing_calls _ _ _ _ _ _ _ _ _ _ _ Hstats Hprobe) as (evs & -> & _).
    apply in_or_app. left. apply in_or_app. by left. }
  pose proof (loggers_of_built _ _ _ _ Hb) as HLB.
  apply (resume_from_folder _ _ _ _ _ _ _ _ _ _ _ _ _ _ folder Hc) in Hres.
  cbv zeta in Hres.
  destruct Hres as [(_ & ? & _) | [(_ & _ & ? & _) | Hres]]; try done.
  destruct Hres as (gp & dp & _ & _ & HD & Hres). exists dp.
  assert (b_run_name b = fresh_name w part) as En by (by subst b).
  rewrite En in *.
  assert (exists copy more,
            trace sR
            = trace sB
              ++ loading_calls folder (fresh_name w part) (b_Gen b) (b_Dis b)
                   (b_G_optimizer b) (b_D_optimizer b) gp dp (torch_load w dp)
              ++ more
            /\ loggers_of more = []
            /\ Return ss
               = verdict c (torch_load w dp) copy
                   (checkpoint_dir_of w (Some folder) (fresh_name w part)))
    as (copy & more & HT & Hmore & Hv).
  { destruct Hres as [(_ & HT & Hv) | [(_ & _ & _ & ?) | Hres]]; [| done |].
    - exists (b_Gen_copy b), (checking_calls c gp dp (torch_load w dp)).
      split; [done |]. split; [apply checking_calls_loggers | done].
    - destruct Hres as (_ & x & _ & [Hres | (_ & _ & ?)]); [| done].
      destruct Hres as (copy & updater & _ & _ & HT & Hv & _).
      exists (Some copy),
        (EvLoadCheckpoint copy None x false true
         :: checking_calls c gp dp (torch_load w dp)).
      split; [done |]. split; [apply checking_calls_loggers | done]. }
  unfold verdict in Hv.
  destruct (Z.eqb_spec (seed c) (ck_seed (torch_load w dp))) as [Es | _];
    [| done].
  injection Hv as ->. split; [done |]. split; [done |].
  split.
  { apply Hsub. rewrite HT. apply in_or_app. right. apply in_or_app. left.
    subst t p. simpl. tauto. }
  rewrite HL, HT, !loggers_of_app, HLB, loading_calls_loggers, Hmore.
  by subst t p.
Qed.

Lemma resume_bookkeeping_from_discriminator_witness :
  checkpoint_folder (train_config (resumed_run 0)) = Some "checkpoints"
  /\ In (EvTrainer resumed_trainer) (calls single_gpu (resumed_run 0))
  /\ exists part path,
       nth_error (split_slash (config_path (resumed_run 0))) 3 = Some part
       /\ t_run_name resumed_trainer = ck_run_name (torch_load single_gpu path).
Proof.
  split; [reflexivity |]. split; [exact resumed_trainer_constructed |].
  destruct (resume_bookkeeping_from_discriminator single_gpu (resumed_run 0)
              "checkpoints" resumed_trainer eq_refl
              resumed_trainer_constructed)
    as (part & path & Hp & _ & _ & Hn & _).
  exists part, path. split; [exact Hp | exact Hn].
Defined.

(** ** Checkpoints and optimizers *)

(** X17.  A checkpoint is loaded together with an optimizer only for a model
    on which that very optimizer was made, and never with the EMA flag. *)
Theorem checkpoint_restores_model_with_its_optimizer w c model o path metric
    flag :
  In (EvLoadCheckpoint model (Some o) path metric flag) (calls w c) ->
  flag = false /\ exists kind, In (EvOptimizer o kind model) (calls w c).
Proof.
  intros Hin.
  assert (In (EvLoadCheckpoint model (Some o) path metric flag)
            (loads_of (calls w c))) as Hl by (by apply loads_of_in).
  destruct (prepare w c initial) as [r s] eqn:Hp.
  destruct (checkpoint_folder (train_config c)) as [folder |] eqn:Hc.
  2: { destruct (fresh_reported _ _ _ _ Hc Hp) as [E _]. by rewrite E in Hl. }
  assert (forall b sB,
            build w c initial = (Return b, sB) ->
            (model = b_Gen b /\ o = b_G_optimizer b
             \/ model = b_Dis b /\ o = b_D_optimizer b) ->
            exists kind, In (EvOptimizer o kind model) (calls w c)) as Hgo.
  { intros b sB Hb Hm. destruct (calls_from_build _ _ _ _ Hb) as (later & ->).
    apply build_returns in Hb as (_ & _ & Hb).
    destruct Hb as (part & kg & kd & Gen & Dis & Gc & Ge & _ & _ & _ & _ & Hb).
    cbv zeta in Hb. destruct Hb as (-> & -> & _).
    destruct Hm as [[-> ->] | [-> ->]]; [exists kg | exists kd];
      apply in_or_app; left; apply in_or_app; right; apply in_or_app; right;
      simpl; tauto. }
  destruct (resume_reported _ _ _ _ _ Hc Hp)
    as [e sB _ _ E | b sB _ _ _ E | b sB _ _ _ _ E | b sB g d Hb _ _ _ _ E
       | b sB g d more copy' Hb _ Hm E]; rewrite E in Hl; try done.
  - destruct Hl as [[= <- <- <- <- <-] | [[= <- <- <- <- <-] | []]];
      (split; [done |]); apply (Hgo _ _ Hb); tauto.
  - destruct Hl as [[= <- <- <- <- <-] | [[= <- <- <- <- <-] | Hl]];
      try ((split; [done |]); apply (Hgo _ _ Hb); tauto).
    cbv zeta in Hm. destruct Hm as (_ & _ & [(_ & -> & _) | Hm] & _); [done |].
    destruct Hm as (_ & x & copy & _ & _ & _ & ->).
    by destruct Hl as [[=] | []].
Qed.

Lemma checkpoint_restores_model_with_its_optimizer_witness :
  In (EvLoadCheckpoint 1%nat (Some 5%nat)
        (example_dir +:+ "/model=D-current-weights-step*.pth") true false)
    (calls single_gpu (resumed_run 0))
  /\ exists kind, In (EvOptimizer 5%nat kind 1%nat) (calls single_gpu (resumed_run 0)).
Proof.
  assert (In (EvLoadCheckpoint 1%nat (Some 5%nat)
                (example_dir +:+ "/model=D-current-weights-step*.pth") true false)
            (calls single_gpu (resumed_run 0))) as Hin by find_call.
  split; [exact Hin |].
  exact (proj2 (checkpoint_restores_model_with_its_optimizer single_gpu
                  (resumed_run 0) _ _ _ _ _ Hin)).
Defined.

(** ** The reference statistics (lines 159-171) *)

Lemma emits_no_inception_build w c :
  emits (holds (fun e => negb (is_inception e) && negb (is_prepare e))) (build w c).
Proof. unfold build. emits_script. Qed.

Lemma emits_no_inception_resume w c run_name logger writer Gen Dis G_optimizer
    D_optimizer Gen_copy Gen_ema :
  emits (holds (fun e => negb (is_inception e) && negb (is_prepare e)))
    (resume w c run_name logger writer Gen Dis G_optimizer D_optimizer Gen_copy
       Gen_ema).
Proof. emits_script. Qed.

Lemma emits_no_inception_probe w c Dis n d sec :
  emits (holds (fun e => negb (is_inception e) && negb (is_prepare e)))
    (linear_probe w c Dis n d sec).
Proof. emits_script. Qed.

(** X18.  With evaluation disabled no Inception network is constructed and
    the preparer of the reference statistics is never invoked; the Trainer
    is constructed without statistics and without Inception network. *)
Theorem no_evaluation_no_reference_statistics w c :
  tc_eval (train_config c) = false ->
  Forall (fun e => is_inception e = false /\ is_prepare e = false) (calls w c)
  /\ forall t,
       In (EvTrainer t) (calls w c) ->
       t_mu t = None /\ t_sigma t = None /\ t_inception_model t = None
       /\ t_evaluate t = false.
Proof.
  intros He. split.
  - assert (Forall (holds (fun e => negb (is_inception e) && negb (is_prepare e)))
              (calls w c)) as F.
    { apply run_forall; [apply emits_no_inception_build | | by intros []].
      intros b sB _. unfold finish, reference_statistics. rewrite He.
      repeat first [ apply emits_no_inception_resume
                   | apply emits_no_inception_probe | emits_step idtac ]. }
    eapply Forall_impl; [exact F |]. intros e H. unfold holds in H.
    by destruct (is_inception e), (is_prepare e).
  - intros t Hin. trainer_run Hin. unfold stats_of in Hst. rewrite He in Hst.
    injection Hst as <- <- <-. by subst t p.
Qed.

Lemma no_evaluation_no_reference_statistics_witness :
  tc_eval (train_config (custom_config example_path "biggan32" "no" "Adam" 32
                           true 1 no_passes)) = false
  /\ Forall (fun e => is_inception e = false /\ is_prepare e = false)
       (calls single_gpu
          (custom_config example_path "biggan32" "no" "Adam" 32 true 1
             no_passes)).
Proof.
  split; [reflexivity |].
  exact (proj1 (no_evaluation_no_reference_statistics single_gpu
                  (custom_config example_path "biggan32" "no" "Adam" 32 true 1
                     no_passes) eq_refl)).
Defined.

(** X19.  The Inception network is constructed only when evaluation is
    enabled, and it is always replicated, whatever the number of devices:
    its replica, gathering on the second device, is what the preparer of the
    reference statistics is invoked with, on ten splits.  On a machine with
    one device it is the only replica a run makes. *)
Theorem inception_is_always_replicated w c :
  (forall r,
     In (EvConstruct r InceptionV3) (calls w c) ->
     tc_eval (train_config c) = true
     /\ In (EvDataParallel (S r) r (second_device_of w c)) (calls w c)
     /\ exists loader g rn lg,
          In (EvPrepareMoments loader g (type4eval_dataset c) (S r) 10 rn lg
                (second_device_of w c)) (calls w c))
  /\ (device_count w = 1 ->
      forall r inner dev,
        In (EvDataParallel r inner dev) (calls w c) ->
        In (EvConstruct inner InceptionV3) (calls w c)).
Proof.
  split.
  - intros r Hin.
    destruct (run_parts
                (holds (fun e => negb (is_inception e) && negb (is_prepare e)))
                w c)
      as (before & stats & later & Hc & Fb & Fl & Hs);
      [apply emits_no_inception_build | intros; apply emits_no_inception_resume
      | intros; apply emits_no_inception_probe | by intros [] |].
    rewrite Hc in *. apply in_app_or in Hin as [Hin | Hin];
      [by destruct (in_forall_false _ _ _ Fb Hin) |].
    apply in_app_or in Hin as [Hin | Hin];
      [| by destruct (in_forall_false _ _ _ Fl Hin)].
    destruct Hs as [-> | (He & lo & loader & g & rn & lg & ->)]; [done |].
    destruct Hin as [[= <-] | [[=] | [[=] | []]]].
    split; [done |]. split.
    + apply in_or_app. right. apply in_or_app. left. simpl. tauto.
    + exists loader, g, rn, lg.
      apply in_or_app. right. apply in_or_app. left. simpl. tauto.
  - intros Hn r inner dev Hin.
    assert ((1 <? device_count w) = false) as Hlt by (rewrite Hn; done).
    destruct (run_parts (holds (fun e => negb (is_replica e))) w c)
      as (before & stats & later & Hc & Fb & Fl & Hs).
    + apply emits_build; [emits_script | emits_script | intros; emits_script | |
                          intros; emits_script].
      intros logger. unfold build_models. rewrite Hlt. emits_script.
    + intros. emits_script.
    + intros Dis. unfold linear_probe. rewrite Hlt. emits_script.
    + by intros [].
    + rewrite Hc in *. apply in_app_or in Hin as [Hin | Hin];
        [by destruct (in_forall_false _ _ _ Fb Hin) |].
      apply in_app_or in Hin as [Hin | Hin];
        [| by destruct (in_forall_false _ _ _ Fl Hin)].
      destruct Hs as [-> | (He & lo & loader & g & rn & lg & ->)]; [done |].
      destruct Hin as [[=] | [[= <- <- <-] | [[=] | []]]].
      apply in_or_app. right. apply in_or_app. left. simpl. tauto.
Qed.

Lemma inception_is_always_replicated_witness :
  In (EvConstruct 6%nat InceptionV3) (calls single_gpu fresh_run)
  /\ device_count single_gpu = 1
  /\ In (EvDataParallel 7%nat 6%nat (second_device_of single_gpu fresh_run))
       (calls single_gpu fresh_run).
Proof.
  assert (In (EvConstruct 6%nat InceptionV3) (calls single_gpu fresh_run)) as Hin
    by find_call.
  split; [exact Hin |]. split; [reflexivity |].
  exact (proj1 (proj2 (proj1 (inception_is_always_replicated single_gpu
                                fresh_run) _ Hin))).
Defined.

(** ** The linear probe (lines 173-191) *)

Lemma emits_no_probe_build w c :
  emits (holds (fun e => negb (is_probe e) && negb (is_trainer_event e)))
    (build w c).
Proof. unfold build. emits_script. Qed.

Lemma emits_no_probe_resume w c run_name logger writer Gen Dis G_optimizer
    D_optimizer Gen_copy Gen_ema :
  emits (holds (fun e => negb (is_probe e) && negb (is_trainer_event e)))
    (resume w c run_name logger writer Gen Dis G_optimizer D_optimizer Gen_copy
       Gen_ema).
Proof. emits_script. Qed.

(** The calls of a run up to line 171 construct no linear classifier and
    are not the Trainer's. *)
Lemma no_probe_before_line_173 w c b sB ss sR sS :
  build w c initial = (Return b, sB) ->
  resume w c (b_run_name b) (b_logger b) (b_writer b) (b_Gen b) (b_Dis b)
    (b_G_optimizer b) (b_D_optimizer b) (b_Gen_copy b) (b_Gen_ema b) sB
  = (Return ss, sR) ->
  trace sS
  = trace sR
    ++ (if tc_eval (train_config c) then
          [EvConstruct (next sR) InceptionV3;
           EvDataParallel (S (next sR)) (next sR) (b_second_device b);
           EvPrepareMoments (b_eval_dataloader b) (b_Gen b)
             (type4eval_dataset c) (S (next sR)) 10 (s_run_name ss)
             (s_logger ss) (b_second_device b)]
        else []) ->
  Forall (holds (fun e => negb (is_probe e) && negb (is_trainer_event e)))
    (trace sS).
Proof.
  intros Hb Hr ->.
  pose proof (emits_trace _ _ _ _ _ (emits_no_probe_build w c) Hb
                (List.Forall_nil _)) as FB.
  pose proof (emits_trace _ _ _ _ _
                (emits_no_probe_resume _ _ _ _ _ _ _ _ _ _ _) Hr FB) as FR.
  apply Forall_app. split; [done |].
  destruct (tc_eval _); by repeat constructor.
Qed.

(** X20.  A linear classifier is constructed only with linear evaluation
    enabled, and its input width is the hypersphere dimension under
    ContraGAN and otherwise the last of the Discriminator's output
    dimensions, which can only be read on a single device, where the
    Discriminator is not replicated. *)
Theorem linear_probe_input_width w c r ic :
  In (EvConstruct r (linear_classifier ic)) (calls w c) ->
  linear_evaluation (train_config c) = true
  /\ (conditional_strategy c = "ContraGAN" -> ic = hypersphere_dim c)
  /\ (conditional_strategy c <> "ContraGAN" ->
      device_count w <= 1 /\ last (out_dims w) = Some ic).
Proof.
  intros Hin.
  destruct (run_stages w c) as [(e & sB & Hb & Hc & _) | (b & sB & Hb & Hs)].
  { rewrite Hc in Hin.
    by destruct (in_forall_false _ _ _
                   (emits_trace _ _ _ _ _ (emits_no_probe_build w c) Hb
                      (List.Forall_nil _)) Hin). }
  pose proof (emits_trace _ _ _ _ _ (emits_no_probe_build w c) Hb
                (List.Forall_nil _)) as FB.
  destruct Hs as [(e & sR & Hr & Hc & _) | Hs].
  { rewrite Hc in Hin.
    by destruct (in_forall_false _ _ _
                   (emits_trace _ _ _ _ _
                      (emits_no_probe_resume _ _ _ _ _ _ _ _ _ _ _) Hr FB) Hin). }
  destruct Hs as (ss & sR & mu & sigma & inc & sS & rl & s1 & later & Hr & _ & Hs
                  & HT & Hl & Hc & Fl & _).
  pose proof (no_probe_before_line_173 _ _ _ _ _ _ _ Hb Hr HT) as FS.
  pose proof (linear_probe_in_run _ _ _ _ _ _ _ _ _ _ _ _ Hb Hr Hs Hl) as Hp.
  rewrite Hc in Hin. apply in_app_or in Hin as [Hin | Hin].
  2: { rewrite List.Forall_forall in Fl. by specialize (Fl _ Hin). }
  destruct (linear_evaluation (train_config c)).
  2: { destruct Hp as [_ ->]. by destruct (in_forall_false _ _ _ FS Hin). }
  split; [done |].
  destruct (in_channels_of w c) as [e | ic0] eqn:Hi.
  { destruct Hp as [_ ->]. by destruct (in_forall_false _ _ _ FS Hin). }
  destruct Hp as (k & _ & _ & HT1). rewrite HT1 in Hin.
  apply in_app_or in Hin as [Hin | Hin];
    [by destruct (in_forall_false _ _ _ FS Hin) |].
  assert (ic0 = ic) as ->.
  { apply in_app_or in Hin as [Hin | [[=] | []]]. unfold probe_calls in Hin.
    destruct Hin as [[= _ <-] | Hin]; [done |].
    destruct (1 <? device_count w); [| done].
    destruct Hin as [[=] | Hin]. by destruct (synchronized_bn c), Hin. }
  unfold in_channels_of in Hi.
  destruct (String.eqb_spec (conditional_strategy c) "ContraGAN") as [E | E].
  - injection Hi as <-. by split.
  - split; [done |]. intros _.
    destruct (Z.ltb_spec 1 (device_count w)); [done |].
    split; [lia |].
    destruct (last (out_dims w)) as [x |]; [by injection Hi as -> | done].
Qed.

Lemma linear_probe_input_width_witness :
  In (EvConstruct 8%nat (linear_classifier 128))
    (calls single_gpu
       (custom_config example_path "biggan32" "no" "Adam" 32 true 1 full_passes))
  /\ linear_evaluation
       (train_config
          (custom_config example_path "biggan32" "no" "Adam" 32 true 1
             full_passes)) = true.
Proof.
  assert (In (EvConstruct 8%nat (linear_classifier 128))
            (calls single_gpu
               (custom_config example_path "biggan32" "no" "Adam" 32 true 1
                  full_passes))) as Hin by find_call.
  split; [exact Hin |].
  exact (proj1 (linear_probe_input_width single_gpu _ _ _ Hin)).
Defined.

(** X21.  With linear evaluation enabled on several devices and a strategy
    other than ContraGAN, line 174 reads [out_dims] on the replica of the
    Discriminator, which has no such attribute: no run constructs a linear
    classifier or a Trainer, and a run that gets through the resume block
    ends in AttributeError. *)
Theorem linear_probe_fails_on_replicas w c :
  linear_evaluation (train_config c) = true ->
  1 < device_count w ->
  conditional_strategy c <> "ContraGAN" ->
  (exists e, outcome w c = Raise e)
  /\ Forall (fun e => is_probe e = false /\ is_trainer_event e = false)
       (calls w c)
  /\ (forall b sB ss sR,
        build w c initial = (Return b, sB) ->
        resume w c (b_run_name b) (b_logger b) (b_writer b) (b_Gen b) (b_Dis b)
          (b_G_optimizer b) (b_D_optimizer b) (b_Gen_copy b) (b_Gen_ema b) sB
        = (Return ss, sR) ->
        outcome w c = Raise (AttributeError "out_dims")).
Proof.
  intros Hl Hn Hs.
  assert (in_channels_of w c = Raise (AttributeError "out_dims")) as Hi.
  { unfold in_channels_of.
    destruct (String.eqb_spec (conditional_strategy c) "ContraGAN"); [done |].
    by destruct (Z.ltb_spec 1 (device_count w)); [| lia]. }
  assert (forall evs,
            Forall (holds (fun e => negb (is_probe e) && negb (is_trainer_event e)))
              evs ->
            Forall (fun e => is_probe e = false /\ is_trainer_event e = false) evs)
    as Himp.
  { intros evs F. eapply Forall_impl; [exact F |]. intros e H. unfold holds in H.
    by destruct (is_probe e), (is_trainer_event e). }
  destruct (run_stages w c) as [(e & sB & Hb & -> & ->) | (b & sB & Hb & Hst)].
  { split; [by eexists |]. split; [| intros; congruence].
    apply Himp.
    exact (emits_trace _ _ _ _ _ (emits_no_probe_build w c) Hb (List.Forall_nil _)). }
  pose proof (emits_trace _ _ _ _ _ (emits_no_probe_build w c) Hb
                (List.Forall_nil _)) as FB.
  destruct Hst as [(e & sR & Hr & -> & ->) | Hst].
  { split; [by eexists |]. split.
    - apply Himp.
      exact (emits_trace _ _ _ _ _
               (emits_no_probe_resume _ _ _ _ _ _ _ _ _ _ _) Hr FB).
    - intros b' sB' ss sR' Hb' Hr'.
      assert (b' = b /\ sB' = sB) as [-> ->] by (split; congruence). congruence. }
  destruct Hst as (ss & sR & mu & sigma & inc & sS & rl & s1 & later & Hr & _
                   & Hst & HT & Hp & Hc & Fl & Ho).
  pose proof (no_probe_before_line_173 _ _ _ _ _ _ _ Hb Hr HT) as FS.
  pose proof (linear_probe_in_run _ _ _ _ _ _ _ _ _ _ _ _ Hb Hr Hst Hp) as Hq.
  rewrite Hl, Hi in Hq. destruct Hq as [-> ->]. destruct Ho as [Ho ->].
  rewrite app_nil_r in Hc. rewrite Hc, Ho.
  split; [by eexists |]. split; [by apply Himp | done].
Qed.

Lemma linear_probe_fails_on_replicas_witness :
  linear_evaluation
    (train_config
       (custom_config example_path "biggan32" "no" "Adam" 32 true 1 full_passes))
  = true
  /\ 1 < device_count two_gpus
  /\ exists e,
       outcome two_gpus
         (custom_config example_path "biggan32" "no" "Adam" 32 true 1 full_passes)
       = Raise e.
Proof.
  split; [reflexivity |]. split; [reflexivity |].
  refine (proj1 (linear_probe_fails_on_replicas two_gpus
                   (custom_config example_path "biggan32" "no" "Adam" 32 true 1
                      full_passes) eq_refl eq_refl _)).
  vm_compute. discriminate.
Defined.

Lemma emits_no_probe_off w c :
  linear_evaluation (train_config c) = false ->
  forall b, emits (holds (fun e => negb (is_probe e))) (finish w c b).
Proof.
  intros Hl b. unfold finish, linear_probe. rewrite Hl. emits_script.
Qed.

(** X22.  With linear evaluation disabled no linear classifier is constructed,
    and the Trainer is constructed without linear model and without an
    optimizer for it. *)
Theorem no_linear_evaluation_no_probe w c :
  linear_evaluation (train_config c) = false ->
  Forall (fun e => is_probe e = false) (calls w c)
  /\ forall t,
       In (EvTrainer t) (calls w c) ->
       t_linear_model t = None /\ t_L_optimizer t = None.
Proof.
  intros Hl. split.
  - assert (Forall (holds (fun e => negb (is_probe e))) (calls w c)) as F.
    { apply run_forall; [unfold build; emits_script | | by intros []].
      intros b sB _. by apply emits_no_probe_off. }
    eapply Forall_impl; [exact F |]. intros e H. unfold holds in H.
    by destruct (is_probe e).
  - intros t Hin. trainer_run Hin. rewrite Hl in Hlin.
    destruct Hlin as (-> & -> & _). by subst t p.
Qed.

Lemma no_linear_evaluation_no_probe_witness :
  linear_evaluation (train_config fresh_run) = false
  /\ In (EvTrainer example_trainer) (calls single_gpu fresh_run)
  /\ t_linear_model example_trainer = None.
Proof.
  split; [reflexivity |]. split; [exact example_trainer_constructed |].
  exact (proj1 (proj2 (no_linear_evaluation_no_probe single_gpu fresh_run
                         eq_refl) example_trainer example_trainer_constructed)).
Defined.

(** ** After the Trainer is constructed (lines 264-280) *)

Lemma filter_pass_none (q : event -> bool) evs :
  (forall e, q e = true -> is_pass e = false) ->
  Forall (holds q) evs -> List.filter is_pass evs = [].
Proof. apply filter_none. Qed.

Lemma filter_pass_loop c t start loop :
  loop_part c t start loop -> List.filter is_pass loop = [].
Proof.
  unfold loop_part. destruct (tc_train (train_config c)); [| by intros ->].
  intros (body & -> & F & _). simpl.
  induction F as [| e body He _ IH]; [done |]. simpl. by destruct e.
Qed.

(** X23.  Once the Trainer is constructed nothing in the script can fail: the
    run returns, it constructed that Trainer only, and the passes it makes
    after training are, in this order and all on that Trainer, the
    nearest-neighbour pass, the two interpolations (first with fixed noise
    then with fixed labels) and the linear classification, each exactly when
    its flag is set. *)
Theorem trainer_construction_completes_the_run w c t :
  In (EvTrainer t) (calls w c) ->
  outcome w c = Return tt
  /\ (forall t', In (EvTrainer t') (calls w c) -> t' = t)
  /\ List.filter is_pass (calls w c)
     = (if k_nearest_neighbor (train_config c) then
          [EvNearestNeighbor t (nrow (train_config c)) (ncol (train_config c))]
        else [])
       ++ (if interpolation (train_config c) then
             [EvLinearInterpolation t (nrow (train_config c))
                (ncol (train_config c)) true false;
              EvLinearInterpolation t (nrow (train_config c))
                (ncol (train_config c)) false true]
           else [])
       ++ (if linear_evaluation (train_config c) then
             [EvLinearClassification t (step_linear_eval (train_config c))]
           else []).
Proof.
  intros Hin. pose proof Hin as Hin'.
  apply trainer_in_run in Hin
    as (p & s1 & g & d & loop & Hp & Hreg & Ht & Hout & Hcalls & Hloop).
  split; [done |]. split.
  - intros t' Hin2.
    apply trainer_in_run in Hin2 as (p' & s1' & g' & d' & _ & Hp' & Hreg' & -> & _).
    subst t. congruence.
  - rewrite Hcalls, List.filter_app.
    rewrite (filter_pass_none (fun e => negb (is_trainer_event e)) (trace s1)).
    2: { by intros []. }
    2: { eapply Forall_impl; [exact (prepare_trace _ _ _ _ Hp) |].
         intros e He. unfold holds. by rewrite He. }
    cbn [List.filter is_pass app]. rewrite List.filter_app.
    rewrite (filter_pass_loop _ _ _ _ Hloop). unfold closing_calls.
    by destruct (tc_eval _), (k_nearest_neighbor _), (interpolation _),
      (linear_evaluation _).
Qed.

Lemma trainer_construction_completes_the_run_witness :
  In (EvTrainer example_trainer) (calls single_gpu fresh_run)
  /\ outcome single_gpu fresh_run = Return tt.
Proof.
  split; [exact example_trainer_constructed |].
  exact (proj1 (trainer_construction_completes_the_run single_gpu fresh_run
                  example_trainer example_trainer_constructed)).
Defined.




